(** * Career Referee: the response-normalisation pipeline

    A shallow embedding of [models.py] and [referee_agent.py]: the record
    types [CareerInfo] and [ComparisonResult] with their construction-time
    checks, the dictionary round trip, the response parser
    [_parse_ai_response], the salary normaliser [standardize_salary] with
    its regular expressions, and the provider fallback loop [run_referee].

    Conventions.
    - A Python [str] is a [string]; the operations [lower], [strip] and the
      regular-expression classes [\s], [\w] are modelled exactly on the
      ASCII range, and a character above 127 is an opaque symbol that is
      neither a space nor a word character and has no case.
    - A Python value whose type the code does not fix (a decoded JSON
      document, a dataclass field) is a [pyval].
    - A call that may raise returns [result A]: [Ok a] or [Err e] with the
      exception [e]. *)

From Stdlib Require Import String Ascii List Bool ZArith Arith Lia DecimalString.
Import ListNotations.
Open Scope list_scope.
Open Scope string_scope.

(* ================================================================= *)
(** ** Exceptions and results *)

(** The exceptions the code raises or meets.  The messages of those that
    Python itself raises ([TypeError], [AttributeError], [KeyError]) are
    indicative; no property below depends on their wording. *)
Inductive exn : Type :=
| ValueError (msg : string)
| JSONDecodeError (msg : string)      (* a subclass of ValueError *)
| KeyError (key : string)
| TypeError (msg : string)
| AttributeError (msg : string)
| Exception (msg : string).

Inductive result (A : Type) : Type :=
| Ok (a : A)
| Err (e : exn).
Arguments Ok {A} a.
Arguments Err {A} e.

Definition bind {A B : Type} (m : result A) (k : A -> result B) : result B :=
  match m with
  | Ok a => k a
  | Err e => Err e
  end.

Notation "x <- m ;; k" := (bind m (fun x => k))
  (at level 61, m at next level, right associativity).
Notation "m ;;; k" := (bind m (fun _ => k))
  (at level 61, right associativity).

(** [str(e)] for an exception [e]. *)
Definition exn_str (e : exn) : string :=
  match e with
  | ValueError m | JSONDecodeError m | TypeError m
  | AttributeError m | Exception m => m
  | KeyError k => "'" ++ k ++ "'"
  end.

(** [isinstance(e, ValueError)]. *)
Definition is_ValueError (e : exn) : bool :=
  match e with
  | ValueError _ | JSONDecodeError _ => true
  | _ => false
  end.

(** A loop [for x in xs: body(x)] whose body may raise. *)
Fixpoint for_each {A : Type} (xs : list A) (body : A -> result unit)
  : result unit :=
  match xs with
  | [] => Ok tt
  | x :: rest => body x ;;; for_each rest body
  end.

(* ================================================================= *)
(** ** Python strings *)

Module PyStr.

Definition code (c : ascii) : nat := nat_of_ascii c.

Definition in_range (lo hi c : ascii) : bool :=
  (code lo <=? code c)%nat && (code c <=? code hi)%nat.

(** [str.isspace] on the ASCII range: TAB..CR, FS..US and the blank. *)
Definition is_space (c : ascii) : bool :=
  ((9 <=? code c)%nat && (code c <=? 13)%nat)
  || ((28 <=? code c)%nat && (code c <=? 32)%nat).

Definition is_digit (c : ascii) : bool := in_range "0" "9" c.

(** The class [\w] on the ASCII range. *)
Definition is_word (c : ascii) : bool :=
  in_range "a" "z" c || in_range "A" "Z" c || is_digit c
  || Ascii.eqb c "_".

Definition lower_char (c : ascii) : ascii :=
  if in_range "A" "Z" c then ascii_of_nat (code c + 32) else c.

Fixpoint lower (s : string) : string :=
  match s with
  | EmptyString => EmptyString
  | String c r => String (lower_char c) (lower r)
  end.

Definition is_empty (s : string) : bool :=
  match s with
  | EmptyString => true
  | String _ _ => false
  end.

Fixpoint lstrip (s : string) : string :=
  match s with
  | EmptyString => EmptyString
  | String c r => if is_space c then lstrip r else s
  end.

Fixpoint rstrip (s : string) : string :=
  match s with
  | EmptyString => EmptyString
  | String c r =>
      let r' := rstrip r in
      if is_empty r' && is_space c then EmptyString else String c r'
  end.

Definition strip (s : string) : string := rstrip (lstrip s).

Definition startswith (s p : string) : bool := String.prefix p s.

(** [s[n:]] *)
Fixpoint drop (n : nat) (s : string) : string :=
  match n, s with
  | O, _ => s
  | S _, EmptyString => EmptyString
  | S n', String _ r => drop n' r
  end.

(** [s[:n]] for a non-negative [n] *)
Fixpoint take (n : nat) (s : string) : string :=
  match n, s with
  | O, _ => EmptyString
  | S _, EmptyString => EmptyString
  | S n', String c r => String c (take n' r)
  end.

Definition endswith (s p : string) : bool :=
  (String.length p <=? String.length s)%nat
  && String.eqb (drop (String.length s - String.length p) s) p.

(** [s[:-n]] for a positive [n] *)
Definition drop_last (n : nat) (s : string) : string :=
  take (String.length s - n) s.

(** [x in xs] for a list of strings *)
Definition mem (x : string) (xs : list string) : bool :=
  existsb (String.eqb x) xs.

Fixpoint join (sep : string) (xs : list string) : string :=
  match xs with
  | [] => ""
  | [x] => x
  | x :: rest => x ++ sep ++ join sep rest
  end.

(** [repr] of a string without quotes or escapes in it, and of a list
    of such strings. *)
Definition repr (s : string) : string := "'" ++ s ++ "'".
Definition repr_list (xs : list string) : string :=
  "[" ++ join ", " (map repr xs) ++ "]".

Definition of_nat (n : nat) : string :=
  NilEmpty.string_of_uint (Nat.to_uint n).

End PyStr.

(* ================================================================= *)
(** ** Regular expressions: the fragment of [re] the normaliser uses *)

Module Re.
Import PyStr.

Inductive regex : Type :=
| Eps                                     (* the empty pattern *)
| Chr (c : ascii)                         (* a literal character *)
| Cls (ranges : list (ascii * ascii))     (* [a-bc-d], [x] as (x, x) *)
| Space                                   (* \s *)
| WordB                                   (* \b *)
| Cat (r1 r2 : regex)
| Alt (r1 r2 : regex)
| Opt (r : regex)                         (* r? *)
| Star (r : regex)                        (* r* *)
| Plus (r : regex).                       (* r+ *)

(** A literal word, character by character. *)
Fixpoint lit (s : string) : regex :=
  match s with
  | EmptyString => Eps
  | String c r => Cat (Chr c) (lit r)
  end.

(** [(w1|w2|...)] for literal words. *)
Fixpoint any_of (ws : list string) : regex :=
  match ws with
  | [] => Cls []
  | [w] => lit w
  | w :: rest => Alt (lit w) (any_of rest)
  end.

(** A sequence of patterns. *)
Fixpoint seq (rs : list regex) : regex :=
  match rs with
  | [] => Eps
  | [r] => r
  | r :: rest => Cat r (seq rest)
  end.

(** A position in the subject: the character before it, if any, and
    what is left to read. *)
Definition pos : Type := (option ascii * string)%type.

Definition word_before (p : option ascii) : bool :=
  match p with
  | Some c => is_word c
  | None => false
  end.

Definition word_after (s : string) : bool :=
  match s with
  | String c _ => is_word c
  | EmptyString => false
  end.

Definition in_class (ranges : list (ascii * ascii)) (c : ascii) : bool :=
  existsb (fun '(lo, hi) => in_range lo hi c) ranges.

Definition one (ok : ascii -> bool) (s : string) : list pos :=
  match s with
  | String c r => if ok c then [(Some c, r)] else []
  | EmptyString => []
  end.

(** Repetition: the positions reachable by any number of [step]s, each
    of which reads at least one character. *)
Fixpoint iterate (step : pos -> list pos) (fuel : nat) (front : list pos)
  : list pos :=
  match fuel with
  | O => front
  | S n =>
      front ++
      iterate step n
        (flat_map (fun p =>
           filter (fun q => (String.length (snd q) <? String.length (snd p))%nat)
                  (step p)) front)
  end.

(** All the positions where a match of [r] that starts at [(prev, s)]
    may end. *)
Fixpoint ends (r : regex) (prev : option ascii) (s : string) : list pos :=
  match r with
  | Eps => [(prev, s)]
  | Chr c => one (Ascii.eqb c) s
  | Cls ranges => one (in_class ranges) s
  | Space => one is_space s
  | WordB => if xorb (word_before prev) (word_after s) then [(prev, s)] else []
  | Cat r1 r2 => flat_map (fun p => ends r2 (fst p) (snd p)) (ends r1 prev s)
  | Alt r1 r2 => ends r1 prev s ++ ends r2 prev s
  | Opt r1 => (prev, s) :: ends r1 prev s
  | Star r1 =>
      iterate (fun p => ends r1 (fst p) (snd p)) (String.length s) [(prev, s)]
  | Plus r1 =>
      flat_map (fun p =>
        iterate (fun q => ends r1 (fst q) (snd q))
                (String.length (snd p)) [p])
        (ends r1 prev s)
  end.

Definition matches_at (r : regex) (prev : option ascii) (s : string) : bool :=
  negb (Nat.eqb (List.length (ends r prev s)) 0).

(** [re.search(r, s) is not None]: a match starting at some position. *)
Fixpoint search_from (r : regex) (prev : option ascii) (s : string) : bool :=
  matches_at r prev s
  || match s with
     | EmptyString => false
     | String c rest => search_from r (Some c) rest
     end.

Definition search (r : regex) (s : string) : bool := search_from r None s.

End Re.

(* ================================================================= *)
(** ** Python values *)

(** What [json.loads] may return, and what a dataclass field may hold.
    A number with a fraction or an exponent is kept as the decimal
    [m * 10^e] it was written as; the code never computes with it. *)
#[warnings="-register-all"]
Inductive pyval : Type :=
| PNone
| PBool (b : bool)
| PInt (z : Z)
| PFloat (m e : Z)
| PStr (s : string)
| PList (l : list pyval)
| PDict (d : list (string * pyval)).

(** A [dict] with string keys is an association list in insertion order;
    the first binding of a key is the one the dictionary holds. *)
Definition pydict : Type := list (string * pyval).

Fixpoint dict_get (d : pydict) (k : string) : option pyval :=
  match d with
  | [] => None
  | (k', v) :: rest => if String.eqb k k' then Some v else dict_get rest k
  end.

(** [k in d] *)
Definition dict_mem (k : string) (d : pydict) : bool :=
  match dict_get d k with
  | Some _ => true
  | None => false
  end.

(** [bool(v)] *)
Definition truthy (v : pyval) : bool :=
  match v with
  | PNone => false
  | PBool b => b
  | PInt z => negb (Z.eqb z 0)
  | PFloat m _ => negb (Z.eqb m 0)
  | PStr s => negb (PyStr.is_empty s)
  | PList l => negb (Nat.eqb (List.length l) 0)
  | PDict d => negb (Nat.eqb (List.length d) 0)
  end.

(** [type(v).__name__] and [str(type(v))] *)
Definition type_name (v : pyval) : string :=
  match v with
  | PNone => "NoneType"
  | PBool _ => "bool"
  | PInt _ => "int"
  | PFloat _ _ => "float"
  | PStr _ => "str"
  | PList _ => "list"
  | PDict _ => "dict"
  end.

Definition type_str (v : pyval) : string :=
  "<class '" ++ type_name v ++ "'>".

(** [isinstance(v, list)], with the length when it is one. *)
Definition list_len (v : pyval) : option nat :=
  match v with
  | PList l => Some (List.length l)
  | _ => None
  end.

(* ================================================================= *)
(** ** models.py *)

Record CareerInfo : Type := mkCareerInfo {
  overview : pyval;
  skills : pyval;
  salary : pyval;
  time_to_enter : pyval;
  pros : pyval;
  cons : pyval
}.

Record ComparisonResult : Type := mkComparisonResult {
  career_a : CareerInfo;
  career_b : CareerInfo;
  decision_guide : pyval
}.

(** [isinstance(v, list) and len(v) == 3] *)
Definition is_list_of_3 (v : pyval) : bool :=
  match list_len v with
  | Some n => Nat.eqb n 3
  | None => false
  end.

(** [CareerInfo.__post_init__] *)
Definition CareerInfo_post_init (c : CareerInfo) : result unit :=
  if negb (is_list_of_3 (pros c)) then
    Err (ValueError "Pros must be a list with exactly 3 items")
  else if negb (is_list_of_3 (cons c)) then
    Err (ValueError "Cons must be a list with exactly 3 items")
  else Ok tt.

(** [CareerInfo(overview=..., ..., cons=...)]: the generated [__init__]
    stores the fields and runs [__post_init__]. *)
Definition CareerInfo_new (overview skills salary time_to_enter pros cons : pyval)
  : result CareerInfo :=
  let c := mkCareerInfo overview skills salary time_to_enter pros cons in
  CareerInfo_post_init c ;;; Ok c.

(** [isinstance(v, list) and len(v) >= 2], negated in the source. *)
Definition is_list_of_2_or_more (v : pyval) : bool :=
  match list_len v with
  | Some n => (2 <=? n)%nat
  | None => false
  end.

(** [ComparisonResult.__post_init__] *)
Definition ComparisonResult_post_init (r : ComparisonResult) : result unit :=
  if negb (is_list_of_2_or_more (decision_guide r)) then
    Err (ValueError
           "Decision guide must be a list with at least 2 guidance statements")
  else Ok tt.

Definition ComparisonResult_new (career_a career_b : CareerInfo)
           (decision_guide : pyval) : result ComparisonResult :=
  let r := mkComparisonResult career_a career_b decision_guide in
  ComparisonResult_post_init r ;;; Ok r.

Definition CareerInfo_to_dict (c : CareerInfo) : pyval :=
  PDict [("overview", overview c);
         ("skills", skills c);
         ("salary", salary c);
         ("time_to_enter", time_to_enter c);
         ("pros", pros c);
         ("cons", cons c)].

(** [ComparisonResult.to_dict] *)
Definition to_dict (r : ComparisonResult) : pyval :=
  PDict [("career_a", CareerInfo_to_dict (career_a r));
         ("career_b", CareerInfo_to_dict (career_b r));
         ("decision_guide", decision_guide r)].

Definition CareerInfo_fields : list string :=
  ["overview"; "skills"; "salary"; "time_to_enter"; "pros"; "cons"].

(** [d[k]]: subscription of a value, which must be a dict holding [k]. *)
Definition subscript (v : pyval) (k : string) : result pyval :=
  match v with
  | PDict d =>
      match dict_get d k with
      | Some x => Ok x
      | None => Err (KeyError k)
      end
  | PList _ =>
      Err (TypeError "list indices must be integers or slices, not str")
  | PStr _ => Err (TypeError "string indices must be integers, not 'str'")
  | _ => Err (TypeError ("'" ++ type_name v ++ "' object is not subscriptable"))
  end.

(** One keyword argument of a call that unpacks the dict [kw]. *)
Definition kwarg (kw : pydict) (k : string) : result pyval :=
  match dict_get kw k with
  | Some x => Ok x
  | None =>
      Err (TypeError ("CareerInfo.__init__() missing required argument: '"
                      ++ k ++ "'"))
  end.

(** [CareerInfo] called with [v] unpacked as its keyword arguments: [v]
    must be a mapping, every key of it must name a field, and every field
    must be given. *)
Definition CareerInfo_of_kwargs (v : pyval) : result CareerInfo :=
  match v with
  | PDict kw =>
      match filter (fun k => negb (PyStr.mem k CareerInfo_fields))
                   (map fst kw) with
      | k :: _ =>
          Err (TypeError
                 ("CareerInfo.__init__() got an unexpected keyword argument '"
                  ++ k ++ "'"))
      | [] =>
          o <- kwarg kw "overview" ;;
          s <- kwarg kw "skills" ;;
          y <- kwarg kw "salary" ;;
          t <- kwarg kw "time_to_enter" ;;
          p <- kwarg kw "pros" ;;
          c <- kwarg kw "cons" ;;
          CareerInfo_new o s y t p c
      end
  | _ =>
      Err (TypeError ("argument after ** must be a mapping, not "
                      ++ type_name v))
  end.

(** [ComparisonResult.from_dict] *)
Definition from_dict (data : pyval) : result ComparisonResult :=
  a <- subscript data "career_a" ;;
  career_a <- CareerInfo_of_kwargs a ;;
  b <- subscript data "career_b" ;;
  career_b <- CareerInfo_of_kwargs b ;;
  g <- subscript data "decision_guide" ;;
  ComparisonResult_new career_a career_b g.

(* ================================================================= *)
(** ** referee_agent.py: the salary normaliser *)

Module Salary.
Import Re.

Definition rng (lo hi : ascii) : ascii * ascii := (lo, hi).
Definition digit : regex := Cls [rng "0" "9"].

Definition low_patterns : list regex :=
  [ (* \b(low|poor|minimal|entry|junior|starting|below|under)\b *)
    seq [WordB;
         any_of ["low"; "poor"; "minimal"; "entry"; "junior"; "starting";
                 "below"; "under"];
         WordB];
    (* \$?[0-9,]+\s*-?\s*\$?[0-5][0-9],?000 *)
    seq [Opt (Chr "$"); Plus (Cls [rng "0" "9"; rng "," ","]);
         Star Space; Opt (Chr "-"); Star Space; Opt (Chr "$");
         Cls [rng "0" "5"]; digit; Opt (Chr ","); lit "000"];
    (* \b[0-5][0-9]k?\b *)
    seq [WordB; Cls [rng "0" "5"]; digit; Opt (Chr "k"); WordB] ].

Definition high_patterns : list regex :=
  [ (* \b(high|excellent|premium|senior|executive|above|over|top)\b *)
    seq [WordB;
         any_of ["high"; "excellent"; "premium"; "senior"; "executive";
                 "above"; "over"; "top"];
         WordB];
    (* \$?[1-9][0-9][0-9],?000 *)
    seq [Opt (Chr "$"); Cls [rng "1" "9"]; digit; digit; Opt (Chr ",");
         lit "000"];
    (* \b[1-9][0-9][0-9]k?\b *)
    seq [WordB; Cls [rng "1" "9"]; digit; digit; Opt (Chr "k"); WordB];
    (* [8-9][0-9],?000 *)
    seq [Cls [rng "8" "9"]; digit; Opt (Chr ","); lit "000"];
    (* \b[8-9][0-9]k\b *)
    seq [WordB; Cls [rng "8" "9"]; digit; Chr "k"; WordB] ].

Definition medium_patterns : list regex :=
  [ (* \b(medium|average|moderate|mid|middle|fair|decent|competitive)\b *)
    seq [WordB;
         any_of ["medium"; "average"; "moderate"; "mid"; "middle"; "fair";
                 "decent"; "competitive"];
         WordB];
    (* \$?[6-9][0-9],?000 *)
    seq [Opt (Chr "$"); Cls [rng "6" "9"]; digit; Opt (Chr ","); lit "000"];
    (* \b[6-9][0-9]k?\b *)
    seq [WordB; Cls [rng "6" "9"]; digit; Opt (Chr "k"); WordB] ].

(** [for pattern in patterns: if re.search(pattern, s): ...] *)
Definition any_match (patterns : list regex) (s : string) : bool :=
  existsb (fun p => search p s) patterns.

(** The inner function [standardize_salary] on a [str]. *)
Definition standardize_salary (salary_str : string) : string :=
  if PyStr.is_empty salary_str then "medium"
  else
    let salary_lower := PyStr.strip (PyStr.lower salary_str) in
    if PyStr.mem salary_lower ["low"; "medium"; "high"] then salary_lower
    else if any_match low_patterns salary_lower then "low"
    else if any_match high_patterns salary_lower then "high"
    else if any_match medium_patterns salary_lower then "medium"
    else "medium".

(** The same on whatever the [salary] field holds: a falsy value takes
    the first return, and any other value that is not a [str] has no
    [lower] method. *)
Definition standardize_salary_val (salary : pyval) : result pyval :=
  if negb (truthy salary) then Ok (PStr "medium")
  else
    match salary with
    | PStr s => Ok (PStr (standardize_salary s))
    | _ =>
        Err (AttributeError ("'" ++ type_name salary
                             ++ "' object has no attribute 'lower'"))
    end.

End Salary.

Import Salary.

(* ================================================================= *)
(** ** referee_agent.py: the response parser *)

(** Text with double quotes in it is written with apostrophes and passed
    through [dquote]. *)
Definition dq : ascii := ascii_of_nat 34.
Definition nl : string := String (ascii_of_nat 10) "".

Fixpoint dquote (s : string) : string :=
  match s with
  | EmptyString => EmptyString
  | String c r => String (if Ascii.eqb c "'" then dq else c) (dquote r)
  end.

(** The fence handling of [_parse_ai_response]: trim, drop one leading
    fence marker, drop one trailing fence marker, trim again. *)
Definition clean_response (response : string) : string :=
  let cleaned_response := PyStr.strip response in
  let cleaned_response :=
    if PyStr.startswith cleaned_response "```json" then
      PyStr.drop 7 cleaned_response
    else if PyStr.startswith cleaned_response "```" then
      PyStr.drop 3 cleaned_response
    else cleaned_response in
  let cleaned_response :=
    if PyStr.endswith cleaned_response "```" then
      PyStr.drop_last 3 cleaned_response
    else cleaned_response in
  PyStr.strip cleaned_response.

Definition required_fields : list string :=
  ["career_a"; "career_b"; "decision_guide"].

Definition required_career_fields : list string :=
  ["overview"; "skills"; "salary"; "time_to_enter"; "pros"; "cons"].

Definition is_nil {A : Type} (l : list A) : bool :=
  match l with
  | [] => true
  | _ :: _ => false
  end.

(** [d.get(k, default)] *)
Definition dict_get_or (d : pydict) (k : string) (default : pyval) : pyval :=
  match dict_get d k with
  | Some v => v
  | None => default
  end.

(** [v.get(k, default)] on a value that must be a dict. *)
Definition get_or (v : pyval) (k : string) (default : pyval) : result pyval :=
  match v with
  | PDict d => Ok (dict_get_or d k default)
  | _ => Err (AttributeError ("'" ++ type_name v
                              ++ "' object has no attribute 'get'"))
  end.

(** [v.lower()] *)
Definition py_lower (v : pyval) : result string :=
  match v with
  | PStr s => Ok (PyStr.lower s)
  | _ => Err (AttributeError ("'" ++ type_name v
                              ++ "' object has no attribute 'lower'"))
  end.

(** The checks on one of the lists [pros] and [cons]. *)
Definition validate_list_field (career_key : string) (career_data : pydict)
           (list_field : string) : result unit :=
  let field_value := dict_get_or career_data list_field PNone in
  match list_len field_value with
  | None =>
      Err (ValueError (list_field ++ " in " ++ career_key
                       ++ " must be a list, got " ++ type_str field_value))
  | Some n =>
      if negb (Nat.eqb n 3) then
        Err (ValueError (list_field ++ " in " ++ career_key
                         ++ " must have exactly 3 items, got "
                         ++ PyStr.of_nat n))
      else Ok tt
  end.

(** The body of the loop over ["career_a"] and ["career_b"]. *)
Definition validate_career (data : pydict) (career_key : string)
  : result unit :=
  career_data <- subscript (PDict data) career_key ;;
  match career_data with
  | PDict cd =>
      let missing_career_fields :=
        filter (fun field => negb (dict_mem field cd)) required_career_fields in
      if negb (is_nil missing_career_fields) then
        Err (ValueError ("Missing fields in " ++ career_key ++ ": "
                         ++ PyStr.repr_list missing_career_fields))
      else
        salary <- py_lower (dict_get_or cd "salary" (PStr "")) ;;
        if negb (PyStr.mem salary ["low"; "medium"; "high"]) then
          Err (ValueError ("Invalid salary format in " ++ career_key ++ ": "
                           ++ salary ++ ". Must be low/medium/high"))
        else
          for_each ["pros"; "cons"] (validate_list_field career_key cd)
  | _ =>
      Err (ValueError (career_key ++ " must be an object, got "
                       ++ type_str career_data))
  end.

(** The checks on [decision_guide]. *)
Definition validate_decision_guide (data : pydict) : result unit :=
  let decision_guide := dict_get_or data "decision_guide" PNone in
  match list_len decision_guide with
  | None =>
      Err (ValueError ("decision_guide must be a list, got "
                       ++ type_str decision_guide))
  | Some n =>
      if (n <? 2)%nat then
        Err (ValueError ("decision_guide must have at least 2 items, got "
                         ++ PyStr.of_nat n))
      else Ok tt
  end.

(** Everything after [json.loads] inside the [try]. *)
Definition validate_and_build (data : pyval) : result ComparisonResult :=
  match data with
  | PDict d =>
      let missing_fields :=
        filter (fun field => negb (dict_mem field d)) required_fields in
      if negb (is_nil missing_fields) then
        Err (ValueError ("Missing required fields: "
                         ++ PyStr.repr_list missing_fields))
      else
        for_each ["career_a"; "career_b"] (validate_career d) ;;;
        validate_decision_guide d ;;;
        from_dict data
  | _ => Err (ValueError ("Expected JSON object, got " ++ type_str data))
  end.

(** The two handlers of the outer [try]: a [ValueError] is raised again as
    it is, anything else becomes a [ValueError]. *)
Definition reraise {A : Type} (m : result A) : result A :=
  match m with
  | Ok a => Ok a
  | Err e =>
      if is_ValueError e then Err e
      else Err (ValueError ("Unexpected error parsing response: "
                            ++ exn_str e))
  end.

Section Parser.

(** [json.loads], the standard library's decoder: the document, or the
    exception it raised. *)
Variable json_loads : string -> result pyval.

(** The inner [try] around [json.loads]. *)
Definition decode (cleaned_response : string) : result pyval :=
  match json_loads cleaned_response with
  | Err (JSONDecodeError m) => Err (ValueError ("Invalid JSON format: " ++ m))
  | other => other
  end.

Definition _parse_ai_response (response : string)
  : result ComparisonResult :=
  if PyStr.is_empty response || PyStr.is_empty (PyStr.strip response) then
    Err (ValueError "Empty or null response from AI")
  else
    reraise (data <- decode (clean_response response) ;;
             validate_and_build data).

(** The same called with a value that need not be a [str]: a falsy one
    is rejected by the first test, and any other has no [strip]. *)
Definition _parse_ai_response_val (response : pyval)
  : result ComparisonResult :=
  if negb (truthy response) then
    Err (ValueError "Empty or null response from AI")
  else
    match response with
    | PStr s => _parse_ai_response s
    | _ => Err (AttributeError ("'" ++ type_name response
                                ++ "' object has no attribute 'strip'"))
    end.

End Parser.

(* ================================================================= *)
(** ** referee_agent.py: normalising a result, the mock and the prompt *)

Definition _standardize_salary_format (res : ComparisonResult)
  : result ComparisonResult :=
  salary_a <- standardize_salary_val (salary (career_a res)) ;;
  standardized_career_a <-
    CareerInfo_new (overview (career_a res)) (skills (career_a res))
                   salary_a (time_to_enter (career_a res))
                   (pros (career_a res)) (cons (career_a res)) ;;
  salary_b <- standardize_salary_val (salary (career_b res)) ;;
  standardized_career_b <-
    CareerInfo_new (overview (career_b res)) (skills (career_b res))
                   salary_b (time_to_enter (career_b res))
                   (pros (career_b res)) (cons (career_b res)) ;;
  ComparisonResult_new standardized_career_a standardized_career_b
                       (decision_guide res).

Definition _get_mock_comparison (career_a career_b : string)
  : result ComparisonResult :=
  career_a_info <-
    CareerInfo_new
      (PStr (career_a ++ " involves specialized skills and offers various career paths. This field typically requires dedicated learning and practice."))
      (PStr ("Core skills for " ++ career_a ++ " include problem-solving, communication, and domain-specific technical abilities."))
      (PStr "medium")
      (PStr "2-4 years")
      (PList [PStr "Growing field"; PStr "Good opportunities";
              PStr "Skill development"])
      (PList [PStr "Learning curve"; PStr "Competition";
              PStr "Constant updates"]) ;;
  career_b_info <-
    CareerInfo_new
      (PStr (career_b ++ " offers unique opportunities and challenges. This career path has its own requirements and growth potential."))
      (PStr ("Essential skills for " ++ career_b ++ " include analytical thinking, creativity, and relevant technical knowledge."))
      (PStr "medium")
      (PStr "2-4 years")
      (PList [PStr "Diverse opportunities"; PStr "Creative work";
              PStr "Professional growth"])
      (PList [PStr "Market variability"; PStr "Skill requirements";
              PStr "Time investment"]) ;;
  ComparisonResult_new career_a_info career_b_info
    (PList [PStr ("Choose " ++ career_a ++ " if you prefer structured problem-solving and technical challenges");
            PStr ("Choose " ++ career_b ++ " if you value creativity and diverse project opportunities")]).

Definition career_template (key : string) (overview_line : string)
  : list string :=
  [ dquote ("  '" ++ key ++ "': {");
    overview_line;
    dquote "    'skills': 'required skills',";
    dquote "    'salary': 'low/medium/high',";
    dquote "    'time_to_enter': 'time needed',";
    dquote "    'pros': ['advantage1', 'advantage2', 'advantage3'],";
    dquote "    'cons': ['disadvantage1', 'disadvantage2', 'disadvantage3']";
    "  }," ].

Definition _build_optimized_prompt (career_a career_b : string) : string :=
  PyStr.join nl
    ([ "Compare careers: " ++ career_a ++ " vs " ++ career_b;
       "";
       "Rules: Neutral comparison, no recommendations, simple language";
       "Output JSON format:";
       "{" ]
     ++ career_template "career_a" (dquote "    'overview': '2-line summary',")
     ++ career_template "career_b" (dquote "    'overview': '2-line summary', ")
     ++ [ dquote "  'decision_guide': [";
          "    " ++ String dq ("Choose " ++ career_a ++ " if..." ++ String dq ",");
          "    " ++ String dq ("Choose " ++ career_b ++ " if..." ++ String dq "");
          "  ]";
          "}";
          "";
          "Focus on trade-offs, not superiority. Be concise." ]).

(* ================================================================= *)
(** ** referee_agent.py: the providers and [run_referee] *)

(** What the run depends on outside the program: the two import flags,
    the environment variable, and what each network call does. *)
Record World : Type := mkWorld {
  REQUESTS_AVAILABLE : bool;
  OPENAI_AVAILABLE : bool;
  (** [os.getenv("OPENAI_API_KEY")] *)
  OPENAI_API_KEY : option string;
  (** [requests.get(".../api/tags", timeout=2)]: the status code *)
  ollama_tags : result nat;
  (** [requests.post(".../api/generate", ...)] for a model and a prompt:
      the status code and what [response.json()] does *)
  ollama_generate : string -> string -> result (nat * result pyval);
  (** [client.chat.completions.create(...)] at an attempt, for a prompt:
      [response.choices[0].message.content] *)
  openai_chat : nat -> string -> result pyval;
  (** [json.loads] *)
  json_loads : string -> result pyval
}.

Section Referee.

Variable w : World.

Definition _is_ollama_available : bool :=
  if negb (REQUESTS_AVAILABLE w) then false
  else
    match ollama_tags w with
    | Ok status_code => Nat.eqb status_code 200
    | Err _ => false
    end.

Definition ollama_models : list string :=
  ["llama3.1:8b"; "llama3:8b"; "llama2:7b"; "mistral:7b"].

(** The body of the [try] for one model: [None] when the status is not
    200 and the loop goes on without a [return]. *)
Definition ollama_try (model prompt : string)
  : result (option ComparisonResult) :=
  response <- ollama_generate w model prompt ;;
  if Nat.eqb (fst response) 200 then
    body <- snd response ;;
    ai_response <- get_or body "response" (PStr "") ;;
    r <- _parse_ai_response_val (json_loads w) ai_response ;;
    Ok (Some r)
  else Ok None.

Fixpoint ollama_loop (prompt : string) (models : list string)
  : result ComparisonResult :=
  match models with
  | [] => Err (Exception "All Ollama models failed")
  | model :: rest =>
      match ollama_try model prompt with
      | Ok (Some r) => Ok r
      | Ok None => ollama_loop prompt rest
      | Err _ => ollama_loop prompt rest
      end
  end.

Definition _call_ollama_api (career_a career_b : string)
  : result ComparisonResult :=
  if negb (REQUESTS_AVAILABLE w) then
    Err (Exception "requests library not available")
  else
    ollama_loop (_build_optimized_prompt career_a career_b) ollama_models.

Definition max_retries : nat := 3.

(** The loop over [range(max_retries)]; the sleeps between the attempts
    are left out. *)
Fixpoint openai_loop (career_a career_b : string) (attempts : list nat)
  : result ComparisonResult :=
  match attempts with
  | [] => Err (Exception "OpenAI API failed after retries")
  | attempt :: rest =>
      match (ai_response <-
               openai_chat w attempt
                 (_build_optimized_prompt career_a career_b) ;;
             _parse_ai_response_val (json_loads w) ai_response) with
      | Ok r => Ok r
      | Err e =>
          if Nat.eqb attempt (max_retries - 1) then Err e
          else openai_loop career_a career_b rest
      end
  end.

Definition _call_openai_api (career_a career_b : string)
  : result ComparisonResult :=
  openai_loop career_a career_b (List.seq 0 max_retries).

(** [os.getenv("OPENAI_API_KEY")] as a condition. *)
Definition has_api_key : bool :=
  match OPENAI_API_KEY w with
  | Some key => negb (PyStr.is_empty key)
  | None => false
  end.

Definition provider : Type := string -> string -> result ComparisonResult.

Definition providers : list (string * provider) :=
  [("ollama", _call_ollama_api);
   ("openai", _call_openai_api);
   ("mock", _get_mock_comparison)].

(** [result = provider_func(career_a, career_b)] followed by
    [return _standardize_salary_format(result)], inside the [try]:
    [Some r] when it returns [r], [None] when it raises and the loop
    goes on. *)
Definition attempt (provider_func : provider) (career_a career_b : string)
  : option ComparisonResult :=
  match (res <- provider_func career_a career_b ;;
         _standardize_salary_format res) with
  | Ok r => Some r
  | Err _ => None
  end.

(** One turn of the loop of [run_referee]; [None] also when no branch
    of the conditional is taken. *)
Definition provider_turn (career_a career_b : string)
           (provider_name : string) (provider_func : provider)
  : option ComparisonResult :=
  if String.eqb provider_name "ollama" && _is_ollama_available then
    attempt provider_func career_a career_b
  else if String.eqb provider_name "openai" && OPENAI_AVAILABLE w
          && has_api_key then
    attempt provider_func career_a career_b
  else if String.eqb provider_name "mock" then
    attempt provider_func career_a career_b
  else None.

Fixpoint provider_loop (career_a career_b : string)
         (ps : list (string * provider)) : result ComparisonResult :=
  match ps with
  | [] => _get_mock_comparison career_a career_b      (* final fallback *)
  | (provider_name, provider_func) :: rest =>
      match provider_turn career_a career_b provider_name provider_func with
      | Some r => Ok r
      | None => provider_loop career_a career_b rest
      end
  end.

Definition run_referee (career_a career_b : string)
  : result ComparisonResult :=
  provider_loop career_a career_b providers.

End Referee.

(* ================================================================= *)
(** ** A reference decoder for JSON text *)

(** [json.loads] belongs to the standard library, and the parser above
    takes it as a parameter.  The decoder below reads the grammar of
    RFC 8259 (without [\u] escapes) and serves as the instance on which
    the parser is run on sample responses. *)
Module Json.

Definition is_ws (c : ascii) : bool :=
  Ascii.eqb c " " || (Nat.eqb (PyStr.code c) 9)
  || (Nat.eqb (PyStr.code c) 10) || (Nat.eqb (PyStr.code c) 13).

Fixpoint skip_ws (s : string) : string :=
  match s with
  | EmptyString => EmptyString
  | String c r => if is_ws c then skip_ws r else s
  end.

(** The text after a leading [c], when [s] begins with [c]. *)
Definition expect (c : ascii) (s : string) : option string :=
  match s with
  | String a r => if Ascii.eqb a c then Some r else None
  | EmptyString => None
  end.

Definition unescape (c : ascii) : option ascii :=
  if Ascii.eqb c dq then Some dq
  else if Ascii.eqb c "\" then Some "\"%char
  else if Ascii.eqb c "/" then Some "/"%char
  else if Ascii.eqb c "b" then Some (ascii_of_nat 8)
  else if Ascii.eqb c "f" then Some (ascii_of_nat 12)
  else if Ascii.eqb c "n" then Some (ascii_of_nat 10)
  else if Ascii.eqb c "r" then Some (ascii_of_nat 13)
  else if Ascii.eqb c "t" then Some (ascii_of_nat 9)
  else None.

Definition push (c : ascii) (x : option (string * string))
  : option (string * string) :=
  match x with
  | Some (body, rest) => Some (String c body, rest)
  | None => None
  end.

(** What follows an opening quote: the characters up to the closing
    quote, and the text after it. *)
Fixpoint string_body (s : string) : option (string * string) :=
  match s with
  | EmptyString => None
  | String c r =>
      if Ascii.eqb c dq then Some (EmptyString, r)
      else if Ascii.eqb c "\" then
        match r with
        | String e r' =>
            match unescape e with
            | Some x => push x (string_body r')
            | None => None
            end
        | EmptyString => None
        end
      else if (PyStr.code c <? 32)%nat then None
      else push c (string_body r)
  end.

(** The longest run of digits at the front. *)
Fixpoint digits (s : string) : string * string :=
  match s with
  | String c r =>
      if PyStr.is_digit c then
        let '(ds, rest) := digits r in (String c ds, rest)
      else (EmptyString, s)
  | EmptyString => (EmptyString, EmptyString)
  end.

Fixpoint nat_of_digits (acc : nat) (ds : string) : nat :=
  match ds with
  | EmptyString => acc
  | String c r => nat_of_digits (10 * acc + (PyStr.code c - 48)) r
  end.

Definition Z_of_digits (ds : string) : Z := Z.of_nat (nat_of_digits 0 ds).

(** The integer part: [0], or a digit from 1 to 9 and more digits. *)
Definition int_part (s : string) : option (string * string) :=
  match s with
  | String c r =>
      if Ascii.eqb c "0" then Some ("0", r)
      else if PyStr.is_digit c then Some (digits s)
      else None
  | EmptyString => None
  end.

(** The fraction: a point and at least one digit, when there is one. *)
Definition frac_part (s : string) : string * string :=
  match expect "." s with
  | Some r =>
      if PyStr.is_empty (fst (digits r)) then (EmptyString, s)
      else digits r
  | None => (EmptyString, s)
  end.

(** The sign of an exponent. *)
Definition exp_sign (s : string) : bool * string :=
  match expect "-" s with
  | Some r => (true, r)
  | None =>
      match expect "+" s with
      | Some r => (false, r)
      | None => (false, s)
      end
  end.

(** The exponent, when there is one. *)
Definition exp_part (s : string) : option Z * string :=
  match s with
  | String c r =>
      if Ascii.eqb c "e" || Ascii.eqb c "E" then
        let ds := digits (snd (exp_sign r)) in
        if PyStr.is_empty (fst ds) then (None, s)
        else
          let e := Z_of_digits (fst ds) in
          (Some (if fst (exp_sign r) then Z.opp e else e), snd ds)
      else (None, s)
  | EmptyString => (None, s)
  end.

Definition number (s : string) : option (pyval * string) :=
  let neg := match expect "-" s with Some _ => true | None => false end in
  let s1 := match expect "-" s with Some r => r | None => s end in
  match int_part s1 with
  | None => None
  | Some (ip, s2) =>
      let fp := frac_part s2 in
      let ep := exp_part (snd fp) in
      let sign := fun z : Z => if neg then Z.opp z else z in
      if PyStr.is_empty (fst fp)
         && match fst ep with Some _ => false | None => true end
      then Some (PInt (sign (Z_of_digits ip)), snd ep)
      else
        let e := match fst ep with Some e => e | None => 0%Z end in
        Some (PFloat (sign (Z_of_digits (ip ++ fst fp)))
                     (e - Z.of_nat (String.length (fst fp))), snd ep)
  end.

(** [d[k] = v] *)
Fixpoint dict_set (d : pydict) (k : string) (v : pyval) : pydict :=
  match d with
  | [] => [(k, v)]
  | (k', v') :: rest =>
      if String.eqb k k' then (k, v) :: rest
      else (k', v') :: dict_set rest k v
  end.

Definition parser (A : Type) : Type := string -> option (A * string).

(** The elements of an array after the first bracket, up to and with
    the closing bracket. *)
Fixpoint elements (value : parser pyval) (n : nat) (s : string)
  : option (list pyval * string) :=
  match n with
  | O => None
  | S n' =>
      match value s with
      | None => None
      | Some (v, r) =>
          match expect "," (skip_ws r) with
          | Some r' =>
              match elements value n' (skip_ws r') with
              | Some (vs, r'') => Some (v :: vs, r'')
              | None => None
              end
          | None =>
              match expect "]" (skip_ws r) with
              | Some r' => Some ([v], r')
              | None => None
              end
          end
      end
  end.

(** One member of an object: a key, a colon and a value. *)
Definition member (value : parser pyval) (s : string)
  : option ((string * pyval) * string) :=
  match expect dq s with
  | None => None
  | Some r =>
      match string_body r with
      | None => None
      | Some (k, r1) =>
          match expect ":" (skip_ws r1) with
          | None => None
          | Some r2 =>
              match value (skip_ws r2) with
              | None => None
              | Some (v, r3) => Some ((k, v), r3)
              end
          end
      end
  end.

(** The members of an object after the first brace, up to and with the
    closing brace, added to [acc]. *)
Fixpoint members (value : parser pyval) (n : nat) (acc : pydict)
         (s : string) : option (pydict * string) :=
  match n with
  | O => None
  | S n' =>
      match member value s with
      | None => None
      | Some ((k, v), r) =>
          let acc' := dict_set acc k v in
          match expect "," (skip_ws r) with
          | Some r' => members value n' acc' (skip_ws r')
          | None =>
              match expect "}" (skip_ws r) with
              | Some r' => Some (acc', r')
              | None => None
              end
          end
      end
  end.

Definition keyword (w : string) (v : pyval) (s : string)
  : option (pyval * string) :=
  if String.prefix w s then Some (v, PyStr.drop (String.length w) s)
  else None.

Fixpoint value (fuel : nat) (s : string) : option (pyval * string) :=
  match fuel with
  | O => None
  | S n =>
      match s with
      | EmptyString => None
      | String c r =>
          if Ascii.eqb c "{" then
            match expect "}" (skip_ws r) with
            | Some r' => Some (PDict [], r')
            | None =>
                match members (value n) n [] (skip_ws r) with
                | Some (d, r') => Some (PDict d, r')
                | None => None
                end
            end
          else if Ascii.eqb c "[" then
            match expect "]" (skip_ws r) with
            | Some r' => Some (PList [], r')
            | None =>
                match elements (value n) n (skip_ws r) with
                | Some (vs, r') => Some (PList vs, r')
                | None => None
                end
            end
          else if Ascii.eqb c dq then
            match string_body r with
            | Some (x, r') => Some (PStr x, r')
            | None => None
            end
          else if Ascii.eqb c "t" then keyword "true" (PBool true) s
          else if Ascii.eqb c "f" then keyword "false" (PBool false) s
          else if Ascii.eqb c "n" then keyword "null" PNone s
          else number s
      end
  end.

Definition loads (s : string) : result pyval :=
  match value (S (String.length s)) (skip_ws s) with
  | Some (v, r) =>
      if PyStr.is_empty (skip_ws r) then Ok v
      else Err (JSONDecodeError "Extra data")
  | None => Err (JSONDecodeError "Expecting value")
  end.

End Json.

(* ================================================================= *)
(** ** models.py: the validators *)

(** [validate_career_input] *)
Definition validate_career_input (career_input : pyval) : bool :=
  match career_input with
  | PStr s =>
      if PyStr.is_empty s || String.eqb (PyStr.strip s) "" then false
      else if (100 <? String.length (PyStr.strip s))%nat then false
      else true
  | _ => false
  end.

(** [validate_user_name] *)
Definition validate_user_name (name : pyval) : bool :=
  match name with
  | PStr s =>
      if PyStr.is_empty s || String.eqb (PyStr.strip s) "" then false
      else if (50 <? String.length (PyStr.strip s))%nat then false
      else true
  | _ => false
  end.

(** [validate_standardized_salary] *)
Definition validate_standardized_salary (salary : string) : bool :=
  PyStr.mem (PyStr.lower salary) ["low"; "medium"; "high"].

(** [create_standardized_career_info] *)
Definition create_standardized_career_info
           (overview skills : pyval) (salary : string)
           (time_to_enter pros cons : pyval) : result CareerInfo :=
  if negb (validate_standardized_salary salary) then
    Err (ValueError ("Salary must be 'low', 'medium', or 'high', got: "
                     ++ salary))
  else
    CareerInfo_new overview skills (PStr (PyStr.lower salary)) time_to_enter
                   pros cons.

(* ================================================================= *)
(** ** referee_agent.py: the error fallback *)

(** [_get_error_fallback_result] *)
Definition _get_error_fallback_result (error_message : string)
  : result ComparisonResult :=
  career_a_info <-
    CareerInfo_new
      (PStr ("Unable to analyze career: " ++ error_message
             ++ ". Please try again with different inputs."))
      (PStr "Analysis unavailable")
      (PStr "medium")
      (PStr "Unknown")
      (PList [PStr "Please"; PStr "try"; PStr "again"])
      (PList [PStr "Analysis"; PStr "error"; PStr "occurred"]) ;;
  career_b_info <-
    CareerInfo_new
      (PStr ("Unable to analyze career: " ++ error_message
             ++ ". Please try again with different inputs."))
      (PStr "Analysis unavailable")
      (PStr "medium")
      (PStr "Unknown")
      (PList [PStr "Please"; PStr "try"; PStr "again"])
      (PList [PStr "Analysis"; PStr "error"; PStr "occurred"]) ;;
  ComparisonResult_new career_a_info career_b_info
    (PList [PStr ("Analysis failed: " ++ error_message);
            PStr "Please check your inputs and try again"]).

(** The default of its argument. *)
Definition default_error_message : string := "Analysis error occurred".

(* ================================================================= *)
(** ** ui.py: the input form *)

(** The checks [render_input_page] makes on a submitted form, on the
    texts of its three fields: the messages it shows with [st.error]. *)
Definition input_errors (user_name career_a career_b : string)
  : list string :=
  (if negb (validate_user_name (PStr user_name))
   then ["Please enter a valid name"] else [])
  ++ (if negb (validate_career_input (PStr career_a))
      then ["Please enter a valid first career option"] else [])
  ++ (if negb (validate_career_input (PStr career_b))
      then ["Please enter a valid second career option"] else [])
  ++ (if String.eqb (PyStr.lower (PyStr.strip career_a))
                    (PyStr.lower (PyStr.strip career_b))
      then ["Please enter two different career options"] else []).

(** [render_input_page], as a function of what the widgets return in a
    run of the script: the texts of the three fields and whether the
    button was pressed.  The value is what the function returns; the
    drawing of the form is left out. *)
Definition render_input_page (user_name career_a career_b : string)
           (submitted : bool) : option (string * string * string) :=
  if submitted then
    if negb (is_nil (input_errors user_name career_a career_b)) then None
    else Some (PyStr.strip user_name, PyStr.strip career_a,
               PyStr.strip career_b)
  else None.

(* ================================================================= *)
(** ** ui.py and app.py: the pages and the session *)

(** A run of the script is a function of the session state it starts
    with and of what the widgets return in that run; its value is the
    session state it leaves and how it ends.  Of the drawing only
    whether it raises is kept. *)
Module App.

(** [st.session_state], with the five keys the script uses; [None] for
    a key that is absent. *)
Record session : Type := mkSession {
  ss_page : option string;
  ss_user_name : option string;
  ss_career_a : option string;
  ss_career_b : option string;
  ss_comparison_data : option ComparisonResult
}.

(** What the widgets return in one run. *)
Record widgets : Type := mkWidgets {
  name_field : string;
  career_a_field : string;
  career_b_field : string;
  submitted : bool;
  back_pressed : bool
}.

(** How a run ends: at the end of the script, at [st.rerun()], or with
    an exception. *)
Inductive ending : Type :=
| Finished
| Rerun
| Raised (e : exn).

Definition empty_session : session := mkSession None None None None None.

(** A value a [for] loop can go through. *)
Definition iterable (v : pyval) : bool :=
  match v with
  | PStr _ | PList _ | PDict _ => true
  | _ => false
  end.

Definition iterate (v : pyval) : result unit :=
  if iterable v then Ok tt
  else Err (TypeError ("'" ++ type_name v ++ "' object is not iterable")).

(** [render_career_card] of ui.py, on the fields of a career: the salary
    is given to [title], and the pros and the cons are gone through. *)
Definition render_career_card (career_data : CareerInfo) : result unit :=
  match salary career_data with
  | PStr _ => Ok tt
  | v => Err (AttributeError ("'" ++ type_name v
                              ++ "' object has no attribute 'title'"))
  end ;;;
  iterate (pros career_data) ;;;
  iterate (cons career_data).

(** [render_decision_guide] of ui.py *)
Definition render_decision_guide (guide_items : pyval) : result unit :=
  iterate guide_items.

(** [render_comparison_page] of ui.py: the two cards, the guide, and the
    button that goes back. *)
Definition render_comparison_page (ev : widgets) (s : session)
           (comparison_data : ComparisonResult) : session * ending :=
  match (render_career_card (career_a comparison_data) ;;;
         render_career_card (career_b comparison_data) ;;;
         render_decision_guide (decision_guide comparison_data)) with
  | Err e => (s, Raised e)
  | Ok _ =>
      if back_pressed ev then
        (mkSession (Some "input") None None None None, Rerun)
      else (s, Finished)
  end.

(** [render_input_page_handler] of app.py *)
Definition render_input_page_handler (w : World) (ev : widgets)
           (s : session) : session * ending :=
  match render_input_page (name_field ev) (career_a_field ev)
                          (career_b_field ev) (submitted ev) with
  | None => (s, Finished)
  | Some (n, a, b) =>
      let s1 := mkSession (ss_page s) (Some n) (Some a) (Some b)
                          (ss_comparison_data s) in
      match run_referee w a b with
      | Err e => (s1, Raised e)
      | Ok comparison =>
          (mkSession (Some "comparison") (Some n) (Some a) (Some b)
                     (Some comparison), Rerun)
      end
  end.

(** [render_comparison_page_handler] of app.py *)
Definition render_comparison_page_handler (ev : widgets) (s : session)
  : session * ending :=
  match ss_user_name s, ss_career_a s, ss_career_b s,
        ss_comparison_data s with
  | Some _, Some _, Some _, Some comparison =>
      render_comparison_page ev s comparison
  | _, _, _, _ =>
      (mkSession (Some "input") (ss_user_name s) (ss_career_a s)
                 (ss_career_b s) (ss_comparison_data s), Rerun)
  end.

(** [main] of app.py *)
Definition main (w : World) (ev : widgets) (s : session)
  : session * ending :=
  let s :=
    match ss_page s with
    | None => mkSession (Some "input") (ss_user_name s) (ss_career_a s)
                        (ss_career_b s) (ss_comparison_data s)
    | Some _ => s
    end in
  match ss_page s with
  | Some p =>
      if String.eqb p "input" then render_input_page_handler w ev s
      else if String.eqb p "comparison" then
        render_comparison_page_handler ev s
      else (s, Finished)
  | None => (s, Finished)
  end.

(** The session after a sequence of runs, each in the world of its
    time and with what its widgets return. *)
Fixpoint runs (steps : list (World * widgets)) (s : session) : session :=
  match steps with
  | [] => s
  | (w, ev) :: rest => runs rest (fst (main w ev s))
  end.

End App.


(* ================================================================= *)
(** ** The vocabulary of the properties *)

(** *** Records that pass their checks *)

(** A list of exactly three elements. *)
Definition list_of_3 (v : pyval) : Prop :=
  exists l, v = PList l /\ List.length l = 3.

(** A list of at least two elements. *)
Definition list_of_2_or_more (v : pyval) : Prop :=
  exists l, v = PList l /\ 2 <= List.length l.

(** A career record that passed [__post_init__]. *)
Definition valid_career (c : CareerInfo) : Prop :=
  list_of_3 (pros c) /\ list_of_3 (cons c).

(** A result that passed its own [__post_init__] and whose careers passed
    theirs. *)
Definition valid_result (r : ComparisonResult) : Prop :=
  valid_career (career_a r) /\ valid_career (career_b r)
  /\ list_of_2_or_more (decision_guide r).

(** *** Sample records *)

Definition sample_career (tier : string) : CareerInfo :=
  mkCareerInfo (PStr "Works with patients") (PStr "Care, patience")
               (PStr tier) (PStr "3 years")
               (PList [PStr "Stable"; PStr "Useful"; PStr "Varied"])
               (PList [PStr "Shifts"; PStr "Stress"; PStr "Pay"]).

Definition sample_result (tier_a tier_b : string) : ComparisonResult :=
  mkComparisonResult (sample_career tier_a) (sample_career tier_b)
    (PList [PStr "Choose A if you like people";
            PStr "Choose B if you like machines"]).

(** *** Tiers, occurrences and the mock result *)

Definition tiers : list string := ["low"; "medium"; "high"].

(** One of the three lower-case tier names, as a field value. *)
Definition is_tier (v : pyval) : Prop :=
  v = PStr "low" \/ v = PStr "medium" \/ v = PStr "high".

(** [sub] occurs in [s]. *)
Definition occurs_in (sub s : string) : Prop :=
  exists before after, s = before ++ sub ++ after.

(** What [_get_mock_comparison] builds. *)
Definition mock_result (career_a career_b : string) : ComparisonResult :=
  mkComparisonResult
    (mkCareerInfo
       (PStr (career_a ++ " involves specialized skills and offers various career paths. This field typically requires dedicated learning and practice."))
       (PStr ("Core skills for " ++ career_a ++ " include problem-solving, communication, and domain-specific technical abilities."))
       (PStr "medium")
       (PStr "2-4 years")
       (PList [PStr "Growing field"; PStr "Good opportunities";
               PStr "Skill development"])
       (PList [PStr "Learning curve"; PStr "Competition";
               PStr "Constant updates"]))
    (mkCareerInfo
       (PStr (career_b ++ " offers unique opportunities and challenges. This career path has its own requirements and growth potential."))
       (PStr ("Essential skills for " ++ career_b ++ " include analytical thinking, creativity, and relevant technical knowledge."))
       (PStr "medium")
       (PStr "2-4 years")
       (PList [PStr "Diverse opportunities"; PStr "Creative work";
               PStr "Professional growth"])
       (PList [PStr "Market variability"; PStr "Skill requirements";
               PStr "Time investment"]))
    (PList [PStr ("Choose " ++ career_a ++ " if you prefer structured problem-solving and technical challenges");
            PStr ("Choose " ++ career_b ++ " if you value creativity and diverse project opportunities")]).

(** A world with no local server and no API key. *)
Definition offline : World :=
  mkWorld true true None (Err (Exception "Connection refused"))
          (fun _ _ => Err (Exception "Connection refused"))
          (fun _ _ => Err (Exception "No API key"))
          Json.loads.

(** *** Ends of strings and of JSON texts *)

Definition first_char (s : string) : option ascii :=
  match s with
  | String c _ => Some c
  | EmptyString => None
  end.

Fixpoint last_char (s : string) : option ascii :=
  match s with
  | EmptyString => None
  | String c EmptyString => Some c
  | String _ r => last_char r
  end.

(** Only white space. *)
Fixpoint blank (s : string) : bool :=
  match s with
  | EmptyString => true
  | String c r => PyStr.is_space c && blank r
  end.

(** The characters a JSON text may begin and end with (the names [NaN]
    and [Infinity], which [json.loads] also reads, included). *)
Definition json_start (c : ascii) : bool :=
  existsb (Ascii.eqb c) (list_ascii_of_string "{[-0123456789tfnNI")
  || Ascii.eqb c dq.

Definition json_end (c : ascii) : bool :=
  existsb (Ascii.eqb c) (list_ascii_of_string "}]0123456789elNy")
  || Ascii.eqb c dq.

(** [s], trimmed, begins and ends as a JSON text does. *)
Definition delimited_as_json (s : string) : bool :=
  match first_char (PyStr.strip s), last_char (PyStr.strip s) with
  | Some a, Some b => json_start a && json_end b
  | _, _ => false
  end.

(** *** Outcomes of the parser *)

(** The exception, if any, is not a [JSONDecodeError]. *)
Definition raises_plain {A : Type} (m : result A) : Prop :=
  match m with
  | Err (JSONDecodeError _) => False
  | _ => True
  end.

(** The salary gate: a string that is a tier name up to case. *)
Definition salary_accepted (v : pyval) : bool :=
  match v with
  | PStr s => PyStr.mem (PyStr.lower s) tiers
  | _ => false
  end.

(** The failure is a [ValueError] whose message has [k] in it. *)
Definition names {A : Type} (k : string) (res : result A) : Prop :=
  exists msg, res = Err (ValueError msg) /\ occurs_in k msg.

(** *** Sample responses *)

Definition career_text (fields : string) : string :=
  dquote "{'overview': 'Works with patients', 'skills': 'Care, patience', "
  ++ fields
  ++ dquote "'time_to_enter': '3 years', 'pros': ['Stable', 'Useful', 'Varied']}".

Definition with_salary (tier : string) : string :=
  dquote "'salary': '" ++ tier
  ++ dquote "', 'cons': ['Shifts', 'Stress', 'Pay'], ".

Definition guide_text : string :=
  dquote ", 'decision_guide': ['Choose A if you like people', 'Choose B if you like machines']".

(** A response with the two careers written by [career_a] and
    [career_b], and with [rest] after them. *)
Definition payload_text (career_a career_b rest : string) : string :=
  dquote "{'career_a': " ++ career_a ++ dquote ", 'career_b': " ++ career_b
  ++ rest ++ "}".

Definition sample_text (tier_a tier_b : string) : string :=
  payload_text (career_text (with_salary tier_a))
               (career_text (with_salary tier_b)) guide_text.

(** The dict the reference decoder reads from a response. *)
Definition decoded (response : string) : pydict :=
  match Json.loads (clean_response response) with
  | Ok (PDict d) => d
  | _ => []
  end.

Definition career_of (d : pydict) (key : string) : pydict :=
  match dict_get d key with
  | Some (PDict cd) => cd
  | _ => []
  end.

Definition no_guide_text : string :=
  payload_text (career_text (with_salary "high"))
               (career_text (with_salary "low")) "".

Definition no_salary_text : string :=
  payload_text (career_text (dquote "'cons': ['Shifts', 'Stress', 'Pay'], "))
               (career_text (with_salary "low")) guide_text.

Definition no_cons_text : string :=
  payload_text (career_text (with_salary "high"))
               (career_text (dquote "'salary': 'low', ")) guide_text.

(** *** Reading a prefix of a text *)

(** [pre] ends with a character a JSON text may end with. *)
Definition ends_ok (pre : string) : Prop :=
  exists b, last_char pre = Some b /\ json_end b = true.

(** [s] is [pre] followed by [r], and [pre] ends as a JSON text may. *)
Definition reads (s r : string) : Prop :=
  exists pre, s = pre ++ r /\ ends_ok pre.

(** A parser that reads a prefix of its input. *)
Definition prefix_parser {A : Type} (p : Json.parser A) : Prop :=
  forall s a r, p s = Some (a, r) -> exists pre, s = pre ++ r.

(** [s] is [r], or something that ends as a JSON text may and then [r]. *)
Definition reads_opt (s r : string) : Prop := s = r \/ reads s r.

(** *** Patterns, declaratively *)

(** The declarative reading of a pattern: [Matches r p q] when [r]
    matches the text between the positions [p] and [q]. *)
Inductive Matches : Re.regex -> Re.pos -> Re.pos -> Prop :=
| M_Eps p : Matches Re.Eps p p
| M_Chr c prev s : Matches (Re.Chr c) (prev, String c s) (Some c, s)
| M_Cls ranges c prev s :
    Re.in_class ranges c = true ->
    Matches (Re.Cls ranges) (prev, String c s) (Some c, s)
| M_Space c prev s :
    PyStr.is_space c = true ->
    Matches Re.Space (prev, String c s) (Some c, s)
| M_WordB prev s :
    xorb (Re.word_before prev) (Re.word_after s) = true ->
    Matches Re.WordB (prev, s) (prev, s)
| M_Cat r1 r2 p q t :
    Matches r1 p q -> Matches r2 q t -> Matches (Re.Cat r1 r2) p t
| M_AltL r1 r2 p q : Matches r1 p q -> Matches (Re.Alt r1 r2) p q
| M_AltR r1 r2 p q : Matches r2 p q -> Matches (Re.Alt r1 r2) p q
| M_OptNone r p : Matches (Re.Opt r) p p
| M_OptSome r p q : Matches r p q -> Matches (Re.Opt r) p q
| M_StarNil r p : Matches (Re.Star r) p p
| M_StarCons r p q t :
    Matches r p q -> Matches (Re.Star r) q t -> Matches (Re.Star r) p t
| M_Plus r p q t :
    Matches r p q -> Matches (Re.Star r) q t -> Matches (Re.Plus r) p t.

(** The character before the end of [before], or [prev] when [before] is
    empty. *)
Definition char_before (prev : option ascii) (before : string)
  : option ascii :=
  match last_char before with
  | Some c => Some c
  | None => prev
  end.

(** [c] occurs in [s]. *)
Fixpoint has_char (c : ascii) (s : string) : bool :=
  match s with
  | EmptyString => false
  | String a r => Ascii.eqb a c || has_char c r
  end.

(** The second of the low patterns, the one written for ranges. *)
Definition low_range_pattern : Re.regex :=
  Re.seq [Re.Opt (Re.Chr "$"); Re.Plus (Re.Cls [rng "0" "9"; rng "," ","]);
          Re.Star Re.Space; Re.Opt (Re.Chr "-"); Re.Star Re.Space;
          Re.Opt (Re.Chr "$");
          Re.Cls [rng "0" "5"]; digit; Re.Opt (Re.Chr ","); Re.lit "000"].

(** *** Sample worlds *)

(** A text between a labelled fence and a closing fence, on lines of
    their own. *)
Definition fenced (s : string) : string :=
  "```json" ++ nl ++ s ++ nl ++ "```".

(** A world with a local server: the first model answers with prose, the
    second with an error status, the third with a fenced payload. *)
Definition local_server : World :=
  mkWorld true false None (Ok 200)
    (fun model _ =>
       if String.eqb model "llama3.1:8b" then
         Ok (200, Ok (PDict [("response", PStr "I cannot answer that")]))
       else if String.eqb model "llama3:8b" then
         Ok (404, Err (Exception "no body"))
       else
         Ok (200, Ok (PDict [("response",
                              PStr (fenced (sample_text "High" "low")))])))
    (fun _ _ => Err (Exception "not configured"))
    Json.loads.

(** A world with the hosted API only, which answers at the third
    attempt. *)
Definition hosted : World :=
  mkWorld false true (Some "sk-key") (Err (Exception "not installed"))
    (fun _ _ => Err (Exception "not installed"))
    (fun attempt _ =>
       if Nat.eqb attempt 2 then Ok (PStr (sample_text "LOW" "Medium"))
       else Err (Exception "timeout"))
    Json.loads.

(** A world whose hosted API always answers with a salary figure. *)
Definition hosted_figures : World :=
  mkWorld false true (Some "sk-key") (Err (Exception "not installed"))
    (fun _ _ => Err (Exception "not installed"))
    (fun _ _ => Ok (PStr (sample_text "85,000" "Medium")))
    Json.loads.

(* ----------------------------------------------------------------- *)
(** *** The vocabulary of the further properties *)

(** Whether a text passes a validator with the bound [n]. *)
Definition trimmed_within (n : nat) (s : string) : bool :=
  negb (PyStr.is_empty (PyStr.strip s))
  && (String.length (PyStr.strip s) <=? n)%nat.

(** A salary the normaliser does not choke on: a falsy value or a
    string. *)
Definition normalisable (v : pyval) : Prop :=
  truthy v = false \/ exists s, v = PStr s.

(** Every key of [kw] names a field of [CareerInfo]. *)
Definition only_fields (kw : pydict) : bool :=
  forallb (fun k => PyStr.mem k CareerInfo_fields) (map fst kw).

(** Every field of [CareerInfo] is a key of [kw]. *)
Definition has_fields (kw : pydict) : bool :=
  forallb (fun f => dict_mem f kw) CareerInfo_fields.

(** The record with the values [kw] holds for the six fields. *)
Definition career_of_kwargs (kw : pydict) : CareerInfo :=
  mkCareerInfo (dict_get_or kw "overview" PNone)
               (dict_get_or kw "skills" PNone)
               (dict_get_or kw "salary" PNone)
               (dict_get_or kw "time_to_enter" PNone)
               (dict_get_or kw "pros" PNone)
               (dict_get_or kw "cons" PNone).

(** The checks of the parser on a career: the six keys, the salary, the
    two lists. *)
Definition career_checks (cd : pydict) : bool :=
  has_fields cd
  && salary_accepted (dict_get_or cd "salary" (PStr ""))
  && is_list_of_3 (dict_get_or cd "pros" PNone)
  && is_list_of_3 (dict_get_or cd "cons" PNone).

(** A career the parser turns into a record: a dict that passes the
    checks and has no key besides the six. *)
Definition career_accepted (v : option pyval) : bool :=
  match v with
  | Some (PDict cd) => career_checks cd && only_fields cd
  | _ => false
  end.

(** A payload the parser turns into a result. *)
Definition payload_accepted (d : pydict) : bool :=
  career_accepted (dict_get d "career_a")
  && career_accepted (dict_get d "career_b")
  && is_list_of_2_or_more (dict_get_or d "decision_guide" PNone).

(** The result the parser builds from an accepted payload. *)
Definition result_of_payload (d : pydict) : ComparisonResult :=
  mkComparisonResult (career_of_kwargs (career_of d "career_a"))
                     (career_of_kwargs (career_of d "career_b"))
                     (dict_get_or d "decision_guide" PNone).

(** The same result with other salaries. *)
Definition with_salaries (r : ComparisonResult) (ya yb : pyval)
  : ComparisonResult :=
  mkComparisonResult
    (mkCareerInfo (overview (career_a r)) (skills (career_a r)) ya
                  (time_to_enter (career_a r)) (pros (career_a r))
                  (cons (career_a r)))
    (mkCareerInfo (overview (career_b r)) (skills (career_b r)) yb
                  (time_to_enter (career_b r)) (pros (career_b r))
                  (cons (career_b r)))
    (decision_guide r).

Definition extra_key_text : string :=
  payload_text
    (career_text (dquote "'outlook': 'good', " ++ with_salary "high"))
    (career_text (with_salary "low")) guide_text.

Definition with_note_text : string :=
  payload_text (career_text (with_salary "High"))
               (career_text (with_salary "low"))
               (guide_text ++ dquote ", 'note': [1, 2]").

Definition two_pros_text : string :=
  payload_text
    (dquote "{'overview': 'o', 'skills': 'k', 'salary': 'high', 'time_to_enter': 't', 'pros': ['a', 'b'], 'cons': ['d', 'e', 'f']}")
    (career_text (with_salary "low")) guide_text.

Definition short_guide_text : string :=
  payload_text (career_text (with_salary "high"))
               (career_text (with_salary "low"))
               (dquote ", 'decision_guide': ['Choose A']").

(** What [_get_error_fallback_result] builds. *)
Definition error_fallback_result (error_message : string)
  : ComparisonResult :=
  let career :=
    mkCareerInfo
      (PStr ("Unable to analyze career: " ++ error_message
             ++ ". Please try again with different inputs."))
      (PStr "Analysis unavailable") (PStr "medium") (PStr "Unknown")
      (PList [PStr "Please"; PStr "try"; PStr "again"])
      (PList [PStr "Analysis"; PStr "error"; PStr "occurred"]) in
  mkComparisonResult career career
    (PList [PStr ("Analysis failed: " ++ error_message);
            PStr "Please check your inputs and try again"]).

(** The line of the decision guide for a career, between its quotes. *)
Definition choose_line (career : string) : string :=
  String dq ("Choose " ++ career ++ " if..." ++ String dq "").

(** One attempt at the hosted API: the call and the parse of its
    reply. *)
Definition openai_attempt (w : World) (a b : string) (attempt : nat)
  : result ComparisonResult :=
  ai_response <- openai_chat w attempt (_build_optimized_prompt a b) ;;
  _parse_ai_response_val (json_loads w) ai_response.

(** A result fit to be drawn: it passes the construction checks and its
    salaries are tier names. *)
Definition drawable (r : ComparisonResult) : Prop :=
  valid_result r
  /\ is_tier (salary (career_a r)) /\ is_tier (salary (career_b r)).

(** What holds of the session between two runs of the script. *)
Definition session_ok (s : App.session) : Prop :=
  (App.ss_page s = None \/ App.ss_page s = Some "input"
   \/ App.ss_page s = Some "comparison")
  /\ (App.ss_page s = Some "comparison" ->
      exists n a b r,
        App.ss_user_name s = Some n /\ App.ss_career_a s = Some a
        /\ App.ss_career_b s = Some b
        /\ App.ss_comparison_data s = Some r)
  /\ (forall r, App.ss_comparison_data s = Some r -> drawable r)
  /\ (forall n, App.ss_user_name s = Some n ->
                validate_user_name (PStr n) = true)
  /\ (forall a, App.ss_career_a s = Some a ->
                validate_career_input (PStr a) = true)
  /\ (forall b, App.ss_career_b s = Some b ->
                validate_career_input (PStr b) = true).

(* ================================================================= *)
(** * Properties *)

(** ** Results *)

Lemma bind_Ok {A B : Type} (m : result A) (k : A -> result B) (b : B) :
  bind m k = Ok b -> exists a, m = Ok a /\ k a = Ok b.
Proof.
  destruct m as [a | e]; simpl; intros H; [eauto | discriminate].
Qed.

(** ** Strings *)

Lemma mem_In (x : string) (xs : list string) :
  PyStr.mem x xs = true <-> In x xs.
Proof.
  unfold PyStr.mem. rewrite existsb_exists. split.
  - intros (y & Hy & E). apply String.eqb_eq in E. now subst.
  - intros H. exists x. split; [assumption | apply String.eqb_refl].
Qed.

(** ** The data model *)

Lemma is_list_of_3_spec (v : pyval) : is_list_of_3 v = true <-> list_of_3 v.
Proof.
  unfold is_list_of_3, list_of_3. split.
  - destruct v; cbn [list_len]; try discriminate.
    intros H. apply Nat.eqb_eq in H. eauto.
  - intros (l & -> & H). cbn [list_len]. now apply Nat.eqb_eq.
Qed.

Lemma is_list_of_2_or_more_spec (v : pyval) :
  is_list_of_2_or_more v = true <-> list_of_2_or_more v.
Proof.
  unfold is_list_of_2_or_more, list_of_2_or_more. split.
  - destruct v; cbn [list_len]; try discriminate.
    intros H. apply Nat.leb_le in H. eauto.
  - intros (l & -> & H). cbn [list_len]. now apply Nat.leb_le.
Qed.

Lemma CareerInfo_new_Ok (o s y t p c : pyval) (ci : CareerInfo) :
  CareerInfo_new o s y t p c = Ok ci <->
  ci = mkCareerInfo o s y t p c /\ is_list_of_3 p = true
  /\ is_list_of_3 c = true.
Proof.
  unfold CareerInfo_new, CareerInfo_post_init. simpl.
  destruct (is_list_of_3 p), (is_list_of_3 c); simpl; split;
    try (intros H; discriminate H);
    try (intros (_ & H1 & H2); discriminate).
  - intros H. injection H as <-. auto.
  - intros (-> & _). reflexivity.
Qed.

Lemma ComparisonResult_new_Ok (a b : CareerInfo) (g : pyval)
      (r : ComparisonResult) :
  ComparisonResult_new a b g = Ok r <->
  r = mkComparisonResult a b g /\ is_list_of_2_or_more g = true.
Proof.
  unfold ComparisonResult_new, ComparisonResult_post_init. simpl.
  destruct (is_list_of_2_or_more g); simpl; split;
    try (intros H; discriminate H);
    try (intros (_ & H); discriminate).
  - intros H. injection H as <-. auto.
  - intros (-> & _). reflexivity.
Qed.

(** C7. Constructing a [CareerInfo] whose [pros] or [cons] is not a list
    of exactly three elements raises a [ValueError]; with both a list of
    exactly three elements the construction succeeds and stores the six
    arguments; hence every constructed [CareerInfo] has exactly three
    [pros] and exactly three [cons]. *)
Theorem CareerInfo_construction (o s y t p c : pyval) :
  (~ list_of_3 p \/ ~ list_of_3 c ->
   exists msg, CareerInfo_new o s y t p c = Err (ValueError msg))
  /\ (list_of_3 p -> list_of_3 c ->
      CareerInfo_new o s y t p c = Ok (mkCareerInfo o s y t p c))
  /\ (forall ci, CareerInfo_new o s y t p c = Ok ci ->
      list_of_3 (pros ci) /\ list_of_3 (cons ci)).
Proof.
  repeat split.
  - rewrite <- !is_list_of_3_spec.
    unfold CareerInfo_new, CareerInfo_post_init. simpl.
    destruct (is_list_of_3 p), (is_list_of_3 c); simpl;
      intros [H | H]; try (exfalso; now apply H); eauto.
  - intros Hp Hc. apply CareerInfo_new_Ok.
    rewrite !is_list_of_3_spec. auto.
  - apply CareerInfo_new_Ok in H. destruct H as (-> & Hp & _).
    now apply is_list_of_3_spec.
  - apply CareerInfo_new_Ok in H. destruct H as (-> & _ & Hc).
    now apply is_list_of_3_spec.
Qed.

Lemma CareerInfo_construction_witness :
  (exists msg,
      CareerInfo_new (PStr "o") (PStr "s") (PStr "low") (PStr "t")
                     (PList [PStr "a"; PStr "b"])
                     (PList [PStr "d"; PStr "e"; PStr "f"])
      = Err (ValueError msg))
  /\ CareerInfo_new (PStr "o") (PStr "s") (PStr "low") (PStr "t")
                    (PList [PStr "a"; PStr "b"; PStr "c"])
                    (PList [PStr "d"; PStr "e"; PStr "f"])
     = Ok (mkCareerInfo (PStr "o") (PStr "s") (PStr "low") (PStr "t")
                        (PList [PStr "a"; PStr "b"; PStr "c"])
                        (PList [PStr "d"; PStr "e"; PStr "f"])).
Proof.
  split.
  - apply (CareerInfo_construction (PStr "o") (PStr "s") (PStr "low")
             (PStr "t") (PList [PStr "a"; PStr "b"])
             (PList [PStr "d"; PStr "e"; PStr "f"])).
    left. intros (l & E & Hl). injection E as <-. simpl in Hl. discriminate.
  - apply (CareerInfo_construction (PStr "o") (PStr "s") (PStr "low")
             (PStr "t") (PList [PStr "a"; PStr "b"; PStr "c"])
             (PList [PStr "d"; PStr "e"; PStr "f"]));
      eexists; split; reflexivity.
Defined.

(** The records that pass the checks are exactly the constructed ones. *)
Lemma valid_career_constructed (ci : CareerInfo) :
  valid_career ci <->
  exists o s y t p c, CareerInfo_new o s y t p c = Ok ci.
Proof.
  unfold valid_career. split.
  - intros (Hp & Hc).
    exists (overview ci), (skills ci), (salary ci), (time_to_enter ci),
           (pros ci), (cons ci).
    apply CareerInfo_new_Ok. rewrite !is_list_of_3_spec.
    destruct ci; auto.
  - intros (o & s & y & t & p & c & H).
    apply CareerInfo_new_Ok in H. destruct H as (-> & Hp & Hc).
    rewrite <- !is_list_of_3_spec. auto.
Qed.

Lemma valid_result_constructed (r : ComparisonResult) :
  valid_result r <->
  exists a b g, valid_career a /\ valid_career b
                /\ ComparisonResult_new a b g = Ok r.
Proof.
  unfold valid_result. split.
  - intros (Ha & Hb & Hg).
    exists (career_a r), (career_b r), (decision_guide r).
    repeat split; try apply Ha; try apply Hb.
    apply ComparisonResult_new_Ok. rewrite is_list_of_2_or_more_spec.
    destruct r; auto.
  - intros (a & b & g & Ha & Hb & H).
    apply ComparisonResult_new_Ok in H. destruct H as (-> & Hg).
    rewrite <- is_list_of_2_or_more_spec. auto.
Qed.

Lemma CareerInfo_of_kwargs_to_dict (ci : CareerInfo) :
  valid_career ci -> CareerInfo_of_kwargs (CareerInfo_to_dict ci) = Ok ci.
Proof.
  intros (Hp & Hc). destruct ci as [o s y t p c].
  change (CareerInfo_of_kwargs
            (CareerInfo_to_dict (mkCareerInfo o s y t p c)))
    with (CareerInfo_new o s y t p c).
  apply CareerInfo_new_Ok. rewrite !is_list_of_3_spec. auto.
Qed.

(** C9. For every validly constructed [ComparisonResult] [r],
    [ComparisonResult.from_dict(r.to_dict())] succeeds and is equal to
    [r]. *)
Theorem from_dict_to_dict (r : ComparisonResult) :
  valid_result r -> from_dict (to_dict r) = Ok r.
Proof.
  intros (Ha & Hb & Hg). unfold from_dict, to_dict.
  change (subscript (PDict _) "career_a")
    with (Ok (CareerInfo_to_dict (career_a r))).
  cbn [bind]. rewrite (CareerInfo_of_kwargs_to_dict _ Ha). cbn [bind].
  change (subscript (PDict _) "career_b")
    with (Ok (CareerInfo_to_dict (career_b r))).
  cbn [bind]. rewrite (CareerInfo_of_kwargs_to_dict _ Hb). cbn [bind].
  change (subscript (PDict _) "decision_guide")
    with (Ok (decision_guide r)).
  cbn [bind]. apply ComparisonResult_new_Ok.
  rewrite is_list_of_2_or_more_spec. destruct r; auto.
Qed.

Lemma from_dict_to_dict_witness :
  from_dict (to_dict (sample_result "high" "$45,000"))
  = Ok (sample_result "high" "$45,000").
Proof.
  apply (from_dict_to_dict (sample_result "high" "$45,000")).
  repeat split; eexists; split; try reflexivity; simpl; lia.
Defined.

(** ** The salary normaliser *)

Lemma standardize_salary_in_tiers (s : string) :
  In (standardize_salary s) tiers.
Proof.
  unfold standardize_salary, tiers.
  destruct (PyStr.is_empty s); [simpl; auto |].
  destruct (PyStr.mem _ _) eqn:E; [now apply mem_In in E |].
  repeat match goal with
         | |- context [if ?b then _ else _] => destruct b
         end; simpl; auto.
Qed.

Lemma standardize_salary_val_tier (v y : pyval) :
  standardize_salary_val v = Ok y -> is_tier y.
Proof.
  unfold standardize_salary_val, is_tier.
  destruct (negb (truthy v)).
  - intros H. injection H as <-. auto.
  - destruct v; try discriminate. intros H. injection H as <-.
    destruct (standardize_salary_in_tiers s) as [E | [E | [E | []]]];
      rewrite <- E; auto.
Qed.

(** C6. The salary normaliser is a total function on strings whose value
    is always one of "low", "medium", "high": the empty string and the
    null value give "medium", an input no rule matches gives "medium",
    and an input whose trimmed lower-casing is one of the three tier
    names gives that name. *)
Theorem standardize_salary_total :
  (forall s, In (standardize_salary s) tiers)
  /\ standardize_salary "" = "medium"
  /\ standardize_salary_val PNone = Ok (PStr "medium")
  /\ (forall s,
        PyStr.mem (PyStr.strip (PyStr.lower s)) tiers = false ->
        any_match low_patterns (PyStr.strip (PyStr.lower s)) = false ->
        any_match high_patterns (PyStr.strip (PyStr.lower s)) = false ->
        any_match medium_patterns (PyStr.strip (PyStr.lower s)) = false ->
        standardize_salary s = "medium")
  /\ (forall s,
        In (PyStr.strip (PyStr.lower s)) tiers ->
        standardize_salary s = PyStr.strip (PyStr.lower s)).
Proof.
  split; [exact standardize_salary_in_tiers |].
  split; [reflexivity |]. split; [reflexivity |]. split.
  - intros s Hd Hl Hh Hm. unfold standardize_salary.
    destruct (PyStr.is_empty s); [reflexivity |].
    fold tiers. now rewrite Hd, Hl, Hh, Hm.
  - intros s H. unfold standardize_salary.
    destruct s as [| c s']; [simpl in H; intuition discriminate |].
    cbn [PyStr.is_empty]. fold tiers.
    apply mem_In in H. now rewrite H.
Qed.

Lemma standardize_salary_total_witness :
  standardize_salary "a negotiable package" = "medium"
  /\ standardize_salary "  HIGH " = "high".
Proof.
  split.
  - apply (proj1 (proj2 (proj2 (proj2 standardize_salary_total))));
      vm_compute; reflexivity.
  - change (standardize_salary "  HIGH "
            = PyStr.strip (PyStr.lower "  HIGH ")).
    apply (proj2 (proj2 (proj2 (proj2 standardize_salary_total)))).
    vm_compute. auto.
Defined.

(** C1 fails on the code.  The figures 45,000 written with a dollar sign,
    45k, 45 and 85,000 are classified as the comments on the patterns
    say, but 150,000 is "low": the second low pattern, commented
    "Under 60k", is not anchored on the left and reads it as 1 followed
    by 50,000, before the high pattern commented "100k+" is tried.  The
    plain figure 45000 matches no pattern and gets the default. *)
Theorem standardize_salary_figures :
  standardize_salary "$45,000" = "low"
  /\ standardize_salary "45k" = "low"
  /\ standardize_salary "45" = "low"
  /\ standardize_salary "85,000" = "high"
  /\ standardize_salary "150,000" = "low"
  /\ standardize_salary "45000" = "medium".
Proof.
  repeat split; vm_compute; reflexivity.
Qed.

(** ** Normalising a result *)

Lemma _standardize_salary_format_Ok (r r' : ComparisonResult) :
  _standardize_salary_format r = Ok r' ->
  exists ya yb,
    standardize_salary_val (salary (career_a r)) = Ok ya
    /\ standardize_salary_val (salary (career_b r)) = Ok yb
    /\ r' = mkComparisonResult
              (mkCareerInfo (overview (career_a r)) (skills (career_a r)) ya
                            (time_to_enter (career_a r)) (pros (career_a r))
                            (cons (career_a r)))
              (mkCareerInfo (overview (career_b r)) (skills (career_b r)) yb
                            (time_to_enter (career_b r)) (pros (career_b r))
                            (cons (career_b r)))
              (decision_guide r).
Proof.
  unfold _standardize_salary_format. intros H.
  apply bind_Ok in H. destruct H as (ya & Hya & H).
  apply bind_Ok in H. destruct H as (ca & Hca & H).
  apply bind_Ok in H. destruct H as (yb & Hyb & H).
  apply bind_Ok in H. destruct H as (cb & Hcb & H).
  apply CareerInfo_new_Ok in Hca. destruct Hca as (-> & _).
  apply CareerInfo_new_Ok in Hcb. destruct Hcb as (-> & _).
  apply ComparisonResult_new_Ok in H. destruct H as (-> & _).
  eauto.
Qed.

(** C10. When [_standardize_salary_format] succeeds on [r], the result
    differs from [r] at most in the two salary fields: the overview,
    skills, time to enter, pros and cons of both careers and the decision
    guide are those of [r]. *)
Theorem _standardize_salary_format_frame (r r' : ComparisonResult) :
  _standardize_salary_format r = Ok r' ->
  overview (career_a r') = overview (career_a r)
  /\ skills (career_a r') = skills (career_a r)
  /\ time_to_enter (career_a r') = time_to_enter (career_a r)
  /\ pros (career_a r') = pros (career_a r)
  /\ cons (career_a r') = cons (career_a r)
  /\ overview (career_b r') = overview (career_b r)
  /\ skills (career_b r') = skills (career_b r)
  /\ time_to_enter (career_b r') = time_to_enter (career_b r)
  /\ pros (career_b r') = pros (career_b r)
  /\ cons (career_b r') = cons (career_b r)
  /\ decision_guide r' = decision_guide r.
Proof.
  intros H. apply _standardize_salary_format_Ok in H.
  destruct H as (ya & yb & _ & _ & ->). simpl. repeat split.
Qed.

Lemma _standardize_salary_format_frame_witness :
  _standardize_salary_format (sample_result "High" "$45,000")
  = Ok (sample_result "high" "low")
  /\ overview (career_a (sample_result "high" "low"))
     = overview (career_a (sample_result "High" "$45,000")).
Proof.
  assert (E : _standardize_salary_format (sample_result "High" "$45,000")
              = Ok (sample_result "high" "low")) by (vm_compute; reflexivity).
  split; [exact E |].
  exact (proj1 (_standardize_salary_format_frame _ _ E)).
Defined.

Lemma _standardize_salary_format_tiers (r r' : ComparisonResult) :
  _standardize_salary_format r = Ok r' ->
  is_tier (salary (career_a r')) /\ is_tier (salary (career_b r')).
Proof.
  intros H. apply _standardize_salary_format_Ok in H.
  destruct H as (ya & yb & Ha & Hb & ->). simpl.
  split; eapply standardize_salary_val_tier; eassumption.
Qed.

(** ** The orchestrator *)

Lemma _get_mock_comparison_Ok (a b : string) :
  _get_mock_comparison a b = Ok (mock_result a b).
Proof. reflexivity. Qed.

Lemma _standardize_salary_format_mock (a b : string) :
  _standardize_salary_format (mock_result a b) = Ok (mock_result a b).
Proof. reflexivity. Qed.

Lemma attempt_mock (a b : string) :
  attempt _get_mock_comparison a b = Some (mock_result a b).
Proof.
  unfold attempt. rewrite _get_mock_comparison_Ok. cbn [bind].
  now rewrite _standardize_salary_format_mock.
Qed.

Lemma attempt_normalised (f : provider) (a b : string)
      (r : ComparisonResult) :
  attempt f a b = Some r ->
  exists res, f a b = Ok res /\ _standardize_salary_format res = Ok r.
Proof.
  unfold attempt.
  destruct (bind _ _) as [r' | e] eqn:E; [| discriminate].
  intros H. injection H as <-. now apply bind_Ok in E.
Qed.

(** The loop of [run_referee], turn by turn. *)
Lemma run_referee_unfold (w : World) (a b : string) :
  run_referee w a b =
  match (if _is_ollama_available w
         then attempt (_call_ollama_api w) a b else None) with
  | Some r => Ok r
  | None =>
      match (if OPENAI_AVAILABLE w && has_api_key w
             then attempt (_call_openai_api w) a b else None) with
      | Some r => Ok r
      | None => Ok (mock_result a b)
      end
  end.
Proof.
  unfold run_referee, providers, provider_loop, provider_turn.
  change (String.eqb "ollama" "ollama") with true.
  change (String.eqb "openai" "ollama") with false.
  change (String.eqb "openai" "openai") with true.
  change (String.eqb "openai" "mock") with false.
  change (String.eqb "mock" "ollama") with false.
  change (String.eqb "mock" "openai") with false.
  change (String.eqb "mock" "mock") with true.
  change (String.eqb "ollama" "openai") with false.
  change (String.eqb "ollama" "mock") with false.
  cbn [andb]. rewrite attempt_mock.
  destruct (_is_ollama_available w).
  - destruct (attempt (_call_ollama_api w) a b); [reflexivity |].
    destruct (OPENAI_AVAILABLE w && has_api_key w); reflexivity.
  - destruct (OPENAI_AVAILABLE w && has_api_key w); reflexivity.
Qed.

(** C2. When the reachability probe of the local server fails and no API
    key is set in the environment, [run_referee] does not raise and
    returns the mock result: each career name occurs verbatim in the
    overview of its career, both salaries are "medium", and the decision
    guide has exactly two elements. *)
Theorem run_referee_fallback (w : World) (a b : string) :
  _is_ollama_available w = false ->
  has_api_key w = false ->
  exists r oa ob g,
    run_referee w a b = Ok r
    /\ r = mock_result a b
    /\ overview (career_a r) = PStr oa /\ occurs_in a oa
    /\ overview (career_b r) = PStr ob /\ occurs_in b ob
    /\ salary (career_a r) = PStr "medium"
    /\ salary (career_b r) = PStr "medium"
    /\ decision_guide r = PList g /\ List.length g = 2.
Proof.
  intros Hprobe Hkey. rewrite run_referee_unfold, Hprobe, Hkey.
  rewrite andb_false_r.
  eexists. eexists. eexists. eexists.
  split; [reflexivity |]. split; [reflexivity |].
  split; [reflexivity |]. split; [exists "" ; eexists; reflexivity |].
  split; [reflexivity |]. split; [exists "" ; eexists; reflexivity |].
  repeat split.
Qed.

Lemma run_referee_fallback_witness :
  exists r oa ob g,
    run_referee offline "Nurse" "Teacher" = Ok r
    /\ r = mock_result "Nurse" "Teacher"
    /\ overview (career_a r) = PStr oa /\ occurs_in "Nurse" oa
    /\ overview (career_b r) = PStr ob /\ occurs_in "Teacher" ob
    /\ salary (career_a r) = PStr "medium"
    /\ salary (career_b r) = PStr "medium"
    /\ decision_guide r = PList g /\ List.length g = 2.
Proof.
  apply (run_referee_fallback offline "Nurse" "Teacher"); reflexivity.
Defined.

(** C3. [run_referee] always returns, and what it returns came out of
    [_standardize_salary_format], so that both salaries are one of the
    lower-case strings "low", "medium", "high": this holds for a result of
    the local server, of the hosted API and of the mock; the return after
    the loop, which does not normalise, is never reached. *)
Theorem run_referee_tiers (w : World) (a b : string) :
  exists r res,
    run_referee w a b = Ok r
    /\ _standardize_salary_format res = Ok r
    /\ is_tier (salary (career_a r)) /\ is_tier (salary (career_b r)).
Proof.
  assert (Hnorm : forall r res,
             _standardize_salary_format res = Ok r ->
             exists r' res',
               Ok r = Ok r' /\ _standardize_salary_format res' = Ok r'
               /\ is_tier (salary (career_a r'))
               /\ is_tier (salary (career_b r'))).
  { intros r res H. exists r, res. split; [reflexivity |].
    split; [assumption |]. now apply _standardize_salary_format_tiers in H. }
  assert (Hmock : exists r' res',
             Ok (mock_result a b) = Ok r'
             /\ _standardize_salary_format res' = Ok r'
             /\ is_tier (salary (career_a r'))
             /\ is_tier (salary (career_b r')))
    by (apply (Hnorm _ (mock_result a b)), _standardize_salary_format_mock).
  rewrite run_referee_unfold.
  destruct (_is_ollama_available w).
  - destruct (attempt (_call_ollama_api w) a b) as [r |] eqn:E.
    + apply attempt_normalised in E. destruct E as (res & _ & E). eauto.
    + destruct (OPENAI_AVAILABLE w && has_api_key w); [| assumption].
      destruct (attempt (_call_openai_api w) a b) as [r |] eqn:E2;
        [| assumption].
      apply attempt_normalised in E2. destruct E2 as (res & _ & E2). eauto.
  - destruct (OPENAI_AVAILABLE w && has_api_key w); [| assumption].
    destruct (attempt (_call_openai_api w) a b) as [r |] eqn:E2;
      [| assumption].
    apply attempt_normalised in E2. destruct E2 as (res & _ & E2). eauto.
Qed.

(** The three providers at work. *)
Example run_referee_local_server :
  run_referee local_server "Nurse" "Teacher" = Ok (sample_result "high" "low").
Proof. vm_compute. reflexivity. Qed.

Example run_referee_hosted :
  run_referee hosted "Nurse" "Teacher" = Ok (sample_result "low" "medium").
Proof. vm_compute. reflexivity. Qed.

(** A salary figure in the answer is rejected by the parser at each of
    the three attempts, and the mock takes over. *)
Example run_referee_hosted_figures :
  _call_openai_api hosted_figures "Nurse" "Teacher"
  = Err (ValueError
           "Invalid salary format in career_a: 85,000. Must be low/medium/high")
  /\ run_referee hosted_figures "Nurse" "Teacher"
     = Ok (mock_result "Nurse" "Teacher").
Proof. split; vm_compute; reflexivity. Qed.

(** ** More on strings: prefixes, suffixes and trimming *)

Lemma append_assoc (s t u : string) : (s ++ t) ++ u = s ++ (t ++ u).
Proof. induction s as [| c s IH]; simpl; [reflexivity | now rewrite IH]. Qed.

Lemma append_nil_r (s : string) : s ++ "" = s.
Proof. induction s as [| c s IH]; simpl; [reflexivity | now rewrite IH]. Qed.

Lemma length_append (s t : string) :
  String.length (s ++ t) = String.length s + String.length t.
Proof. induction s as [| c s IH]; simpl; [reflexivity | now rewrite IH]. Qed.

Lemma prefix_append (p s : string) : String.prefix p (p ++ s) = true.
Proof.
  induction p as [| c p IH]; simpl; [now destruct s |].
  destruct (ascii_dec c c); [assumption | congruence].
Qed.

Lemma prefix_first_char (p s : string) (a b : ascii) :
  first_char s = Some b -> a <> b -> String.prefix (String a p) s = false.
Proof.
  destruct s as [| c s]; simpl; [discriminate |].
  intros H Hab. injection H as ->.
  destruct (ascii_dec a b); [contradiction | reflexivity].
Qed.

Lemma drop_append (p s : string) : PyStr.drop (String.length p) (p ++ s) = s.
Proof. induction p as [| c p IH]; simpl; [reflexivity | assumption]. Qed.

Lemma take_append (p s : string) : PyStr.take (String.length p) (p ++ s) = p.
Proof. induction p as [| c p IH]; simpl; [reflexivity | now rewrite IH]. Qed.

Lemma take_drop (n : nat) (s : string) : PyStr.take n s ++ PyStr.drop n s = s.
Proof.
  revert s. induction n as [| n IH]; intros s; [reflexivity |].
  destruct s as [| c s]; simpl; [reflexivity | now rewrite IH].
Qed.

Lemma endswith_append (s p : string) : PyStr.endswith (s ++ p) p = true.
Proof.
  unfold PyStr.endswith. rewrite length_append.
  replace (String.length s + String.length p - String.length p)
    with (String.length s) by lia.
  rewrite drop_append, String.eqb_refl, andb_true_r.
  apply Nat.leb_le. lia.
Qed.

Lemma drop_last_append (s p : string) :
  PyStr.drop_last (String.length p) (s ++ p) = s.
Proof.
  unfold PyStr.drop_last. rewrite length_append.
  replace (String.length s + String.length p - String.length p)
    with (String.length s) by lia.
  apply take_append.
Qed.

Lemma endswith_split (s p : string) :
  PyStr.endswith s p = true -> exists x, s = x ++ p.
Proof.
  unfold PyStr.endswith. intros H. apply andb_prop in H.
  destruct H as (_ & H). apply String.eqb_eq in H.
  exists (PyStr.take (String.length s - String.length p) s).
  rewrite <- (take_drop (String.length s - String.length p) s) at 1.
  now rewrite H.
Qed.

Lemma last_char_append (s : string) (c : ascii) :
  last_char (s ++ String c "") = Some c.
Proof.
  induction s as [| a s IH]; [reflexivity |].
  simpl. destruct (s ++ String c "") eqn:E; [| assumption].
  destruct s; discriminate.
Qed.

Lemma endswith_last_char (s p : string) (a b : ascii) :
  last_char s = Some b -> a <> b ->
  PyStr.endswith s (p ++ String a "") = false.
Proof.
  intros Hl Hab. destruct (PyStr.endswith _ _) eqn:E; [| reflexivity].
  apply endswith_split in E. destruct E as (x & ->).
  rewrite <- append_assoc, last_char_append in Hl. congruence.
Qed.

Lemma lstrip_blank_append (w s : string) :
  blank w = true -> PyStr.lstrip (w ++ s) = PyStr.lstrip s.
Proof.
  induction w as [| c w IH]; simpl; [reflexivity |].
  intros H. apply andb_prop in H. destruct H as (Hc & Hw).
  rewrite Hc. auto.
Qed.

Lemma lstrip_head (s : string) (c : ascii) (r : string) :
  PyStr.lstrip s = String c r -> PyStr.is_space c = false.
Proof.
  induction s as [| a s IH]; simpl; [discriminate |].
  destruct (PyStr.is_space a) eqn:E; [assumption |].
  intros H. injection H as <- _. assumption.
Qed.

Lemma lstrip_append (s t : string) :
  PyStr.is_empty (PyStr.lstrip s) = false ->
  PyStr.lstrip (s ++ t) = PyStr.lstrip s ++ t.
Proof.
  induction s as [| a s IH]; simpl; [discriminate |].
  destruct (PyStr.is_space a); [assumption | reflexivity].
Qed.

Lemma rstrip_blank (w : string) : blank w = true -> PyStr.rstrip w = "".
Proof.
  induction w as [| c w IH]; simpl; [reflexivity |].
  intros H. apply andb_prop in H. destruct H as (Hc & Hw).
  now rewrite (IH Hw), Hc.
Qed.

Lemma rstrip_append_blank (s w : string) :
  blank w = true -> PyStr.rstrip (s ++ w) = PyStr.rstrip s.
Proof.
  intros Hw. induction s as [| c s IH]; simpl.
  - now apply rstrip_blank.
  - now rewrite IH.
Qed.

Lemma rstrip_idem (s : string) : PyStr.rstrip (PyStr.rstrip s) = PyStr.rstrip s.
Proof.
  induction s as [| c s IH]; simpl; [reflexivity |].
  destruct (PyStr.is_empty (PyStr.rstrip s) && PyStr.is_space c) eqn:E;
    [reflexivity |].
  simpl. now rewrite IH, E.
Qed.

Lemma rstrip_append_fixed (x y : string) :
  PyStr.rstrip y = y -> PyStr.is_empty y = false ->
  PyStr.rstrip (x ++ y) = x ++ y.
Proof.
  intros Hy Hne. induction x as [| c x IH]; simpl; [assumption |].
  rewrite IH. destruct (x ++ y) eqn:E; [| reflexivity].
  destruct x; simpl in E; [subst y; discriminate | discriminate].
Qed.

Lemma rstrip_head (c : ascii) (r : string) :
  PyStr.is_space c = false ->
  PyStr.rstrip (String c r) = String c (PyStr.rstrip r).
Proof. intros H. simpl. now rewrite H, andb_false_r. Qed.

Lemma strip_idem (s : string) : PyStr.strip (PyStr.strip s) = PyStr.strip s.
Proof.
  unfold PyStr.strip. destruct (PyStr.lstrip s) as [| c r] eqn:E;
    [reflexivity |].
  pose proof (lstrip_head _ _ _ E) as Hc.
  rewrite rstrip_head by assumption.
  cbn [PyStr.lstrip]. rewrite Hc. rewrite rstrip_head by assumption.
  now rewrite rstrip_idem.
Qed.

Lemma strip_blank_append (w1 s w2 : string) :
  blank w1 = true -> blank w2 = true ->
  PyStr.is_empty (PyStr.strip s) = false ->
  PyStr.strip (w1 ++ s ++ w2) = PyStr.strip s.
Proof.
  intros H1 H2 Hs. unfold PyStr.strip in *.
  rewrite lstrip_blank_append by assumption.
  destruct (PyStr.lstrip s) as [| c r] eqn:E.
  - simpl in Hs. discriminate.
  - rewrite lstrip_append by now rewrite E.
    rewrite E. now apply rstrip_append_blank.
Qed.

(** ** Code fences *)

Lemma delimited_as_json_inv (s : string) :
  delimited_as_json s = true ->
  exists a b, first_char (PyStr.strip s) = Some a
              /\ last_char (PyStr.strip s) = Some b
              /\ json_start a = true /\ json_end b = true.
Proof.
  unfold delimited_as_json.
  destruct (first_char _) as [a |]; [| discriminate].
  destruct (last_char _) as [b |]; [| discriminate].
  intros H. apply andb_prop in H. destruct H. eauto 6.
Qed.

Lemma delimited_not_empty (s : string) :
  delimited_as_json s = true ->
  PyStr.is_empty s = false /\ PyStr.is_empty (PyStr.strip s) = false.
Proof.
  intros H. apply delimited_as_json_inv in H.
  destruct H as (a & b & Ha & _). split.
  - destruct s; [discriminate | reflexivity].
  - destruct (PyStr.strip s); [discriminate | reflexivity].
Qed.

Lemma json_start_not (c : ascii) :
  json_start c = true -> c <> "`"%char /\ c <> "j"%char.
Proof.
  intros H. split; intros ->; vm_compute in H; discriminate.
Qed.

Lemma json_end_not (c : ascii) : json_end c = true -> c <> "`"%char.
Proof.
  intros H ->. vm_compute in H. discriminate.
Qed.

Lemma clean_response_unfenced (s : string) :
  delimited_as_json s = true -> clean_response s = PyStr.strip s.
Proof.
  intros H. apply delimited_as_json_inv in H.
  destruct H as (a & b & Ha & Hb & Hja & Hjb).
  apply json_start_not in Hja. destruct Hja as (Ha1 & _).
  apply json_end_not in Hjb.
  unfold clean_response, PyStr.startswith. cbv zeta.
  rewrite (prefix_first_char "``json" _ _ _ Ha) by congruence.
  rewrite (prefix_first_char "``" _ _ _ Ha) by congruence.
  change "```" with ("``" ++ String "`" "").
  rewrite (endswith_last_char _ "``" _ _ Hb) by congruence.
  apply strip_idem.
Qed.

Lemma strip_fenced (fence x : string) :
  PyStr.strip (String "`" fence ++ x ++ "```") = String "`" fence ++ x ++ "```".
Proof.
  unfold PyStr.strip. cbn [append PyStr.lstrip].
  change (PyStr.is_space "`") with false. cbv iota.
  change (String "`" (fence ++ x ++ "```"))
    with (String "`" fence ++ x ++ "```").
  rewrite <- append_assoc. now apply rstrip_append_fixed.
Qed.

Lemma not_json_prefix (s t : string) :
  delimited_as_json s = true -> String.prefix "json" (s ++ t) = false.
Proof.
  intros H. apply delimited_as_json_inv in H.
  destruct H as (a & b & Ha & _ & Hja & _).
  apply json_start_not in Hja. destruct Hja as (_ & Hj).
  destruct s as [| c r]; [discriminate |].
  cbn [append String.prefix].
  destruct (ascii_dec "j" c) as [<- | Hc]; [| reflexivity].
  exfalso. apply Hj. unfold PyStr.strip in Ha. cbn [PyStr.lstrip] in Ha.
  change (PyStr.is_space "j") with false in Ha. cbv iota in Ha.
  rewrite rstrip_head in Ha by reflexivity. simpl in Ha. congruence.
Qed.

Lemma clean_response_fenced (s : string) :
  delimited_as_json s = true ->
  clean_response ("```json" ++ s ++ "```") = PyStr.strip s
  /\ clean_response ("```" ++ s ++ "```") = PyStr.strip s.
Proof.
  intros H. split; unfold clean_response, PyStr.startswith; cbv zeta.
  - rewrite (strip_fenced "``json" s).
    rewrite prefix_append.
    change 7 with (String.length "```json"). rewrite drop_append.
    rewrite endswith_append.
    change 3 with (String.length "```"). now rewrite drop_last_append.
  - rewrite (strip_fenced "``" s).
    replace (String.prefix "```json" ("```" ++ s ++ "```"))
      with (String.prefix "json" (s ++ "```"))
      by (cbn [append String.prefix];
          destruct (ascii_dec "`" "`"); [reflexivity | congruence]).
    rewrite not_json_prefix by assumption.
    rewrite prefix_append. cbv iota.
    change (PyStr.drop 3 ("```" ++ s ++ "```")) with (s ++ "```").
    rewrite endswith_append.
    change 3 with (String.length "```"). now rewrite drop_last_append.
Qed.

Lemma delimited_blank_append (w1 s w2 : string) :
  blank w1 = true -> blank w2 = true -> delimited_as_json s = true ->
  PyStr.strip (w1 ++ s ++ w2) = PyStr.strip s
  /\ delimited_as_json (w1 ++ s ++ w2) = true.
Proof.
  intros H1 H2 H.
  assert (E : PyStr.strip (w1 ++ s ++ w2) = PyStr.strip s)
    by (apply strip_blank_append; try assumption;
        now apply delimited_not_empty).
  split; [assumption |]. unfold delimited_as_json. now rewrite E.
Qed.

Lemma _parse_ai_response_clean (json_loads : string -> result pyval)
      (s t : string) :
  PyStr.is_empty s = false -> PyStr.is_empty (PyStr.strip s) = false ->
  PyStr.is_empty t = false -> PyStr.is_empty (PyStr.strip t) = false ->
  clean_response s = clean_response t ->
  _parse_ai_response json_loads s = _parse_ai_response json_loads t.
Proof.
  intros Hs Hs' Ht Ht' E. unfold _parse_ai_response.
  now rewrite Hs, Hs', Ht, Ht', E.
Qed.

(** C8. For a JSON text [P] (one that, trimmed, begins and ends as a JSON
    text does), [_parse_ai_response] gives on [P] wrapped in a labelled
    fence or in a bare fence, with or without white space between the
    fences and [P], the result it gives on [P] itself; so when [P] parses
    successfully, the wrapped text parses to an equal result. *)
Theorem _parse_ai_response_fenced (json_loads : string -> result pyval)
        (P w1 w2 : string) :
  delimited_as_json P = true -> blank w1 = true -> blank w2 = true ->
  _parse_ai_response json_loads ("```json" ++ w1 ++ P ++ w2 ++ "```")
  = _parse_ai_response json_loads P
  /\ _parse_ai_response json_loads ("```" ++ w1 ++ P ++ w2 ++ "```")
     = _parse_ai_response json_loads P.
Proof.
  intros H H1 H2.
  destruct (delimited_blank_append w1 P w2 H1 H2 H) as (E & H').
  destruct (clean_response_fenced _ H') as (EJ & EB).
  destruct (delimited_not_empty _ H) as (Hne & Hne').
  assert (A : forall fence : string,
             fence ++ w1 ++ P ++ w2 ++ "```"
             = fence ++ (w1 ++ P ++ w2) ++ "```")
    by (intros fence; now rewrite !append_assoc).
  split; rewrite A; apply _parse_ai_response_clean;
    try assumption; try reflexivity;
    try (now rewrite (strip_fenced _ (w1 ++ P ++ w2)));
    rewrite (clean_response_unfenced _ H); congruence.
Qed.

(** ** What the parser raises *)

Lemma bind_plain {A B : Type} (m : result A) (k : A -> result B) :
  raises_plain m -> (forall a, raises_plain (k a)) -> raises_plain (bind m k).
Proof. destruct m as [a | e]; simpl; auto. Qed.

Lemma for_each_plain {A : Type} (xs : list A) (body : A -> result unit) :
  (forall x, raises_plain (body x)) -> raises_plain (for_each xs body).
Proof.
  intros H. induction xs as [| x xs IH]; simpl; [exact I |].
  apply bind_plain; auto.
Qed.

Ltac plain_step :=
  match goal with
  | |- raises_plain (Ok _) => exact I
  | |- raises_plain (Err _) => exact I
  | |- raises_plain (bind _ _) => apply bind_plain; [| intros ?]
  | |- raises_plain (for_each _ _) => apply for_each_plain; intros ?
  | |- raises_plain (if ?b then _ else _) => destruct b
  | |- raises_plain (match ?x with _ => _ end) => destruct x
  end.

Lemma subscript_plain (v : pyval) (k : string) : raises_plain (subscript v k).
Proof. unfold subscript. repeat plain_step. Qed.

Lemma CareerInfo_new_plain (o s y t p c : pyval) :
  raises_plain (CareerInfo_new o s y t p c).
Proof. unfold CareerInfo_new, CareerInfo_post_init. repeat plain_step. Qed.

Lemma CareerInfo_of_kwargs_plain (v : pyval) :
  raises_plain (CareerInfo_of_kwargs v).
Proof.
  unfold CareerInfo_of_kwargs, kwarg.
  repeat first [apply CareerInfo_new_plain | plain_step].
Qed.

Lemma from_dict_plain (data : pyval) : raises_plain (from_dict data).
Proof.
  unfold from_dict, ComparisonResult_new, ComparisonResult_post_init.
  repeat first [apply subscript_plain | apply CareerInfo_of_kwargs_plain
                | plain_step].
Qed.

Lemma validate_career_plain (d : pydict) (key : string) :
  raises_plain (validate_career d key).
Proof.
  unfold validate_career, py_lower, validate_list_field.
  repeat first [apply subscript_plain | plain_step].
Qed.

Lemma validate_and_build_plain (data : pyval) :
  raises_plain (validate_and_build data).
Proof.
  unfold validate_and_build, validate_decision_guide.
  repeat first [apply validate_career_plain | apply from_dict_plain
                | plain_step].
Qed.

Lemma decode_plain (json_loads : string -> result pyval) (s : string) :
  raises_plain (decode json_loads s).
Proof.
  unfold decode. destruct (json_loads s) as [v | []]; exact I.
Qed.

Lemma reraise_ValueError {A : Type} (m : result A) (e : exn) :
  raises_plain m -> reraise m = Err e -> exists msg, e = ValueError msg.
Proof.
  destruct m as [a | e0]; simpl; [discriminate |].
  destruct e0; simpl; intros Hp H; try contradiction;
    injection H as <-; eauto.
Qed.

(** Whatever [_parse_ai_response] raises is a plain [ValueError]. *)
Lemma _parse_ai_response_raises (json_loads : string -> result pyval)
      (response : string) (e : exn) :
  _parse_ai_response json_loads response = Err e ->
  exists msg, e = ValueError msg.
Proof.
  unfold _parse_ai_response.
  destruct (PyStr.is_empty response || _).
  - intros H. injection H as <-. eauto.
  - apply reraise_ValueError. apply bind_plain.
    + apply decode_plain.
    + intros a. apply validate_and_build_plain.
Qed.

(** ** What the parser accepts *)

Lemma for_each_Ok {A : Type} (xs : list A) (body : A -> result unit) :
  for_each xs body = Ok tt -> forall x, In x xs -> body x = Ok tt.
Proof.
  induction xs as [| y xs IH]; simpl; intros H x Hx; [contradiction |].
  apply bind_Ok in H. destruct H as ([] & Hy & H).
  destruct Hx as [<- | Hx]; auto.
Qed.

Lemma validate_career_Ok (d : pydict) (key : string) :
  validate_career d key = Ok tt ->
  exists cd,
    dict_get d key = Some (PDict cd)
    /\ salary_accepted (dict_get_or cd "salary" (PStr "")) = true.
Proof.
  unfold validate_career, subscript. intros H.
  apply bind_Ok in H. destruct H as (v & Hv & H).
  destruct (dict_get d key) as [x |]; [| discriminate].
  injection Hv as ->. destruct v as [| | | | | | cd]; try discriminate.
  exists cd. split; [reflexivity |].
  destruct (negb (is_nil _)); [discriminate |].
  apply bind_Ok in H. destruct H as (y & Hy & H).
  destruct (dict_get_or cd "salary" (PStr "")) as [| | | | s | |];
    try discriminate.
  injection Hy as <-. unfold salary_accepted. fold tiers in H.
  destruct (PyStr.mem (PyStr.lower s) tiers); [reflexivity | discriminate].
Qed.

Lemma _parse_ai_response_Ok (json_loads : string -> result pyval)
      (response : string) (r : ComparisonResult) :
  _parse_ai_response json_loads response = Ok r ->
  exists d,
    json_loads (clean_response response) = Ok (PDict d)
    /\ validate_career d "career_a" = Ok tt
    /\ validate_career d "career_b" = Ok tt
    /\ validate_decision_guide d = Ok tt
    /\ from_dict (PDict d) = Ok r.
Proof.
  unfold _parse_ai_response.
  destruct (PyStr.is_empty response || _); [discriminate |].
  destruct (bind _ _) as [r' | e] eqn:E; simpl;
    [| destruct (is_ValueError e); discriminate].
  intros H. injection H as ->.
  apply bind_Ok in E. destruct E as (data & Hd & H).
  assert (Hj : json_loads (clean_response response) = Ok data).
  { unfold decode in Hd.
    destruct (json_loads (clean_response response)) as [v | []];
      try discriminate; assumption. }
  unfold validate_and_build in H.
  destruct data as [| | | | | | d]; try discriminate.
  destruct (negb (is_nil _)); [discriminate |].
  apply bind_Ok in H. destruct H as ([] & Hc & H).
  apply bind_Ok in H. destruct H as ([] & Hg & H).
  exists d. repeat split; try assumption.
  - apply (for_each_Ok _ _ Hc). simpl. auto.
  - apply (for_each_Ok _ _ Hc). simpl. auto.
Qed.

(** C4. When the decoded payload holds, for [career_a] or for [career_b],
    a salary that is not a tier name up to case, [_parse_ai_response]
    raises a [ValueError]; the value is not corrected, although the
    normaliser would accept it. *)
Theorem _parse_ai_response_salary_gate
        (json_loads : string -> result pyval) (response : string)
        (d cd : pydict) (key : string) (v : pyval) :
  json_loads (clean_response response) = Ok (PDict d) ->
  key = "career_a" \/ key = "career_b" ->
  dict_get d key = Some (PDict cd) ->
  dict_get cd "salary" = Some v ->
  salary_accepted v = false ->
  exists msg,
    _parse_ai_response json_loads response = Err (ValueError msg).
Proof.
  intros Hj Hkey Hcd Hv Hno.
  destruct (_parse_ai_response json_loads response) as [r | e] eqn:E.
  - exfalso. apply _parse_ai_response_Ok in E.
    destruct E as (d' & Hj' & Ha & Hb & _).
    rewrite Hj in Hj'. injection Hj' as <-.
    assert (Hk : validate_career d key = Ok tt)
      by (destruct Hkey as [-> | ->]; assumption).
    apply validate_career_Ok in Hk. destruct Hk as (cd' & Hcd' & Hs).
    rewrite Hcd in Hcd'. injection Hcd' as <-.
    unfold dict_get_or in Hs. rewrite Hv in Hs. congruence.
  - apply _parse_ai_response_raises in E. destruct E as (msg & ->). eauto.
Qed.

(** ** Missing keys *)

Lemma occurs_in_append_l (k s t : string) :
  occurs_in k s -> occurs_in k (s ++ t).
Proof.
  intros (b & a & ->). exists b, (a ++ t). now rewrite !append_assoc.
Qed.

Lemma occurs_in_append_r (k s t : string) :
  occurs_in k t -> occurs_in k (s ++ t).
Proof.
  intros (b & a & ->). exists (s ++ b), a. now rewrite !append_assoc.
Qed.

Lemma occurs_in_repr (k : string) : occurs_in k (PyStr.repr k).
Proof. exists "'", "'". reflexivity. Qed.

Lemma occurs_in_join (k : string) (xs : list string) :
  In k xs -> occurs_in k (PyStr.join ", " (map PyStr.repr xs)).
Proof.
  induction xs as [| x xs IH]; [contradiction |].
  intros [-> | H].
  - destruct xs as [| y xs]; cbn [map PyStr.join].
    + apply occurs_in_repr.
    + apply occurs_in_append_l, occurs_in_repr.
  - destruct xs as [| y xs]; [contradiction |].
    change (PyStr.join ", " (map PyStr.repr (x :: y :: xs)))
      with (PyStr.repr x ++ ", " ++ PyStr.join ", " (map PyStr.repr (y :: xs))).
    apply occurs_in_append_r, occurs_in_append_r, IH, H.
Qed.

Lemma occurs_in_repr_list (k : string) (xs : list string) :
  In k xs -> occurs_in k (PyStr.repr_list xs).
Proof.
  intros H. unfold PyStr.repr_list.
  apply occurs_in_append_r, occurs_in_append_l, occurs_in_join, H.
Qed.

Lemma missing_nil (d : pydict) (fields : list string) :
  (forall f, In f fields -> dict_mem f d = true) ->
  filter (fun field => negb (dict_mem field d)) fields = [].
Proof.
  induction fields as [| x xs IH]; intros H; [reflexivity |].
  cbn [filter]. rewrite (H x) by (left; reflexivity). cbn [negb].
  apply IH. intros f Hf. apply H. now right.
Qed.

Lemma missing_In (d : pydict) (fields : list string) (k : string) :
  In k fields -> dict_mem k d = false ->
  In k (filter (fun field => negb (dict_mem field d)) fields)
  /\ is_nil (filter (fun field => negb (dict_mem field d)) fields) = false.
Proof.
  intros Hk Hd.
  assert (H : In k (filter (fun field => negb (dict_mem field d)) fields))
    by (apply filter_In; split; [assumption | now rewrite Hd]).
  split; [assumption |].
  destruct (filter _ fields); [contradiction | reflexivity].
Qed.

Lemma validate_career_missing (d cd : pydict) (key k : string) :
  dict_get d key = Some (PDict cd) ->
  In k required_career_fields -> dict_mem k cd = false ->
  names k (validate_career d key).
Proof.
  intros Hcd Hk Hno. unfold validate_career, subscript.
  rewrite Hcd. cbn [bind].
  destruct (missing_In cd required_career_fields k Hk Hno) as (Hin & Hnil).
  rewrite Hnil. cbn [negb]. eexists. split; [reflexivity |].
  apply occurs_in_append_r, occurs_in_append_r, occurs_in_append_r.
  now apply occurs_in_repr_list.
Qed.

Lemma _parse_ai_response_decoded (json_loads : string -> result pyval)
      (response : string) (d : pydict) :
  PyStr.is_empty (PyStr.strip response) = false ->
  json_loads (clean_response response) = Ok (PDict d) ->
  _parse_ai_response json_loads response
  = reraise (validate_and_build (PDict d)).
Proof.
  intros Hne Hj. unfold _parse_ai_response, decode.
  rewrite Hne, Hj, orb_false_r.
  destruct response; [discriminate | reflexivity].
Qed.

Lemma validate_and_build_present (d : pydict) :
  (forall f, In f required_fields -> dict_mem f d = true) ->
  validate_and_build (PDict d)
  = (validate_career d "career_a" ;;;
     validate_career d "career_b" ;;; Ok tt) ;;;
    validate_decision_guide d ;;; from_dict (PDict d).
Proof.
  intros H. unfold validate_and_build.
  now rewrite (missing_nil d required_fields H).
Qed.

(** C5. When one of the three top-level keys is missing from the
    decoded payload, or one of the six keys of a career is missing from
    [career_a], or from [career_b] when [career_a] passes its checks,
    [_parse_ai_response] raises a [ValueError] whose message has the
    missing key in it. *)
Theorem _parse_ai_response_missing_key
        (json_loads : string -> result pyval) (response : string)
        (d : pydict) :
  PyStr.is_empty (PyStr.strip response) = false ->
  json_loads (clean_response response) = Ok (PDict d) ->
  (forall k,
      In k required_fields -> dict_mem k d = false ->
      names k (_parse_ai_response json_loads response))
  /\ (forall k ca,
         (forall f, In f required_fields -> dict_mem f d = true) ->
         dict_get d "career_a" = Some (PDict ca) ->
         In k required_career_fields -> dict_mem k ca = false ->
         names k (_parse_ai_response json_loads response))
  /\ (forall k cb,
         (forall f, In f required_fields -> dict_mem f d = true) ->
         validate_career d "career_a" = Ok tt ->
         dict_get d "career_b" = Some (PDict cb) ->
         In k required_career_fields -> dict_mem k cb = false ->
         names k (_parse_ai_response json_loads response)).
Proof.
  intros Hne Hj.
  rewrite (_parse_ai_response_decoded json_loads response d Hne Hj).
  split; [| split].
  - intros k Hk Hno. unfold validate_and_build.
    destruct (missing_In d required_fields k Hk Hno) as (Hin & Hnil).
    rewrite Hnil. cbn [negb reraise is_ValueError].
    eexists. split; [reflexivity |].
    now apply occurs_in_append_r, occurs_in_repr_list.
  - intros k ca Hall Hca Hk Hno.
    rewrite (validate_and_build_present d Hall).
    destruct (validate_career_missing d ca "career_a" k Hca Hk Hno)
      as (msg & E & Hmsg).
    rewrite E. cbn [bind reraise is_ValueError]. exists msg. auto.
  - intros k cb Hall Ha Hcb Hk Hno.
    rewrite (validate_and_build_present d Hall).
    destruct (validate_career_missing d cb "career_b" k Hcb Hk Hno)
      as (msg & E & Hmsg).
    rewrite Ha, E. cbn [bind reraise is_ValueError]. exists msg. auto.
Qed.

(** ** Sample responses *)

Lemma sample_text_parses :
  _parse_ai_response Json.loads (sample_text "High" "low")
  = Ok (sample_result "High" "low").
Proof. vm_compute. reflexivity. Qed.

Lemma _parse_ai_response_fenced_witness :
  _parse_ai_response Json.loads
    ("```json" ++ nl ++ sample_text "High" "low" ++ nl ++ "```")
  = _parse_ai_response Json.loads (sample_text "High" "low")
  /\ _parse_ai_response Json.loads
       ("```" ++ nl ++ sample_text "High" "low" ++ nl ++ "```")
     = _parse_ai_response Json.loads (sample_text "High" "low").
Proof.
  apply (_parse_ai_response_fenced Json.loads (sample_text "High" "low")
           nl nl); vm_compute; reflexivity.
Defined.

Lemma _parse_ai_response_salary_gate_witness :
  exists msg,
    _parse_ai_response Json.loads (sample_text "high" "85,000")
    = Err (ValueError msg).
Proof.
  apply (_parse_ai_response_salary_gate Json.loads
           (sample_text "high" "85,000")
           (decoded (sample_text "high" "85,000"))
           (career_of (decoded (sample_text "high" "85,000")) "career_b")
           "career_b" (PStr "85,000")).
  - vm_compute. reflexivity.
  - right. reflexivity.
  - vm_compute. reflexivity.
  - vm_compute. reflexivity.
  - vm_compute. reflexivity.
Defined.

Lemma required_fields_present (d : pydict) :
  forallb (fun f => dict_mem f d) required_fields = true ->
  forall f, In f required_fields -> dict_mem f d = true.
Proof. intros H. now apply forallb_forall. Qed.

Lemma _parse_ai_response_missing_key_witness :
  names "decision_guide" (_parse_ai_response Json.loads no_guide_text)
  /\ names "salary" (_parse_ai_response Json.loads no_salary_text)
  /\ names "cons" (_parse_ai_response Json.loads no_cons_text).
Proof.
  split; [| split].
  - apply (proj1 (_parse_ai_response_missing_key Json.loads no_guide_text
                    (decoded no_guide_text) eq_refl eq_refl)).
    + right. right. left. reflexivity.
    + reflexivity.
  - apply (proj1 (proj2 (_parse_ai_response_missing_key Json.loads
                           no_salary_text (decoded no_salary_text)
                           eq_refl eq_refl))
             "salary" (career_of (decoded no_salary_text) "career_a")).
    + apply required_fields_present. reflexivity.
    + reflexivity.
    + right. right. left. reflexivity.
    + reflexivity.
  - apply (proj2 (proj2 (_parse_ai_response_missing_key Json.loads
                           no_cons_text (decoded no_cons_text)
                           eq_refl eq_refl))
             "cons" (career_of (decoded no_cons_text) "career_b")).
    + apply required_fields_present. reflexivity.
    + reflexivity.
    + reflexivity.
    + right. right. right. right. right. left. reflexivity.
    + reflexivity.
Defined.

(** ** The reference decoder accepts only delimited texts *)

Ltac ascii_cases c :=
  destruct c as [[] [] [] [] [] [] [] []]; vm_compute;
  try reflexivity; try discriminate; try congruence.

Lemma is_digit_json_end (c : ascii) :
  PyStr.is_digit c = true -> json_end c = true.
Proof. ascii_cases c. Qed.

Lemma is_digit_json_start (c : ascii) :
  PyStr.is_digit c = true -> json_start c = true.
Proof. ascii_cases c. Qed.

Lemma json_start_not_space (c : ascii) :
  json_start c = true -> PyStr.is_space c = false.
Proof. ascii_cases c. Qed.

Lemma json_end_not_space (c : ascii) :
  json_end c = true -> PyStr.is_space c = false.
Proof. ascii_cases c. Qed.

Lemma is_ws_is_space (c : ascii) :
  Json.is_ws c = true -> PyStr.is_space c = true.
Proof. ascii_cases c. Qed.

Lemma last_char_append_r (a b : string) :
  PyStr.is_empty b = false -> last_char (a ++ b) = last_char b.
Proof.
  intros Hb. induction a as [| c a IH]; [reflexivity |].
  cbn [append last_char]. rewrite IH.
  destruct (a ++ b) eqn:E; [| reflexivity].
  destruct a; simpl in E; [subst b; discriminate | discriminate].
Qed.

Lemma ends_ok_not_empty (pre : string) :
  ends_ok pre -> PyStr.is_empty pre = false.
Proof. intros (b & H & _). destruct pre; [discriminate | reflexivity]. Qed.

Lemma ends_ok_append (a b : string) : ends_ok b -> ends_ok (a ++ b).
Proof.
  intros H. pose proof (ends_ok_not_empty b H) as Hne.
  destruct H as (c & Hc & Hj). exists c.
  now rewrite last_char_append_r.
Qed.

Lemma ends_ok_append_opt (a b : string) :
  ends_ok a -> b = "" \/ ends_ok b -> ends_ok (a ++ b).
Proof.
  intros Ha [-> | Hb]; [now rewrite append_nil_r | now apply ends_ok_append].
Qed.

Lemma ends_ok_char (c : ascii) : json_end c = true -> ends_ok (String c "").
Proof. intros H. exists c. auto. Qed.

Lemma expect_Some (c : ascii) (s r : string) :
  Json.expect c s = Some r -> s = String c r.
Proof.
  destruct s as [| a s]; simpl; [discriminate |].
  destruct (Ascii.eqb_spec a c); [| discriminate].
  intros H. injection H as <-. now subst.
Qed.

Lemma skip_ws_split (s : string) :
  exists ws, s = ws ++ Json.skip_ws s /\ blank ws = true.
Proof.
  induction s as [| c s (ws & E & Hws)]; [now exists "" |].
  cbn [Json.skip_ws]. destruct (Json.is_ws c) eqn:Hc.
  - exists (String c ws). cbn [append blank].
    rewrite <- E, Hws, (is_ws_is_space c Hc). auto.
  - now exists "".
Qed.

Lemma skip_ws_blank (s : string) :
  PyStr.is_empty (Json.skip_ws s) = true -> blank s = true.
Proof.
  induction s as [| c s IH]; [reflexivity |].
  cbn [Json.skip_ws blank]. destruct (Json.is_ws c) eqn:Hc; [| discriminate].
  intros H. now rewrite (is_ws_is_space c Hc), IH.
Qed.

Lemma reads_cons (c : ascii) (s r : string) :
  reads s r -> reads (String c s) r.
Proof.
  intros (pre & -> & H). exists (String c pre). split; [reflexivity |].
  now apply (ends_ok_append (String c "") pre).
Qed.

Lemma reads_append (a s r : string) : reads s r -> reads (a ++ s) r.
Proof.
  intros (pre & -> & H). exists (a ++ pre).
  split; [now rewrite append_assoc | now apply ends_ok_append].
Qed.

Lemma reads_skip_ws (s r : string) : reads (Json.skip_ws s) r -> reads s r.
Proof.
  intros H. destruct (skip_ws_split s) as (ws & E & _).
  rewrite E. now apply reads_append.
Qed.

Lemma reads_char (c : ascii) (r : string) :
  json_end c = true -> reads (String c r) r.
Proof.
  intros H. exists (String c ""). split; [reflexivity |].
  now apply ends_ok_char.
Qed.

Lemma reads_expect (c : ascii) (s r : string) :
  json_end c = true -> Json.expect c s = Some r -> reads s r.
Proof.
  intros Hc H. apply expect_Some in H. subst s. now apply reads_char.
Qed.

Lemma reads_after (s r r' : string) :
  (exists pre, s = pre ++ r) -> reads r r' -> reads s r'.
Proof. intros (pre & ->) H. now apply reads_append. Qed.

Lemma string_body_reads (n : nat) (s x r : string) :
  String.length s < n -> Json.string_body s = Some (x, r) ->
  reads s r.
Proof.
  revert s x r. induction n as [| n IH]; intros s x r Hn; [lia |].
  destruct s as [| c s]; cbn [Json.string_body]; [discriminate |].
  simpl in Hn.
  destruct (Ascii.eqb_spec c dq) as [-> | Hq].
  - intros H. injection H as <- <-. now apply reads_char.
  - destruct (Ascii.eqb c "\").
    + destruct s as [| e s]; [discriminate |].
      destruct (Json.unescape e); [| discriminate].
      destruct (Json.string_body s) as [[body rest] |] eqn:E;
        cbn [Json.push]; [| discriminate].
      intros H. injection H as <- <-.
      apply reads_cons, reads_cons. apply (IH s body rest); [| assumption].
      simpl in Hn. lia.
    + destruct (PyStr.code c <? 32)%nat; [discriminate |].
      destruct (Json.string_body s) as [[body rest] |] eqn:E;
        cbn [Json.push]; [| discriminate].
      intros H. injection H as <- <-.
      apply reads_cons. apply (IH s body rest); [lia | assumption].
Qed.

Lemma digits_split (s : string) :
  s = fst (Json.digits s) ++ snd (Json.digits s).
Proof.
  induction s as [| c s IH]; [reflexivity |].
  cbn [Json.digits]. destruct (PyStr.is_digit c); [| reflexivity].
  destruct (Json.digits s) as [ds rest]. simpl in *. now rewrite <- IH.
Qed.

Lemma digits_ends_ok (s : string) :
  PyStr.is_empty (fst (Json.digits s)) = false ->
  ends_ok (fst (Json.digits s)).
Proof.
  induction s as [| c s IH]; [discriminate |].
  cbn [Json.digits]. destruct (PyStr.is_digit c) eqn:Hc; [| discriminate].
  destruct (Json.digits s) as [ds rest]. simpl in *. intros _.
  destruct ds as [| d ds].
  - now apply ends_ok_char, is_digit_json_end.
  - apply (ends_ok_append (String c "") (String d ds)). now apply IH.
Qed.

Lemma digits_reads (s : string) :
  PyStr.is_empty (fst (Json.digits s)) = false ->
  reads s (snd (Json.digits s)).
Proof.
  intros H. exists (fst (Json.digits s)).
  split; [apply digits_split | now apply digits_ends_ok].
Qed.

Lemma int_part_reads (s ip r : string) :
  Json.int_part s = Some (ip, r) ->
  reads s r /\ exists c, first_char s = Some c /\ PyStr.is_digit c = true.
Proof.
  destruct s as [| c s]; cbn [Json.int_part]; [discriminate |].
  destruct (Ascii.eqb_spec c "0") as [-> | Hc].
  - intros H. injection H as <- <-.
    split; [now apply reads_char | now exists "0"%char].
  - destruct (PyStr.is_digit c) eqn:Hd; [| discriminate].
    intros H.
    assert (E : Json.digits (String c s) = (ip, r)) by congruence.
    split; [| now exists c].
    change r with (snd (ip, r)). rewrite <- E.
    apply digits_reads. cbn [Json.digits]. rewrite Hd.
    now destruct (Json.digits s).
Qed.

Lemma reads_then (s r r' : string) :
  reads s r -> reads_opt r r' -> reads s r'.
Proof.
  intros H [<- | H']; [assumption |].
  destruct H as (pre & -> & _). now apply reads_append.
Qed.

Lemma frac_part_reads (s : string) : reads_opt s (snd (Json.frac_part s)).
Proof.
  unfold Json.frac_part. destruct (Json.expect "." s) as [r |] eqn:E;
    [| now left].
  destruct (PyStr.is_empty (fst (Json.digits r))) eqn:Hd; [now left |].
  right. apply expect_Some in E. subst s.
  now apply reads_cons, digits_reads.
Qed.

Lemma exp_sign_split (s : string) :
  exists pre, s = pre ++ snd (Json.exp_sign s).
Proof.
  unfold Json.exp_sign. destruct (Json.expect "-" s) as [r |] eqn:E.
  - apply expect_Some in E. subst s. now exists "-".
  - destruct (Json.expect "+" s) as [r |] eqn:E'.
    + apply expect_Some in E'. subst s. now exists "+".
    + now exists "".
Qed.

Lemma exp_part_reads (s : string) : reads_opt s (snd (Json.exp_part s)).
Proof.
  unfold Json.exp_part. destruct s as [| c s]; [now left |].
  destruct (Ascii.eqb c "e" || Ascii.eqb c "E"); [| now left].
  cbv zeta.
  destruct (PyStr.is_empty (fst (Json.digits (snd (Json.exp_sign s)))))
    eqn:Hd; [now left |].
  right. cbn [snd]. apply reads_cons.
  apply (reads_after s (snd (Json.exp_sign s))).
  - apply exp_sign_split.
  - now apply digits_reads.
Qed.

Lemma number_reads (s : string) (v : pyval) (r : string) :
  Json.number s = Some (v, r) ->
  reads s r /\ exists c, first_char s = Some c /\ json_start c = true.
Proof.
  unfold Json.number. cbv zeta.
  destruct (Json.int_part _) as [[ip s2] |] eqn:Ei; [| discriminate].
  apply int_part_reads in Ei. destruct Ei as (Hi & c & Hc & Hd).
  pose proof (frac_part_reads s2) as Hf.
  pose proof (exp_part_reads (snd (Json.frac_part s2))) as He.
  intros H.
  assert (Hr : r = snd (Json.exp_part (snd (Json.frac_part s2)))).
  { match type of H with
    | context [if ?b then _ else _] => destruct b
    end; congruence. }
  clear H. rewrite Hr.
  destruct (Json.expect "-" s) as [s1 |] eqn:Es.
  - apply expect_Some in Es. subst s. split.
    + apply reads_cons. eapply reads_then; [| exact He].
      eapply reads_then; [exact Hi | exact Hf].
    + now exists "-"%char.
  - split.
    + eapply reads_then; [| exact He].
      eapply reads_then; [exact Hi | exact Hf].
    + exists c. split; [assumption | now apply is_digit_json_start].
Qed.

Lemma prefix_split (p s : string) :
  String.prefix p s = true -> s = p ++ PyStr.drop (String.length p) s.
Proof.
  revert s. induction p as [| c p IH]; intros s; [reflexivity |].
  destruct s as [| a s]; simpl; [discriminate |].
  destruct (ascii_dec c a) as [<- | _]; [| discriminate].
  intros H. now rewrite <- IH.
Qed.

Lemma keyword_reads (w : string) (v v' : pyval) (s r : string) :
  ends_ok w -> Json.keyword w v s = Some (v', r) -> reads s r.
Proof.
  unfold Json.keyword. intros Hw.
  destruct (String.prefix w s) eqn:E; [| discriminate].
  intros H. injection H as _ <-. exists w. split; [| assumption].
  now apply prefix_split.
Qed.

Lemma reads_prefix (s r : string) : reads s r -> exists pre, s = pre ++ r.
Proof. intros (pre & E & _). eauto. Qed.

Lemma elements_reads (value : Json.parser pyval) (n : nat) :
  prefix_parser value ->
  forall s vs r, Json.elements value n s = Some (vs, r) -> reads s r.
Proof.
  intros Hv. induction n as [| n IH]; intros s vs r; [discriminate |].
  cbn [Json.elements].
  destruct (value s) as [[v r1] |] eqn:E; [| discriminate].
  apply Hv in E.
  destruct (Json.expect "," (Json.skip_ws r1)) as [r2 |] eqn:Ec.
  - destruct (Json.elements value n (Json.skip_ws r2)) as [[vs' r3] |] eqn:En;
      [| discriminate].
    intros H. injection H as _ <-.
    apply (reads_after s r1); [assumption |].
    apply reads_skip_ws. apply expect_Some in Ec. rewrite Ec.
    apply reads_cons, reads_skip_ws. eapply IH. eassumption.
  - destruct (Json.expect "]" (Json.skip_ws r1)) as [r2 |] eqn:Eb;
      [| discriminate].
    intros H. injection H as _ <-.
    apply (reads_after s r1); [assumption |].
    apply reads_skip_ws. eapply reads_expect; [| eassumption]. reflexivity.
Qed.

Lemma member_prefix (value : Json.parser pyval) :
  prefix_parser value -> prefix_parser (Json.member value).
Proof.
  intros Hv s [k v] r. unfold Json.member.
  destruct (Json.expect dq s) as [r0 |] eqn:Eq; [| discriminate].
  destruct (Json.string_body r0) as [[k' r1] |] eqn:Eb; [| discriminate].
  destruct (Json.expect ":" (Json.skip_ws r1)) as [r2 |] eqn:Ec;
    [| discriminate].
  destruct (value (Json.skip_ws r2)) as [[v' r3] |] eqn:Ev; [| discriminate].
  intros H. injection H as _ _ <-.
  apply expect_Some in Eq. apply expect_Some in Ec. apply Hv in Ev.
  apply (string_body_reads (S (String.length r0))) in Eb; [| lia].
  apply reads_prefix in Eb.
  destruct Eb as (p1 & E1). destruct Ev as (p3 & E3).
  destruct (skip_ws_split r1) as (w1 & Ew1 & _).
  destruct (skip_ws_split r2) as (w2 & Ew2 & _).
  exists (String dq p1 ++ w1 ++ String ":" w2 ++ p3).
  rewrite Eq, E1, Ew1, Ec, Ew2, E3.
  rewrite !append_assoc. cbn [append]. rewrite ?append_assoc. reflexivity.
Qed.

Lemma members_reads (value : Json.parser pyval) (n : nat) :
  prefix_parser value ->
  forall acc s d r, Json.members value n acc s = Some (d, r) -> reads s r.
Proof.
  intros Hv. induction n as [| n IH]; intros acc s d r; [discriminate |].
  cbn [Json.members].
  destruct (Json.member value s) as [[[k v] r1] |] eqn:E; [| discriminate].
  apply (member_prefix value Hv) in E. cbv zeta.
  destruct (Json.expect "," (Json.skip_ws r1)) as [r2 |] eqn:Ec.
  - intros H. apply (reads_after s r1); [assumption |].
    apply reads_skip_ws. apply expect_Some in Ec. rewrite Ec.
    apply reads_cons, reads_skip_ws. eapply IH. eassumption.
  - destruct (Json.expect "}" (Json.skip_ws r1)) as [r2 |] eqn:Eb;
      [| discriminate].
    intros H. injection H as _ <-.
    apply (reads_after s r1); [assumption |].
    apply reads_skip_ws. eapply reads_expect; [| eassumption]. reflexivity.
Qed.

Lemma value_reads (fuel : nat) :
  forall s v r,
    Json.value fuel s = Some (v, r) ->
    reads s r /\ exists c, first_char s = Some c /\ json_start c = true.
Proof.
  induction fuel as [| n IH]; intros s v r; [discriminate |].
  assert (Hv : prefix_parser (Json.value n))
    by (intros s' v' r' H; apply IH in H; apply reads_prefix, H).
  cbn [Json.value]. destruct s as [| c s]; [discriminate |].
  destruct (Ascii.eqb_spec c "{") as [-> | _].
  { intros H. split; [| now exists "{"%char]. apply reads_cons, reads_skip_ws.
    destruct (Json.expect "}" (Json.skip_ws s)) as [r' |] eqn:E.
    - injection H as _ <-. eapply reads_expect; [| eassumption]. reflexivity.
    - destruct (Json.members _ _ _ _) as [[d r'] |] eqn:Em; [| discriminate].
      injection H as _ <-. eapply members_reads; eassumption. }
  destruct (Ascii.eqb_spec c "[") as [-> | _].
  { intros H. split; [| now exists "["%char]. apply reads_cons, reads_skip_ws.
    destruct (Json.expect "]" (Json.skip_ws s)) as [r' |] eqn:E.
    - injection H as _ <-. eapply reads_expect; [| eassumption]. reflexivity.
    - destruct (Json.elements _ _ _) as [[vs r'] |] eqn:Ee; [| discriminate].
      injection H as _ <-. eapply elements_reads; eassumption. }
  destruct (Ascii.eqb_spec c dq) as [-> | _].
  { intros H. split; [| now exists dq].
    destruct (Json.string_body s) as [[x r'] |] eqn:E; [| discriminate].
    injection H as _ <-. apply reads_cons.
    apply (string_body_reads (S (String.length s)) s x r'); [lia | exact E]. }
  destruct (Ascii.eqb_spec c "t") as [-> | _].
  { intros H. split; [| now exists "t"%char].
    eapply keyword_reads; [| exact H]. exists "e"%char. now split. }
  destruct (Ascii.eqb_spec c "f") as [-> | _].
  { intros H. split; [| now exists "f"%char].
    eapply keyword_reads; [| exact H]. exists "e"%char. now split. }
  destruct (Ascii.eqb_spec c "n") as [-> | _].
  { intros H. split; [| now exists "n"%char].
    eapply keyword_reads; [| exact H]. exists "l"%char. now split. }
  apply number_reads.
Qed.

Lemma rstrip_last_char (s : string) (b : ascii) :
  last_char s = Some b -> PyStr.is_space b = false -> PyStr.rstrip s = s.
Proof.
  intros Hl Hb. induction s as [| a s IH]; [reflexivity |].
  cbn [PyStr.rstrip]. destruct s as [| a' s'].
  - simpl in Hl. injection Hl as ->. simpl. now rewrite Hb.
  - rewrite IH by exact Hl. reflexivity.
Qed.

Lemma strip_delimited (s : string) (a b : ascii) :
  first_char s = Some a -> PyStr.is_space a = false ->
  last_char s = Some b -> PyStr.is_space b = false ->
  PyStr.strip s = s.
Proof.
  intros Ha Hsa Hb Hsb. unfold PyStr.strip.
  destruct s as [| c s]; [discriminate |].
  injection Ha as ->. cbn [PyStr.lstrip]. rewrite Hsa.
  now apply (rstrip_last_char _ b).
Qed.

(** A text the reference decoder accepts is delimited as a JSON text. *)
Lemma loads_delimited (s : string) (v : pyval) :
  Json.loads s = Ok v -> delimited_as_json s = true.
Proof.
  unfold Json.loads.
  destruct (Json.value _ _) as [[v' r] |] eqn:E; [| discriminate].
  destruct (PyStr.is_empty (Json.skip_ws r)) eqn:Er; [| discriminate].
  intros _. apply value_reads in E.
  destruct E as ((pre & Epre & Hpre) & c & Hc & Hjc).
  pose proof (ends_ok_not_empty pre Hpre) as Hne.
  destruct Hpre as (b & Hb & Hjb).
  destruct (skip_ws_split s) as (ws & Es & Hws).
  apply skip_ws_blank in Er.
  assert (Hfirst : first_char pre = Some c).
  { rewrite Epre in Hc. destruct pre; [discriminate | exact Hc]. }
  assert (Hstrip : PyStr.strip pre = pre).
  { apply (strip_delimited pre c b); try assumption.
    - now apply json_start_not_space.
    - now apply json_end_not_space. }
  assert (E : PyStr.strip s = pre).
  { rewrite Es, Epre, strip_blank_append; try assumption.
    now rewrite Hstrip. }
  unfold delimited_as_json. now rewrite E, Hfirst, Hb, Hjc, Hjb.
Qed.

(** The equation of C8 for the texts the reference decoder accepts. *)
Corollary _parse_ai_response_fenced_loads (P : string) (v : pyval) :
  Json.loads P = Ok v ->
  _parse_ai_response Json.loads ("```json" ++ P ++ "```")
  = _parse_ai_response Json.loads P
  /\ _parse_ai_response Json.loads ("```" ++ P ++ "```")
     = _parse_ai_response Json.loads P.
Proof.
  intros H. apply loads_delimited in H.
  destruct (clean_response_fenced P H) as (EJ & EB).
  destruct (delimited_not_empty P H) as (Hne & Hne').
  split; apply _parse_ai_response_clean;
    try assumption; try reflexivity;
    try (now rewrite strip_fenced);
    rewrite (clean_response_unfenced P H); assumption.
Qed.

(** One fence is stripped, not more: a text that is already fenced is not
    a JSON text, and a second pair of fences around it is not undone. *)
Example fence_stripped_once :
  delimited_as_json (fenced (sample_text "High" "low")) = false
  /\ _parse_ai_response Json.loads (fenced (sample_text "High" "low"))
     = Ok (sample_result "High" "low")
  /\ _parse_ai_response Json.loads
       ("```json" ++ fenced (sample_text "High" "low") ++ "```")
     = Err (ValueError "Invalid JSON format: Expecting value").
Proof. repeat split; vm_compute; reflexivity. Qed.

(** The message of the salary gate, when the checks before it pass. *)
Lemma _parse_ai_response_salary_message
      (json_loads : string -> result pyval) (response : string)
      (d ca : pydict) (s : string) :
  PyStr.is_empty (PyStr.strip response) = false ->
  json_loads (clean_response response) = Ok (PDict d) ->
  (forall f, In f required_fields -> dict_mem f d = true) ->
  dict_get d "career_a" = Some (PDict ca) ->
  (forall f, In f required_career_fields -> dict_mem f ca = true) ->
  dict_get ca "salary" = Some (PStr s) ->
  PyStr.mem (PyStr.lower s) tiers = false ->
  _parse_ai_response json_loads response
  = Err (ValueError ("Invalid salary format in career_a: "
                     ++ PyStr.lower s ++ ". Must be low/medium/high")).
Proof.
  intros Hne Hj Hall Hca Hfields Hs Hno.
  rewrite (_parse_ai_response_decoded json_loads response d Hne Hj).
  rewrite (validate_and_build_present d Hall).
  unfold validate_career, subscript. rewrite Hca. cbn [bind].
  rewrite (missing_nil ca required_career_fields Hfields).
  cbn [is_nil negb]. unfold dict_get_or. rewrite Hs.
  cbn [py_lower bind]. fold tiers. rewrite Hno. reflexivity.
Qed.

(** The gate rejects a figure that the normaliser would classify. *)
Example salary_gate_before_normaliser :
  _parse_ai_response Json.loads (sample_text "85,000" "low")
  = Err (ValueError
           "Invalid salary format in career_a: 85,000. Must be low/medium/high")
  /\ standardize_salary "85,000" = "high".
Proof. split; vm_compute; reflexivity. Qed.

(** ** The matcher against the declarative reading of patterns *)

Lemma one_In (ok : ascii -> bool) (s : string) (q : Re.pos) :
  In q (Re.one ok s) <->
  exists c r, s = String c r /\ ok c = true /\ q = (Some c, r).
Proof.
  unfold Re.one. destruct s as [| c r].
  - split; [contradiction | intros (c & r & H & _); discriminate].
  - destruct (ok c) eqn:E; split.
    + intros [<- | []]. eauto.
    + intros (c' & r' & H & _ & ->). injection H as <- <-. now left.
    + contradiction.
    + intros (c' & r' & H & Hc & _). injection H as <- <-. congruence.
Qed.

Lemma iterate_front (step : Re.pos -> list Re.pos) (n : nat)
      (front : list Re.pos) (q : Re.pos) :
  In q front -> In q (Re.iterate step n front).
Proof.
  destruct n; cbn [Re.iterate]; [auto |]. intros H. apply in_or_app. auto.
Qed.

Lemma iterate_sound (r : Re.regex) (step : Re.pos -> list Re.pos) :
  (forall p q, In q (step p) -> Matches r p q) ->
  forall n front q,
    In q (Re.iterate step n front) ->
    exists p, In p front /\ Matches (Re.Star r) p q.
Proof.
  intros Hstep. induction n as [| n IH]; intros front q; cbn [Re.iterate].
  - intros H. exists q. split; [assumption | constructor].
  - intros H. apply in_app_or in H. destruct H as [H | H].
    + exists q. split; [assumption | constructor].
    + apply IH in H. destruct H as (p1 & H1 & Hstar).
      apply in_flat_map in H1. destruct H1 as (p & Hp & H1).
      apply filter_In in H1. destruct H1 as (H1 & _).
      exists p. split; [assumption |].
      eapply M_StarCons; [apply Hstep |]; eassumption.
Qed.

Lemma ends_sound (r : Re.regex) :
  forall prev s q, In q (Re.ends r prev s) -> Matches r (prev, s) q.
Proof.
  induction r as [| c | ranges | | | r1 IH1 r2 IH2 | r1 IH1 r2 IH2
                  | r IH | r IH | r IH];
    intros prev s q; cbn [Re.ends].
  - intros [<- | []]. constructor.
  - intros H. apply one_In in H. destruct H as (c' & r & -> & Hc & ->).
    apply Ascii.eqb_eq in Hc. subst. constructor.
  - intros H. apply one_In in H. destruct H as (c' & r & -> & Hc & ->).
    now constructor.
  - intros H. apply one_In in H. destruct H as (c' & r & -> & Hc & ->).
    now constructor.
  - destruct (xorb _ _) eqn:E; [| contradiction].
    intros [<- | []]. now constructor.
  - intros H. apply in_flat_map in H. destruct H as ([p1 s1] & H1 & H2).
    eapply M_Cat; [apply IH1 | apply IH2]; eassumption.
  - intros H. apply in_app_or in H.
    destruct H as [H | H]; [apply M_AltL | apply M_AltR]; auto.
  - intros [<- | H]; [constructor | apply M_OptSome; auto].
  - intros H.
    apply (iterate_sound r) in H; [| intros [p1 s1] q'; apply IH].
    destruct H as (p & [<- | []] & H). exact H.
  - intros H. apply in_flat_map in H. destruct H as ([p1 s1] & H1 & H2).
    apply (iterate_sound r) in H2; [| intros [p2 s2] q'; apply IH].
    destruct H2 as (p & [<- | []] & H2).
    eapply M_Plus; [apply IH |]; eassumption.
Qed.

Lemma Matches_length (r : Re.regex) (p q : Re.pos) :
  Matches r p q -> String.length (snd q) <= String.length (snd p).
Proof. induction 1; simpl in *; lia. Qed.

Lemma Matches_no_progress (r : Re.regex) (p q : Re.pos) :
  Matches r p q -> String.length (snd q) = String.length (snd p) -> q = p.
Proof.
  induction 1 as [ | | | | | r1 r2 p q t H1 IH1 H2 IH2 | | | | |
                   | r p q t H1 IH1 H2 IH2 | r p q t H1 IH1 H2 IH2];
    simpl in *; intros E; try reflexivity; try lia; auto.
  all: pose proof (Matches_length _ _ _ H1);
    pose proof (Matches_length _ _ _ H2);
    assert (Et : t = q) by (apply IH2; lia);
    subst t; apply IH1; lia.
Qed.

Lemma iterate_mono (step : Re.pos -> list Re.pos) :
  forall n n' front front' q,
    (forall x, In x front -> In x front') -> n <= n' ->
    In q (Re.iterate step n front) -> In q (Re.iterate step n' front').
Proof.
  induction n as [| n IH]; intros n' front front' q Hsub Hn;
    cbn [Re.iterate].
  - intros H. apply iterate_front. auto.
  - destruct n' as [| n']; [lia |]. cbn [Re.iterate].
    intros H. apply in_app_or in H. apply in_or_app.
    destruct H as [H | H]; [left; auto | right].
    revert H. apply IH; [| lia].
    intros x Hx. apply in_flat_map in Hx. destruct Hx as (p & Hp & Hx).
    apply in_flat_map. exists p. auto.
Qed.

Lemma iterate_step (step : Re.pos -> list Re.pos) (p q t : Re.pos) :
  In q (step p) ->
  String.length (snd q) < String.length (snd p) ->
  In t (Re.iterate step (String.length (snd q)) [q]) ->
  In t (Re.iterate step (String.length (snd p)) [p]).
Proof.
  intros Hq Hlt Ht.
  destruct (String.length (snd p)) as [| m] eqn:E; [lia |].
  cbn [Re.iterate]. apply in_or_app. right.
  revert Ht. apply iterate_mono; [| lia].
  intros x [<- | []]. cbn [flat_map]. rewrite app_nil_r.
  apply filter_In. split; [assumption |]. apply Nat.ltb_lt. lia.
Qed.

Lemma ends_complete (r : Re.regex) (p q : Re.pos) :
  Matches r p q -> In q (Re.ends r (fst p) (snd p)).
Proof.
  induction 1 as [ p | c prev s | ranges c prev s Hc | c prev s Hc
                   | prev s Hb | r1 r2 p q t H1 IH1 H2 IH2
                   | r1 r2 p q H IH | r1 r2 p q H IH | r p | r p q H IH
                   | r p | r p q t H1 IH1 H2 IH2 | r p q t H1 IH1 H2 IH2];
    cbn [Re.ends fst snd] in *.
  - destruct p. now left.
  - apply one_In. exists c, s. now rewrite Ascii.eqb_refl.
  - apply one_In. eauto.
  - apply one_In. eauto.
  - rewrite Hb. now left.
  - apply in_flat_map. exists q. auto.
  - apply in_or_app. auto.
  - apply in_or_app. auto.
  - destruct p. now left.
  - now right.
  - apply iterate_front. destruct p. now left.
  - pose proof (Matches_length _ _ _ H1) as Hle.
    destruct (Nat.eq_dec (String.length (snd q)) (String.length (snd p)))
      as [E | Hne].
    + apply Matches_no_progress in H1; [| exact E]. subst q.
      destruct p. exact IH2.
    + pose proof (iterate_step
                    (fun x => Re.ends r (fst x) (snd x)) p q t) as HS.
      destruct p as [prev s], q as [prev1 s1]. simpl in *.
      apply HS; [assumption | lia | assumption].
  - apply in_flat_map. exists q. destruct q. auto.
Qed.

(** The matcher computes exactly the matches of the declarative
    reading. *)
Theorem ends_Matches (r : Re.regex) (prev : option ascii) (s : string)
        (q : Re.pos) :
  In q (Re.ends r prev s) <-> Matches r (prev, s) q.
Proof.
  split; [apply ends_sound | apply (ends_complete r (prev, s) q)].
Qed.

Lemma char_before_cons (prev : option ascii) (c : ascii) (b : string) :
  char_before prev (String c b) = char_before (Some c) b.
Proof.
  unfold char_before. cbn [last_char]. destruct b as [| a b]; [reflexivity |].
  destruct (last_char (String a b)) eqn:E; [reflexivity |].
  exfalso. revert E. generalize a. induction b as [| a' b IH]; intros a0.
  - discriminate.
  - cbn [last_char]. apply IH.
Qed.

Lemma matches_at_spec (r : Re.regex) (prev : option ascii) (s : string) :
  Re.matches_at r prev s = true <-> exists q, Matches r (prev, s) q.
Proof.
  unfold Re.matches_at. split.
  - destruct (Re.ends r prev s) as [| q l] eqn:E; [discriminate |].
    intros _. exists q. apply ends_Matches. rewrite E. now left.
  - intros (q & H). apply ends_Matches in H.
    destruct (Re.ends r prev s); [contradiction | reflexivity].
Qed.

(** [re.search] succeeds exactly when the pattern matches somewhere. *)
Theorem search_from_spec (r : Re.regex) (s : string) :
  forall prev,
    Re.search_from r prev s = true <->
    exists before rest q,
      s = before ++ rest /\ Matches r (char_before prev before, rest) q.
Proof.
  induction s as [| c s IH]; intros prev; cbn [Re.search_from].
  - rewrite orb_false_r, matches_at_spec. split.
    + intros (q & H). now exists "", "", q.
    + intros (before & rest & q & E & H).
      destruct before; [| discriminate]. simpl in E. subst rest. eauto.
  - split.
    + intros H. apply orb_prop in H. destruct H as [H | H].
      * apply matches_at_spec in H. destruct H as (q & H).
        now exists "", (String c s), q.
      * apply IH in H. destruct H as (before & rest & q & -> & H).
        exists (String c before), rest, q.
        now rewrite char_before_cons.
    + intros (before & rest & q & E & H). apply orb_true_iff.
      destruct before as [| a before].
      * left. simpl in E. subst rest. apply matches_at_spec. eauto.
      * right. injection E as <- ->. apply IH.
        exists before, rest, q. now rewrite <- char_before_cons with (prev := prev).
Qed.

Lemma Matches_lit (w : string) (prev : option ascii) (rest : string) :
  exists q, Matches (Re.lit w) (prev, w ++ rest) (q, rest).
Proof.
  revert prev. induction w as [| c w IH]; intros prev.
  - exists prev. constructor.
  - destruct (IH (Some c)) as (q & H). exists q.
    cbn [Re.lit append]. eapply M_Cat; [constructor | exact H].
Qed.

(** The low pattern for ranges matches wherever a digit or a comma is
    followed by a digit up to 5, a digit and [,000]: it takes the first
    as the lower end of a range. *)
Lemma low_range_pattern_matches (before tail : string) (c d1 d2 : ascii) :
  Re.in_class [rng "0" "9"; rng "," ","] c = true ->
  Re.in_class [rng "0" "5"] d1 = true ->
  Re.in_class [rng "0" "9"] d2 = true ->
  Re.search low_range_pattern
    (before ++ String c (String d1 (String d2 (",000" ++ tail)))) = true.
Proof.
  intros Hc H1 H2. apply search_from_spec.
  destruct (Matches_lit "000" (Some ","%char) tail) as (q & Hq).
  exists before, (String c (String d1 (String d2 (",000" ++ tail)))), (q, tail).
  split; [reflexivity |]. unfold low_range_pattern. cbn [Re.seq].
  eapply M_Cat; [apply M_OptNone |].
  eapply M_Cat; [eapply M_Plus; [now apply M_Cls | apply M_StarNil] |].
  eapply M_Cat; [apply M_StarNil |].
  eapply M_Cat; [apply M_OptNone |].
  eapply M_Cat; [apply M_StarNil |].
  eapply M_Cat; [apply M_OptNone |].
  eapply M_Cat; [now apply M_Cls |].
  eapply M_Cat; [now apply M_Cls |].
  eapply M_Cat; [apply M_OptSome; apply M_Chr | exact Hq].
Qed.

Lemma low_range_pattern_second :
  nth_error low_patterns 1 = Some low_range_pattern.
Proof. reflexivity. Qed.

Lemma has_char_append (c : ascii) (a b : string) :
  has_char c (a ++ b) = has_char c a || has_char c b.
Proof.
  induction a as [| x a IH]; [reflexivity |].
  cbn [append has_char]. now rewrite IH, orb_assoc.
Qed.

Lemma tiers_no_figure (c : ascii) (t : string) :
  Re.in_class [rng "0" "9"; rng "," ","] c = true ->
  In t tiers -> has_char c t = false.
Proof.
  intros Hc [<- | [<- | [<- | []]]]; revert Hc; ascii_cases c.
Qed.

(** X26. Large figures fall in the lowest tier: a text in which a digit
    or a comma is followed by a digit up to 5, a digit and [,000] (such
    as ["100,000"], ["150,000"], ["1,250,000"]) is classified "low". *)
Theorem standardize_salary_large_low (s before tail : string)
        (c d1 d2 : ascii) :
  PyStr.strip (PyStr.lower s)
  = before ++ String c (String d1 (String d2 (",000" ++ tail))) ->
  Re.in_class [rng "0" "9"; rng "," ","] c = true ->
  Re.in_class [rng "0" "5"] d1 = true ->
  Re.in_class [rng "0" "9"] d2 = true ->
  standardize_salary s = "low".
Proof.
  intros E Hc H1 H2. unfold standardize_salary.
  destruct s as [| a s]; [destruct before; discriminate |].
  cbn [PyStr.is_empty]. fold tiers.
  destruct (PyStr.mem _ tiers) eqn:Hm.
  - exfalso. apply mem_In in Hm. apply (tiers_no_figure c) in Hm; [| exact Hc].
    rewrite E, has_char_append in Hm. cbn [has_char] in Hm.
    rewrite Ascii.eqb_refl, orb_true_r in Hm. discriminate.
  - unfold any_match, low_patterns. cbn [existsb].
    fold low_range_pattern. rewrite E.
    rewrite (low_range_pattern_matches before tail c d1 d2 Hc H1 H2).
    now rewrite orb_true_r.
Qed.

Lemma standardize_salary_large_low_witness :
  standardize_salary "Around $150,000 a year" = "low".
Proof.
  apply (standardize_salary_large_low "Around $150,000 a year"
           "around $" " a year" "1"%char "5"%char "0"%char);
    reflexivity.
Defined.

(* ================================================================= *)
(** * Further properties *)

(** ** Trimming and lower-casing *)

Lemma lstrip_blank (s : string) : blank s = true -> PyStr.lstrip s = "".
Proof.
  induction s as [| c s IH]; [reflexivity |]. simpl.
  intros H. apply andb_prop in H. destruct H as (Hc & Hs).
  rewrite Hc. auto.
Qed.

Lemma strip_blank (s : string) : blank s = true -> PyStr.strip s = "".
Proof. intros H. unfold PyStr.strip. now rewrite lstrip_blank. Qed.

Lemma lstrip_empty_blank (s : string) :
  PyStr.lstrip s = "" -> blank s = true.
Proof.
  induction s as [| c s IH]; [reflexivity |]. simpl.
  destruct (PyStr.is_space c); [auto | discriminate].
Qed.

Lemma strip_empty_blank (s : string) : PyStr.strip s = "" -> blank s = true.
Proof.
  unfold PyStr.strip. intros H. apply lstrip_empty_blank.
  destruct (PyStr.lstrip s) as [| c r] eqn:E; [reflexivity |].
  rewrite rstrip_head in H by (eapply lstrip_head; eassumption).
  discriminate.
Qed.

Lemma blank_append (a b : string) :
  blank (a ++ b) = blank a && blank b.
Proof.
  induction a as [| c a IH]; [reflexivity |]. simpl.
  now rewrite IH, andb_assoc.
Qed.

(** White space around a text does not change what [strip] gives. *)
Lemma strip_pad (w1 s w2 : string) :
  blank w1 = true -> blank w2 = true ->
  PyStr.strip (w1 ++ s ++ w2) = PyStr.strip s.
Proof.
  intros H1 H2. destruct (PyStr.strip s) as [| c r] eqn:E.
  - apply strip_empty_blank in E. apply strip_blank.
    now rewrite !blank_append, H1, E, H2.
  - rewrite <- E. apply strip_blank_append; try assumption. now rewrite E.
Qed.

Lemma lower_append (a b : string) :
  PyStr.lower (a ++ b) = PyStr.lower a ++ PyStr.lower b.
Proof. induction a as [| c a IH]; [reflexivity |]. simpl. now rewrite IH. Qed.

Lemma lower_char_space (c : ascii) :
  PyStr.is_space (PyStr.lower_char c) = PyStr.is_space c.
Proof. ascii_cases c. Qed.

Lemma lower_char_idem (c : ascii) :
  PyStr.lower_char (PyStr.lower_char c) = PyStr.lower_char c.
Proof. ascii_cases c. Qed.

Lemma lower_blank (s : string) : blank (PyStr.lower s) = blank s.
Proof.
  induction s as [| c s IH]; [reflexivity |]. simpl.
  now rewrite lower_char_space, IH.
Qed.

Lemma lower_idem (s : string) : PyStr.lower (PyStr.lower s) = PyStr.lower s.
Proof.
  induction s as [| c s IH]; [reflexivity |]. simpl.
  now rewrite lower_char_idem, IH.
Qed.

Lemma is_empty_eqb (s : string) : PyStr.is_empty s = String.eqb s "".
Proof. now destruct s. Qed.

Lemma strip_not_empty (s : string) :
  PyStr.is_empty (PyStr.strip s) = false -> PyStr.is_empty s = false.
Proof. destruct s; [discriminate | reflexivity]. Qed.

(** ** The validators of models.py *)

Lemma validate_career_input_trimmed (s : string) :
  validate_career_input (PStr s) = trimmed_within 100 s.
Proof.
  unfold validate_career_input, trimmed_within.
  rewrite <- is_empty_eqb.
  destruct (PyStr.is_empty (PyStr.strip s)) eqn:E.
  - now rewrite orb_true_r.
  - rewrite (strip_not_empty s E). cbn [orb negb andb].
    rewrite Nat.ltb_antisym. now destruct (_ <=? 100)%nat.
Qed.

Lemma validate_user_name_trimmed (s : string) :
  validate_user_name (PStr s) = trimmed_within 50 s.
Proof.
  unfold validate_user_name, trimmed_within.
  rewrite <- is_empty_eqb.
  destruct (PyStr.is_empty (PyStr.strip s)) eqn:E.
  - now rewrite orb_true_r.
  - rewrite (strip_not_empty s E). cbn [orb negb andb].
    rewrite Nat.ltb_antisym. now destruct (_ <=? 50)%nat.
Qed.


Lemma trimmed_within_strip (n : nat) (s : string) :
  trimmed_within n (PyStr.strip s) = trimmed_within n s.
Proof. unfold trimmed_within. now rewrite strip_idem. Qed.






(** ** Validated salaries and the normaliser *)

Lemma strip_tier (t : string) : In t tiers -> PyStr.strip t = t.
Proof. intros [<- | [<- | [<- | []]]]; reflexivity. Qed.

Lemma lower_tier (t : string) : In t tiers -> PyStr.lower t = t.
Proof. intros [<- | [<- | [<- | []]]]; reflexivity. Qed.

Lemma tier_not_empty (t : string) : In t tiers -> PyStr.is_empty t = false.
Proof. intros [<- | [<- | [<- | []]]]; reflexivity. Qed.

Lemma lower_is_empty (s : string) :
  PyStr.is_empty (PyStr.lower s) = PyStr.is_empty s.
Proof. now destruct s. Qed.

(** A salary that is a tier name up to case is normalised to its
    lower-case form. *)
Lemma standardize_salary_validated (s : string) :
  In (PyStr.lower s) tiers -> standardize_salary s = PyStr.lower s.
Proof.
  intros H. unfold standardize_salary.
  rewrite <- lower_is_empty, (tier_not_empty _ H).
  rewrite (strip_tier _ H). fold tiers.
  now rewrite (proj2 (mem_In _ _) H).
Qed.

Lemma is_tier_In (t : string) : In t tiers -> is_tier (PStr t).
Proof.
  unfold is_tier. intros [<- | [<- | [<- | []]]]; auto.
Qed.

(** X3. [create_standardized_career_info] raises a [ValueError] that
    quotes the salary when [validate_standardized_salary] refuses it;
    when it returns, the record passed the checks on pros and cons, and
    its salary is a lower-case tier name, the one the normaliser gives
    for the salary that was passed. *)
Theorem create_standardized_career_info_result
        (o k : pyval) (y : string) (t p c : pyval) :
  (validate_standardized_salary y = false ->
   create_standardized_career_info o k y t p c
   = Err (ValueError ("Salary must be 'low', 'medium', or 'high', got: "
                      ++ y)))
  /\ (forall ci,
         create_standardized_career_info o k y t p c = Ok ci ->
         validate_standardized_salary y = true
         /\ valid_career ci
         /\ is_tier (salary ci)
         /\ salary ci = PStr (standardize_salary y)).
Proof.
  unfold create_standardized_career_info, validate_standardized_salary.
  fold tiers. split.
  - intros H. now rewrite H.
  - intros ci. destruct (PyStr.mem (PyStr.lower y) tiers) eqn:E;
      [| discriminate].
    cbn [negb]. intros H. apply CareerInfo_new_Ok in H.
    destruct H as (-> & Hp & Hc). apply mem_In in E.
    split; [reflexivity |]. split.
    + split; now apply is_list_of_3_spec.
    + cbn [salary]. split; [now apply is_tier_In |].
      now rewrite standardize_salary_validated.
Qed.

Lemma create_standardized_career_info_result_witness :
  create_standardized_career_info
    (PStr "o") (PStr "k") "85,000" (PStr "t")
    (PList [PStr "a"; PStr "b"; PStr "c"])
    (PList [PStr "d"; PStr "e"; PStr "f"])
  = Err (ValueError
           "Salary must be 'low', 'medium', or 'high', got: 85,000")
  /\ is_tier (salary (sample_career "high")).
Proof.
  split.
  - apply (proj1 (create_standardized_career_info_result
                    (PStr "o") (PStr "k") "85,000" (PStr "t")
                    (PList [PStr "a"; PStr "b"; PStr "c"])
                    (PList [PStr "d"; PStr "e"; PStr "f"]))).
    reflexivity.
  - apply (proj2 (create_standardized_career_info_result
                    (PStr "Works with patients") (PStr "Care, patience")
                    "HIGH" (PStr "3 years")
                    (PList [PStr "Stable"; PStr "Useful"; PStr "Varied"])
                    (PList [PStr "Shifts"; PStr "Stress"; PStr "Pay"]))
             (sample_career "high")).
    reflexivity.
Defined.

(** X4. The normaliser is idempotent: applied to its own result it
    gives that result again. *)
Theorem standardize_salary_idempotent (s : string) :
  standardize_salary (standardize_salary s) = standardize_salary s.
Proof.
  pose proof (standardize_salary_in_tiers s) as H.
  rewrite standardize_salary_validated; rewrite (lower_tier _ H);
    [reflexivity | assumption].
Qed.

Lemma any_match_empty :
  any_match low_patterns "" = false
  /\ any_match high_patterns "" = false
  /\ any_match medium_patterns "" = false.
Proof. repeat split; vm_compute; reflexivity. Qed.

(** For a text that is not empty, the normaliser looks only at the
    trimmed lower-case form. *)
Lemma standardize_salary_by_form (s t : string) :
  PyStr.is_empty s = false -> PyStr.is_empty t = false ->
  PyStr.strip (PyStr.lower s) = PyStr.strip (PyStr.lower t) ->
  standardize_salary s = standardize_salary t.
Proof.
  intros Hs Ht E. unfold standardize_salary. now rewrite Hs, Ht, E.
Qed.

Lemma standardize_salary_blank (s : string) :
  blank s = true -> standardize_salary s = "medium".
Proof.
  intros H. unfold standardize_salary.
  destruct (PyStr.is_empty s); [reflexivity |].
  rewrite strip_blank by now rewrite lower_blank.
  destruct any_match_empty as (Hl & Hh & Hm).
  rewrite Hl, Hh, Hm. reflexivity.
Qed.

(** X5. The normaliser ignores case and surrounding white space: two
    texts with the same lower-case form get the same tier, and so do a
    text and the same text with white space around it. *)
Theorem standardize_salary_case_and_padding :
  (forall s t, PyStr.lower s = PyStr.lower t ->
               standardize_salary s = standardize_salary t)
  /\ (forall w1 s w2, blank w1 = true -> blank w2 = true ->
        standardize_salary (w1 ++ s ++ w2) = standardize_salary s).
Proof.
  split.
  - intros s t E. unfold standardize_salary.
    rewrite <- (lower_is_empty s), <- (lower_is_empty t), E. reflexivity.
  - intros w1 s w2 H1 H2.
    destruct (blank s) eqn:Hs.
    + rewrite !standardize_salary_blank; try assumption; [reflexivity |].
      now rewrite !blank_append, H1, Hs, H2.
    + assert (Hne : PyStr.is_empty s = false)
        by (destruct s; [discriminate | reflexivity]).
      apply standardize_salary_by_form; try assumption.
      * destruct w1; [destruct s; [discriminate | reflexivity]
                     | reflexivity].
      * rewrite !lower_append. apply strip_pad; now rewrite lower_blank.
Qed.

Lemma standardize_salary_case_and_padding_witness :
  standardize_salary "Above AVERAGE" = standardize_salary "above average"
  /\ standardize_salary (" " ++ "45k" ++ "  ") = standardize_salary "45k".
Proof.
  split.
  - apply (proj1 standardize_salary_case_and_padding). reflexivity.
  - apply (proj2 standardize_salary_case_and_padding " " "45k" "  ");
      reflexivity.
Defined.

(** ** Normalising a result, again *)

Lemma standardize_salary_val_Ok (v : pyval) :
  (exists y, standardize_salary_val v = Ok y) <-> normalisable v.
Proof.
  unfold standardize_salary_val, normalisable. split.
  - intros (y & H). destruct (truthy v) eqn:E; [| now left].
    cbn [negb] in H. destruct v; try discriminate. right. eauto.
  - intros [H | (s & ->)].
    + rewrite H. cbn [negb]. eauto.
    + destruct (negb (truthy (PStr s))); eauto.
Qed.

Lemma standardize_salary_val_tier_fixed (y : pyval) :
  is_tier y -> standardize_salary_val y = Ok y.
Proof. intros [-> | [-> | ->]]; reflexivity. Qed.

Lemma _standardize_salary_format_iff (r r' : ComparisonResult) :
  _standardize_salary_format r = Ok r' <->
  valid_result r
  /\ exists ya yb,
      standardize_salary_val (salary (career_a r)) = Ok ya
      /\ standardize_salary_val (salary (career_b r)) = Ok yb
      /\ r' = mkComparisonResult
                (mkCareerInfo (overview (career_a r)) (skills (career_a r))
                              ya (time_to_enter (career_a r))
                              (pros (career_a r)) (cons (career_a r)))
                (mkCareerInfo (overview (career_b r)) (skills (career_b r))
                              yb (time_to_enter (career_b r))
                              (pros (career_b r)) (cons (career_b r)))
                (decision_guide r).
Proof.
  unfold _standardize_salary_format, valid_result, valid_career.
  rewrite <- !is_list_of_3_spec, <- is_list_of_2_or_more_spec. split.
  - intros H.
    apply bind_Ok in H. destruct H as (ya & Hya & H).
    apply bind_Ok in H. destruct H as (ca & Hca & H).
    apply bind_Ok in H. destruct H as (yb & Hyb & H).
    apply bind_Ok in H. destruct H as (cb & Hcb & H).
    apply CareerInfo_new_Ok in Hca. destruct Hca as (-> & Hpa & Hca).
    apply CareerInfo_new_Ok in Hcb. destruct Hcb as (-> & Hpb & Hcb).
    apply ComparisonResult_new_Ok in H. destruct H as (-> & Hg).
    repeat split; try assumption. eauto.
  - intros (((Hpa & Hca) & (Hpb & Hcb) & Hg) & ya & yb & Hya & Hyb & ->).
    rewrite Hya. cbn [bind].
    rewrite (proj2 (CareerInfo_new_Ok _ _ _ _ _ _ _)
                   (conj eq_refl (conj Hpa Hca))).
    cbn [bind]. rewrite Hyb. cbn [bind].
    rewrite (proj2 (CareerInfo_new_Ok _ _ _ _ _ _ _)
                   (conj eq_refl (conj Hpb Hcb))).
    cbn [bind]. apply ComparisonResult_new_Ok. auto.
Qed.

(** X6. [_standardize_salary_format] is idempotent: a result it returns
    is returned unchanged when given to it again. *)
Theorem _standardize_salary_format_idempotent (r r' : ComparisonResult) :
  _standardize_salary_format r = Ok r' ->
  _standardize_salary_format r' = Ok r'.
Proof.
  intros H. apply _standardize_salary_format_iff in H.
  destruct H as ((Ha & Hb & Hg) & ya & yb & Hya & Hyb & ->).
  apply standardize_salary_val_tier in Hya.
  apply standardize_salary_val_tier in Hyb.
  apply _standardize_salary_format_iff. split.
  - repeat split; cbn; try apply Ha; try apply Hb; apply Hg.
  - exists ya, yb. cbn.
    rewrite !standardize_salary_val_tier_fixed by assumption. auto.
Qed.

Lemma _standardize_salary_format_idempotent_witness :
  _standardize_salary_format (sample_result "high" "low")
  = Ok (sample_result "high" "low").
Proof.
  apply (_standardize_salary_format_idempotent
           (sample_result "High" "$45,000") (sample_result "high" "low")).
  vm_compute. reflexivity.
Defined.

(** X7. [_standardize_salary_format] returns exactly on the results
    whose pros, cons and decision guide pass the construction checks and
    whose two salaries are strings or falsy values; what it returns
    passes the checks too. *)
Theorem _standardize_salary_format_returns (r : ComparisonResult) :
  ((exists r', _standardize_salary_format r = Ok r') <->
   valid_result r /\ normalisable (salary (career_a r))
   /\ normalisable (salary (career_b r)))
  /\ (forall r', _standardize_salary_format r = Ok r' -> valid_result r').
Proof.
  split; [split |].
  - intros (r' & H). apply _standardize_salary_format_iff in H.
    destruct H as (Hv & ya & yb & Hya & Hyb & _).
    split; [assumption |].
    split; apply standardize_salary_val_Ok; eauto.
  - intros (Hv & Ha & Hb).
    apply standardize_salary_val_Ok in Ha. destruct Ha as (ya & Hya).
    apply standardize_salary_val_Ok in Hb. destruct Hb as (yb & Hyb).
    eexists. apply _standardize_salary_format_iff.
    split; [assumption |]. exists ya, yb. auto.
  - intros r' H. apply _standardize_salary_format_iff in H.
    destruct H as ((Ha & Hb & Hg) & ya & yb & _ & _ & ->).
    repeat split; cbn; try apply Ha; try apply Hb; apply Hg.
Qed.

Lemma _standardize_salary_format_returns_witness :
  valid_result (sample_result "high" "low").
Proof.
  apply (proj2 (_standardize_salary_format_returns
                  (sample_result "High" "$45,000"))
           (sample_result "high" "low")).
  vm_compute. reflexivity.
Defined.

(** ** What the parser accepts, exactly *)

Lemma filter_negb_nil {A : Type} (f : A -> bool) (l : list A) :
  filter (fun x => negb (f x)) l = [] <-> forallb f l = true.
Proof.
  induction l as [| x l IH]; cbn [filter forallb]; [tauto |].
  destruct (f x); cbn [negb andb]; [exact IH |].
  split; discriminate.
Qed.

Lemma CareerInfo_of_kwargs_iff (kw : pydict) (c : CareerInfo) :
  CareerInfo_of_kwargs (PDict kw) = Ok c <->
  only_fields kw = true /\ has_fields kw = true
  /\ is_list_of_3 (dict_get_or kw "pros" PNone) = true
  /\ is_list_of_3 (dict_get_or kw "cons" PNone) = true
  /\ c = career_of_kwargs kw.
Proof.
  unfold CareerInfo_of_kwargs, only_fields, has_fields, career_of_kwargs,
    kwarg, dict_mem, dict_get_or.
  cbn [forallb CareerInfo_fields].
  destruct (filter _ (map fst kw)) as [| k l] eqn:F.
  - apply filter_negb_nil in F. rewrite F.
    destruct (dict_get kw "overview"), (dict_get kw "skills"),
      (dict_get kw "salary"), (dict_get kw "time_to_enter"),
      (dict_get kw "pros"), (dict_get kw "cons");
      cbn [bind andb];
      try (split; [discriminate | intros (_ & H & _); discriminate]).
    rewrite CareerInfo_new_Ok. tauto.
  - split; [discriminate |]. intros (H & _).
    apply filter_negb_nil in H. rewrite H in F. discriminate.
Qed.

Lemma validate_list_field_iff (key : string) (cd : pydict) (f : string) :
  validate_list_field key cd f = Ok tt <->
  is_list_of_3 (dict_get_or cd f PNone) = true.
Proof.
  unfold validate_list_field, is_list_of_3.
  destruct (list_len _) as [n |]; [| split; discriminate].
  destruct (Nat.eqb n 3); cbn [negb]; split; auto; discriminate.
Qed.

Lemma validate_career_iff (d : pydict) (key : string) :
  validate_career d key = Ok tt <->
  exists cd, dict_get d key = Some (PDict cd) /\ career_checks cd = true.
Proof.
  unfold validate_career, subscript, career_checks, has_fields.
  change required_career_fields with CareerInfo_fields. split.
  - intros H. apply bind_Ok in H. destruct H as (v & Hv & H).
    destruct (dict_get d key) as [x |]; [| discriminate].
    injection Hv as ->. destruct v as [| | | | | | cd]; try discriminate.
    exists cd. split; [reflexivity |].
    destruct (filter _ CareerInfo_fields) eqn:Hl; [| discriminate].
    apply filter_negb_nil in Hl. rewrite Hl. cbn [is_nil negb] in H.
    apply bind_Ok in H. destruct H as (y & Hy & H).
    unfold salary_accepted.
    destruct (dict_get_or cd "salary" (PStr "")) as [| | | | s | |];
      try discriminate.
    injection Hy as <-. fold tiers in H.
    destruct (PyStr.mem (PyStr.lower s) tiers); [| discriminate].
    cbn [negb] in H.
    pose proof (for_each_Ok _ _ H) as Hf.
    assert (Hp := proj1 (validate_list_field_iff key cd "pros")
                        (Hf "pros" (or_introl eq_refl))).
    assert (Hc := proj1 (validate_list_field_iff key cd "cons")
                        (Hf "cons" (or_intror (or_introl eq_refl)))).
    now rewrite Hp, Hc.
  - intros (cd & Hcd & Hchk). rewrite Hcd. cbn [bind].
    apply andb_prop in Hchk. destruct Hchk as (Hchk & Hc).
    apply andb_prop in Hchk. destruct Hchk as (Hchk & Hp).
    apply andb_prop in Hchk. destruct Hchk as (Hf & Hs).
    apply filter_negb_nil in Hf. rewrite Hf. cbn [is_nil negb].
    unfold salary_accepted in Hs.
    destruct (dict_get_or cd "salary" (PStr "")) as [| | | | s | |];
      try discriminate.
    cbn [py_lower bind]. fold tiers. rewrite Hs. cbn [negb for_each].
    rewrite (proj2 (validate_list_field_iff key cd "pros") Hp).
    rewrite (proj2 (validate_list_field_iff key cd "cons") Hc).
    reflexivity.
Qed.

Lemma validate_decision_guide_iff (d : pydict) :
  validate_decision_guide d = Ok tt <->
  is_list_of_2_or_more (dict_get_or d "decision_guide" PNone) = true.
Proof.
  unfold validate_decision_guide, is_list_of_2_or_more.
  destruct (list_len _) as [n |]; [| split; discriminate].
  rewrite Nat.ltb_antisym.
  destruct (2 <=? n)%nat; cbn [negb]; split; auto; discriminate.
Qed.

Lemma guide_present (d : pydict) :
  is_list_of_2_or_more (dict_get_or d "decision_guide" PNone) = true ->
  dict_get d "decision_guide"
  = Some (dict_get_or d "decision_guide" PNone).
Proof.
  unfold dict_get_or. destruct (dict_get d "decision_guide");
    [reflexivity | discriminate].
Qed.

Lemma career_accepted_inv (v : option pyval) :
  career_accepted v = true ->
  exists cd, v = Some (PDict cd) /\ career_checks cd = true
             /\ only_fields cd = true.
Proof.
  destruct v as [[| | | | | | cd] |]; try discriminate.
  cbn [career_accepted]. intros H. apply andb_prop in H.
  destruct H. eauto.
Qed.

Lemma career_checks_inv (cd : pydict) :
  career_checks cd = true ->
  has_fields cd = true
  /\ salary_accepted (dict_get_or cd "salary" (PStr "")) = true
  /\ is_list_of_3 (dict_get_or cd "pros" PNone) = true
  /\ is_list_of_3 (dict_get_or cd "cons" PNone) = true.
Proof.
  unfold career_checks. intros H.
  apply andb_prop in H. destruct H as (H & Hc).
  apply andb_prop in H. destruct H as (H & Hp).
  apply andb_prop in H. destruct H as (Hf & Hs). auto.
Qed.

Lemma validate_and_build_iff (d : pydict) (r : ComparisonResult) :
  validate_and_build (PDict d) = Ok r <->
  payload_accepted d = true /\ r = result_of_payload d.
Proof.
  unfold payload_accepted, result_of_payload, career_of. split.
  - unfold validate_and_build. intros H.
    destruct (negb (is_nil _)); [discriminate |].
    apply bind_Ok in H. destruct H as ([] & Hc & H).
    apply bind_Ok in H. destruct H as ([] & Hg & H).
    pose proof (for_each_Ok _ _ Hc "career_a" (or_introl eq_refl)) as Ha.
    pose proof (for_each_Ok _ _ Hc "career_b"
                  (or_intror (or_introl eq_refl))) as Hb.
    apply validate_career_iff in Ha. destruct Ha as (ca & Hca & Hka).
    apply validate_career_iff in Hb. destruct Hb as (cb & Hcb & Hkb).
    apply validate_decision_guide_iff in Hg.
    unfold from_dict, subscript in H.
    rewrite Hca, Hcb, (guide_present d Hg) in H. cbn [bind] in H.
    apply bind_Ok in H. destruct H as (x & Hx & H).
    apply bind_Ok in H. destruct H as (y & Hy & H).
    apply CareerInfo_of_kwargs_iff in Hx.
    destruct Hx as (Hoa & _ & _ & _ & ->).
    apply CareerInfo_of_kwargs_iff in Hy.
    destruct Hy as (Hob & _ & _ & _ & ->).
    apply ComparisonResult_new_Ok in H. destruct H as (-> & _).
    rewrite Hca, Hcb. cbn [career_accepted].
    rewrite Hka, Hkb, Hoa, Hob, Hg. auto.
  - intros (H & ->).
    apply andb_prop in H. destruct H as (H & Hg).
    apply andb_prop in H. destruct H as (Ha & Hb).
    apply career_accepted_inv in Ha. destruct Ha as (ca & Hca & Hka & Hoa).
    apply career_accepted_inv in Hb. destruct Hb as (cb & Hcb & Hkb & Hob).
    rewrite Hca, Hcb. unfold validate_and_build.
    assert (Hm : filter (fun field => negb (dict_mem field d))
                        required_fields = []).
    { apply filter_negb_nil. cbn [forallb required_fields].
      unfold dict_mem. now rewrite Hca, Hcb, (guide_present d Hg). }
    rewrite Hm. cbn [is_nil negb for_each].
    rewrite (proj2 (validate_career_iff d "career_a"))
      by (exists ca; auto).
    rewrite (proj2 (validate_career_iff d "career_b"))
      by (exists cb; auto).
    rewrite (proj2 (validate_decision_guide_iff d) Hg).
    cbn [bind]. unfold from_dict, subscript.
    rewrite Hca, Hcb, (guide_present d Hg). cbn [bind].
    destruct (career_checks_inv ca Hka) as (Hfa & _ & Hpa & Hsa).
    destruct (career_checks_inv cb Hkb) as (Hfb & _ & Hpb & Hsb).
    rewrite (proj2 (CareerInfo_of_kwargs_iff ca (career_of_kwargs ca)))
      by auto.
    cbn [bind].
    rewrite (proj2 (CareerInfo_of_kwargs_iff cb (career_of_kwargs cb)))
      by auto.
    cbn [bind]. apply ComparisonResult_new_Ok. auto.
Qed.

Lemma _parse_ai_response_iff (json_loads : string -> result pyval)
      (response : string) (r : ComparisonResult) :
  _parse_ai_response json_loads response = Ok r <->
  PyStr.is_empty (PyStr.strip response) = false
  /\ exists d,
      json_loads (clean_response response) = Ok (PDict d)
      /\ validate_and_build (PDict d) = Ok r.
Proof.
  split.
  - unfold _parse_ai_response.
    destruct (PyStr.is_empty (PyStr.strip response)) eqn:Hne;
      [now rewrite orb_true_r |].
    destruct (PyStr.is_empty response); [discriminate |].
    cbn [orb]. intros H. split; [reflexivity |].
    destruct (bind _ _) as [r' | e] eqn:E; cbn [reraise] in H;
      [| destruct (is_ValueError e); discriminate].
    injection H as ->. apply bind_Ok in E. destruct E as (data & Hd & H).
    assert (Hj : json_loads (clean_response response) = Ok data).
    { unfold decode in Hd.
      destruct (json_loads (clean_response response)) as [v | []];
        try discriminate; assumption. }
    destruct data as [| | | | | | d]; try discriminate. eauto.
  - intros (Hne & d & Hj & H).
    rewrite (_parse_ai_response_decoded json_loads response d Hne Hj), H.
    reflexivity.
Qed.

(** X8. [_parse_ai_response] returns a result exactly when the response
    is not blank, the cleaned text decodes to an object, both careers
    are objects with the six keys and no other, with a salary that is a
    tier name up to case and with pros and cons of three elements, and
    the decision guide is a list of two elements or more; the result
    then holds the values of the payload, unchanged. *)
Theorem _parse_ai_response_accepts (json_loads : string -> result pyval)
        (response : string) (r : ComparisonResult) :
  _parse_ai_response json_loads response = Ok r <->
  PyStr.is_empty (PyStr.strip response) = false
  /\ exists d,
      json_loads (clean_response response) = Ok (PDict d)
      /\ payload_accepted d = true
      /\ r = result_of_payload d.
Proof.
  rewrite _parse_ai_response_iff. split.
  - intros (Hne & d & Hj & H). apply validate_and_build_iff in H.
    destruct H. eauto 6.
  - intros (Hne & d & Hj & Hp & Hr). split; [assumption |].
    exists d. split; [assumption |]. now apply validate_and_build_iff.
Qed.

Lemma _parse_ai_response_accepts_witness :
  _parse_ai_response Json.loads (fenced (sample_text "High" "low"))
  = Ok (result_of_payload (decoded (fenced (sample_text "High" "low")))).
Proof.
  apply (proj2 (_parse_ai_response_accepts Json.loads
                  (fenced (sample_text "High" "low")) _)).
  split; [reflexivity |].
  exists (decoded (fenced (sample_text "High" "low"))).
  repeat split; reflexivity.
Defined.

Lemma has_fields_salary (cd : pydict) :
  has_fields cd = true ->
  dict_get_or cd "salary" PNone = dict_get_or cd "salary" (PStr "").
Proof.
  unfold has_fields, dict_mem, dict_get_or.
  cbn [forallb CareerInfo_fields].
  destruct (dict_get cd "overview"), (dict_get cd "skills"),
    (dict_get cd "salary"); cbn [andb]; try reflexivity; discriminate.
Qed.

(** The shape of a career the parser accepted. *)
Lemma career_checks_shape (cd : pydict) :
  career_checks cd = true ->
  valid_career (career_of_kwargs cd)
  /\ exists s, salary (career_of_kwargs cd) = PStr s
               /\ In (PyStr.lower s) tiers.
Proof.
  intros H. apply career_checks_inv in H.
  destruct H as (Hf & Hs & Hp & Hc). split.
  - split; cbn; now apply is_list_of_3_spec.
  - cbn [career_of_kwargs salary]. rewrite (has_fields_salary cd Hf).
    unfold salary_accepted in Hs.
    destruct (dict_get_or cd "salary" (PStr "")) as [| | | | s | |];
      try discriminate.
    exists s. split; [reflexivity | now apply mem_In].
Qed.

Lemma payload_accepted_shape (d : pydict) :
  payload_accepted d = true ->
  valid_result (result_of_payload d)
  /\ exists sa sb,
      salary (career_a (result_of_payload d)) = PStr sa
      /\ In (PyStr.lower sa) tiers
      /\ salary (career_b (result_of_payload d)) = PStr sb
      /\ In (PyStr.lower sb) tiers.
Proof.
  unfold payload_accepted, result_of_payload, career_of. intros H.
  apply andb_prop in H. destruct H as (H & Hg).
  apply andb_prop in H. destruct H as (Ha & Hb).
  apply career_accepted_inv in Ha. destruct Ha as (ca & Hca & Hka & _).
  apply career_accepted_inv in Hb. destruct Hb as (cb & Hcb & Hkb & _).
  rewrite Hca, Hcb. cbn [career_a career_b decision_guide].
  destruct (career_checks_shape ca Hka) as (Hva & sa & Hsa & Hta).
  destruct (career_checks_shape cb Hkb) as (Hvb & sb & Hsb & Htb).
  split.
  - repeat split; cbn [career_a career_b decision_guide];
      try apply Hva; try apply Hvb. now apply is_list_of_2_or_more_spec.
  - exists sa, sb. auto.
Qed.

(** X9. A result that [_parse_ai_response] returns passes the
    construction checks (three pros, three cons, a guide of two or
    more), and its two salaries are strings that are tier names up to
    case. *)
Theorem _parse_ai_response_result_shape
        (json_loads : string -> result pyval) (response : string)
        (r : ComparisonResult) :
  _parse_ai_response json_loads response = Ok r ->
  valid_result r
  /\ exists sa sb,
      salary (career_a r) = PStr sa /\ In (PyStr.lower sa) tiers
      /\ salary (career_b r) = PStr sb /\ In (PyStr.lower sb) tiers.
Proof.
  intros H. apply _parse_ai_response_iff in H.
  destruct H as (_ & d & _ & H). apply validate_and_build_iff in H.
  destruct H as (H & ->). now apply payload_accepted_shape.
Qed.

Lemma _parse_ai_response_result_shape_witness :
  valid_result (sample_result "High" "low")
  /\ exists sa sb,
      salary (career_a (sample_result "High" "low")) = PStr sa
      /\ In (PyStr.lower sa) tiers
      /\ salary (career_b (sample_result "High" "low")) = PStr sb
      /\ In (PyStr.lower sb) tiers.
Proof.
  apply (_parse_ai_response_result_shape Json.loads
           (sample_text "High" "low") (sample_result "High" "low")).
  vm_compute. reflexivity.
Defined.

(** X10. The normalising pass never fails on a result of the parser: it
    returns the same result with each salary in lower case. *)
Theorem _parse_ai_response_then_normalise
        (json_loads : string -> result pyval) (response : string)
        (r : ComparisonResult) :
  _parse_ai_response json_loads response = Ok r ->
  exists sa sb,
    salary (career_a r) = PStr sa /\ salary (career_b r) = PStr sb
    /\ _standardize_salary_format r
       = Ok (with_salaries r (PStr (PyStr.lower sa))
                           (PStr (PyStr.lower sb))).
Proof.
  intros H. apply _parse_ai_response_iff in H.
  destruct H as (_ & d & _ & H). apply validate_and_build_iff in H.
  destruct H as (H & ->). apply payload_accepted_shape in H.
  destruct H as (Hv & sa & sb & Hsa & Hta & Hsb & Htb).
  exists sa, sb. split; [assumption |]. split; [assumption |].
  apply _standardize_salary_format_iff. split; [assumption |].
  exists (PStr (PyStr.lower sa)), (PStr (PyStr.lower sb)).
  rewrite Hsa, Hsb. unfold standardize_salary_val.
  assert (Ea : truthy (PStr sa) = true).
  { cbn. rewrite <- lower_is_empty, (tier_not_empty _ Hta). reflexivity. }
  assert (Eb : truthy (PStr sb) = true).
  { cbn. rewrite <- lower_is_empty, (tier_not_empty _ Htb). reflexivity. }
  rewrite Ea, Eb. cbn [negb].
  rewrite !standardize_salary_validated by assumption. auto.
Qed.

Lemma _parse_ai_response_then_normalise_witness :
  exists sa sb,
    salary (career_a (sample_result "High" "LOW")) = PStr sa
    /\ salary (career_b (sample_result "High" "LOW")) = PStr sb
    /\ _standardize_salary_format (sample_result "High" "LOW")
       = Ok (with_salaries (sample_result "High" "LOW")
                           (PStr (PyStr.lower sa))
                           (PStr (PyStr.lower sb))).
Proof.
  apply (_parse_ai_response_then_normalise Json.loads
           (sample_text "High" "LOW") (sample_result "High" "LOW")).
  vm_compute. reflexivity.
Defined.

(** X11. [_parse_ai_response] raises nothing but [ValueError]: a blank
    response gets the message of the first test, and whatever goes
    wrong later, in the decoder, in a check or in the construction of
    the records, comes out as a [ValueError]. *)
Theorem _parse_ai_response_failures (json_loads : string -> result pyval)
        (response : string) :
  (blank response = true ->
   _parse_ai_response json_loads response
   = Err (ValueError "Empty or null response from AI"))
  /\ (forall e, _parse_ai_response json_loads response = Err e ->
                exists msg, e = ValueError msg).
Proof.
  split.
  - intros H. unfold _parse_ai_response.
    rewrite (strip_blank response H). now rewrite orb_true_r.
  - intros e H. now apply _parse_ai_response_raises in H.
Qed.

Lemma _parse_ai_response_failures_witness :
  _parse_ai_response Json.loads (" " ++ nl)
  = Err (ValueError "Empty or null response from AI")
  /\ exists msg,
      ValueError "Invalid JSON format: Expecting value" = ValueError msg.
Proof.
  split.
  - apply (proj1 (_parse_ai_response_failures Json.loads (" " ++ nl))).
    reflexivity.
  - apply (proj2 (_parse_ai_response_failures Json.loads "not json")).
    vm_compute. reflexivity.
Defined.

(** ** Keys the schema does not have *)

Lemma CareerInfo_of_kwargs_extra (kw : pydict) :
  only_fields kw = false ->
  exists m, CareerInfo_of_kwargs (PDict kw) = Err (TypeError m).
Proof.
  unfold CareerInfo_of_kwargs, only_fields. intros H.
  destruct (filter _ (map fst kw)) as [| k l] eqn:F; [| eauto].
  apply filter_negb_nil in F. congruence.
Qed.

Lemma CareerInfo_of_kwargs_checked (kw : pydict) :
  career_checks kw = true ->
  CareerInfo_of_kwargs (PDict kw) = Ok (career_of_kwargs kw)
  \/ exists m, CareerInfo_of_kwargs (PDict kw) = Err (TypeError m).
Proof.
  intros H. destruct (only_fields kw) eqn:E.
  - left. apply career_checks_inv in H. destruct H as (Hf & _ & Hp & Hc).
    now apply CareerInfo_of_kwargs_iff.
  - right. now apply CareerInfo_of_kwargs_extra.
Qed.

(** X12. A career with a key besides the six is not tolerated: when
    every check of the parser passes but [career_a] or [career_b] holds
    an extra key, the construction of the record fails and
    [_parse_ai_response] raises the [ValueError] of its last handler. *)
Theorem _parse_ai_response_extra_career_key
        (json_loads : string -> result pyval) (response : string)
        (d ca cb : pydict) :
  PyStr.is_empty (PyStr.strip response) = false ->
  json_loads (clean_response response) = Ok (PDict d) ->
  dict_get d "career_a" = Some (PDict ca) -> career_checks ca = true ->
  dict_get d "career_b" = Some (PDict cb) -> career_checks cb = true ->
  is_list_of_2_or_more (dict_get_or d "decision_guide" PNone) = true ->
  only_fields ca = false \/ only_fields cb = false ->
  exists detail,
    _parse_ai_response json_loads response
    = Err (ValueError ("Unexpected error parsing response: " ++ detail)).
Proof.
  intros Hne Hj Hca Hka Hcb Hkb Hg Hextra.
  rewrite (_parse_ai_response_decoded json_loads response d Hne Hj).
  unfold validate_and_build.
  assert (Hm : filter (fun field => negb (dict_mem field d))
                      required_fields = []).
  { apply filter_negb_nil. cbn [forallb required_fields].
    unfold dict_mem. now rewrite Hca, Hcb, (guide_present d Hg). }
  rewrite Hm. cbn [is_nil negb for_each].
  rewrite (proj2 (validate_career_iff d "career_a")) by (exists ca; auto).
  rewrite (proj2 (validate_career_iff d "career_b")) by (exists cb; auto).
  rewrite (proj2 (validate_decision_guide_iff d) Hg).
  cbn [bind]. unfold from_dict, subscript.
  rewrite Hca, Hcb, (guide_present d Hg). cbn [bind].
  destruct (CareerInfo_of_kwargs_checked ca Hka) as [Ea | (m & Ea)];
    rewrite Ea; cbn [bind reraise is_ValueError exn_str]; [| eauto].
  destruct Hextra as [Hx | Hx].
  - apply CareerInfo_of_kwargs_extra in Hx. destruct Hx as (m & Hx).
    congruence.
  - apply CareerInfo_of_kwargs_extra in Hx. destruct Hx as (m & Hx).
    rewrite Hx. cbn [bind reraise is_ValueError exn_str]. eauto.
Qed.

Lemma _parse_ai_response_extra_career_key_witness :
  exists detail,
    _parse_ai_response Json.loads extra_key_text
    = Err (ValueError ("Unexpected error parsing response: " ++ detail)).
Proof.
  apply (_parse_ai_response_extra_career_key Json.loads extra_key_text
           (decoded extra_key_text)
           (career_of (decoded extra_key_text) "career_a")
           (career_of (decoded extra_key_text) "career_b"));
    try reflexivity.
  left. reflexivity.
Defined.

Lemma validate_and_build_agree (d1 d2 : pydict) :
  (forall key, In key required_fields ->
               dict_get d1 key = dict_get d2 key) ->
  validate_and_build (PDict d1) = validate_and_build (PDict d2).
Proof.
  intros H.
  assert (Ha := H "career_a" (or_introl eq_refl)).
  assert (Hb := H "career_b" (or_intror (or_introl eq_refl))).
  assert (Hg := H "decision_guide"
                  (or_intror (or_intror (or_introl eq_refl)))).
  unfold validate_and_build, validate_decision_guide, from_dict,
    dict_get_or, subscript.
  cbn [filter required_fields for_each]. unfold dict_mem, validate_career.
  unfold subscript. now rewrite Ha, Hb, Hg.
Qed.

(** X13. The parser looks at a payload through its three required keys
    only: two responses whose payloads agree on [career_a], [career_b]
    and [decision_guide] get the same outcome, so that a further
    top-level key changes nothing. *)
Theorem _parse_ai_response_other_keys
        (json_loads : string -> result pyval) (r1 r2 : string)
        (d1 d2 : pydict) :
  PyStr.is_empty (PyStr.strip r1) = false ->
  PyStr.is_empty (PyStr.strip r2) = false ->
  json_loads (clean_response r1) = Ok (PDict d1) ->
  json_loads (clean_response r2) = Ok (PDict d2) ->
  (forall key, In key required_fields ->
               dict_get d1 key = dict_get d2 key) ->
  _parse_ai_response json_loads r1 = _parse_ai_response json_loads r2.
Proof.
  intros H1 H2 Hj1 Hj2 H.
  rewrite (_parse_ai_response_decoded json_loads r1 d1 H1 Hj1).
  rewrite (_parse_ai_response_decoded json_loads r2 d2 H2 Hj2).
  now rewrite (validate_and_build_agree d1 d2 H).
Qed.

Lemma _parse_ai_response_other_keys_witness :
  _parse_ai_response Json.loads with_note_text
  = _parse_ai_response Json.loads (sample_text "High" "low").
Proof.
  apply (_parse_ai_response_other_keys Json.loads with_note_text
           (sample_text "High" "low") (decoded with_note_text)
           (decoded (sample_text "High" "low"))); try reflexivity.
  intros key [<- | [<- | [<- | []]]]; reflexivity.
Defined.

(** ** Lists of the wrong length *)

(** X14. A payload whose [career_a] has its six keys and an accepted
    salary but pros that are a list of another length than three is
    refused with a message that gives the length; and a payload whose
    careers pass their checks but whose decision guide is a list of
    fewer than two elements is refused with a message that gives the
    length. *)
Theorem _parse_ai_response_wrong_length
        (json_loads : string -> result pyval) (response : string)
        (d : pydict) :
  PyStr.is_empty (PyStr.strip response) = false ->
  json_loads (clean_response response) = Ok (PDict d) ->
  (forall f, In f required_fields -> dict_mem f d = true) ->
  (forall ca l,
      dict_get d "career_a" = Some (PDict ca) ->
      has_fields ca = true ->
      salary_accepted (dict_get_or ca "salary" (PStr "")) = true ->
      dict_get ca "pros" = Some (PList l) -> List.length l <> 3 ->
      _parse_ai_response json_loads response
      = Err (ValueError ("pros in career_a must have exactly 3 items, got "
                         ++ PyStr.of_nat (List.length l))))
  /\ (forall l,
         validate_career d "career_a" = Ok tt ->
         validate_career d "career_b" = Ok tt ->
         dict_get d "decision_guide" = Some (PList l) ->
         List.length l < 2 ->
         _parse_ai_response json_loads response
         = Err (ValueError
                  ("decision_guide must have at least 2 items, got "
                   ++ PyStr.of_nat (List.length l)))).
Proof.
  intros Hne Hj Hall.
  rewrite (_parse_ai_response_decoded json_loads response d Hne Hj).
  rewrite (validate_and_build_present d Hall). split.
  - intros ca l Hca Hf Hs Hp Hl.
    unfold validate_career, subscript. rewrite Hca. cbn [bind].
    change required_career_fields with CareerInfo_fields.
    apply filter_negb_nil in Hf. rewrite Hf. cbn [is_nil negb].
    unfold salary_accepted in Hs.
    destruct (dict_get_or ca "salary" (PStr "")) as [| | | | s | |];
      try discriminate.
    cbn [py_lower bind]. fold tiers. rewrite Hs. cbn [negb for_each].
    unfold validate_list_field at 1. unfold dict_get_or. rewrite Hp.
    cbn [list_len]. apply Nat.eqb_neq in Hl. rewrite Hl. reflexivity.
  - intros l Ha Hb Hg Hl. rewrite Ha, Hb. cbn [bind].
    unfold validate_decision_guide, dict_get_or. rewrite Hg.
    cbn [list_len]. apply Nat.ltb_lt in Hl. rewrite Hl. reflexivity.
Qed.

Lemma _parse_ai_response_wrong_length_witness :
  _parse_ai_response Json.loads two_pros_text
  = Err (ValueError "pros in career_a must have exactly 3 items, got 2")
  /\ _parse_ai_response Json.loads short_guide_text
     = Err (ValueError "decision_guide must have at least 2 items, got 1").
Proof.
  split.
  - apply (proj1 (_parse_ai_response_wrong_length Json.loads two_pros_text
                    (decoded two_pros_text) eq_refl eq_refl
                    (required_fields_present (decoded two_pros_text)
                                             eq_refl))
             (career_of (decoded two_pros_text) "career_a")
             [PStr "a"; PStr "b"]); try reflexivity.
    discriminate.
  - apply (proj2 (_parse_ai_response_wrong_length Json.loads
                    short_guide_text (decoded short_guide_text)
                    eq_refl eq_refl
                    (required_fields_present (decoded short_guide_text)
                                             eq_refl))
             [PStr "Choose A"]); try reflexivity.
    simpl. lia.
Defined.

(** ** The dictionary form, again *)

Lemma CareerInfo_of_kwargs_valid (v : pyval) (c : CareerInfo) :
  CareerInfo_of_kwargs v = Ok c -> valid_career c.
Proof.
  destruct v as [| | | | | | kw]; try discriminate.
  intros H. apply CareerInfo_of_kwargs_iff in H.
  destruct H as (_ & _ & Hp & Hc & ->).
  split; cbn; now apply is_list_of_3_spec.
Qed.

Lemma from_dict_valid (data : pyval) (r : ComparisonResult) :
  from_dict data = Ok r -> valid_result r.
Proof.
  unfold from_dict. intros H.
  apply bind_Ok in H. destruct H as (a & _ & H).
  apply bind_Ok in H. destruct H as (x & Hx & H).
  apply bind_Ok in H. destruct H as (b & _ & H).
  apply bind_Ok in H. destruct H as (y & Hy & H).
  apply bind_Ok in H. destruct H as (g & _ & H).
  apply ComparisonResult_new_Ok in H. destruct H as (-> & Hg).
  repeat split; cbn [career_a career_b decision_guide];
    try (now apply (CareerInfo_of_kwargs_valid _ _ Hx));
    try (now apply (CareerInfo_of_kwargs_valid _ _ Hy)).
  now apply is_list_of_2_or_more_spec.
Qed.

(** X15. [ComparisonResult.from_dict] builds only results that pass the
    construction checks, whatever dictionary it is given, and a result
    it built is built again from its own dictionary form. *)
Theorem from_dict_builds_valid (data : pyval) (r : ComparisonResult) :
  from_dict data = Ok r ->
  valid_result r /\ from_dict (to_dict r) = Ok r.
Proof.
  intros H. apply from_dict_valid in H. split; [assumption |].
  destruct H as (Ha & Hb & Hg). unfold from_dict, to_dict.
  change (subscript (PDict _) "career_a")
    with (Ok (CareerInfo_to_dict (career_a r))).
  cbn [bind]. rewrite (CareerInfo_of_kwargs_to_dict _ Ha). cbn [bind].
  change (subscript (PDict _) "career_b")
    with (Ok (CareerInfo_to_dict (career_b r))).
  cbn [bind]. rewrite (CareerInfo_of_kwargs_to_dict _ Hb). cbn [bind].
  change (subscript (PDict _) "decision_guide")
    with (Ok (decision_guide r)).
  cbn [bind]. apply ComparisonResult_new_Ok.
  rewrite is_list_of_2_or_more_spec. destruct r; auto.
Qed.

Lemma from_dict_builds_valid_witness :
  valid_result (sample_result "High" "low")
  /\ from_dict (to_dict (sample_result "High" "low"))
     = Ok (sample_result "High" "low").
Proof.
  apply (from_dict_builds_valid
           (PDict (decoded (sample_text "High" "low")))
           (sample_result "High" "low")).
  vm_compute. reflexivity.
Defined.

(** X16. [to_dict] loses nothing: two results with the same dictionary
    form are equal. *)
Theorem to_dict_injective (r1 r2 : ComparisonResult) :
  to_dict r1 = to_dict r2 -> r1 = r2.
Proof.
  destruct r1 as [[o1 k1 y1 t1 p1 c1] [o1' k1' y1' t1' p1' c1'] g1].
  destruct r2 as [[o2 k2 y2 t2 p2 c2] [o2' k2' y2' t2' p2' c2'] g2].
  unfold to_dict, CareerInfo_to_dict. cbn.
  intros H. injection H. intros. now subst.
Qed.

Lemma to_dict_injective_witness :
  with_salaries (sample_result "high" "low") (PStr "high") (PStr "low")
  = sample_result "high" "low".
Proof.
  apply (to_dict_injective
           (with_salaries (sample_result "high" "low")
                          (PStr "high") (PStr "low"))
           (sample_result "high" "low")).
  reflexivity.
Defined.

(** ** The canned results *)

(** X17. [_get_error_fallback_result] never raises; the result passes
    the construction checks, has the message verbatim in both overviews
    and in the first line of the guide, has medium salaries, and is left
    as it is by the normalising pass. *)
Theorem _get_error_fallback_result_canned (error_message : string) :
  exists r oa ob g rest,
    _get_error_fallback_result error_message = Ok r
    /\ valid_result r
    /\ overview (career_a r) = PStr oa /\ occurs_in error_message oa
    /\ overview (career_b r) = PStr ob /\ occurs_in error_message ob
    /\ decision_guide r = PList (PStr g :: rest)
    /\ occurs_in error_message g
    /\ salary (career_a r) = PStr "medium"
    /\ salary (career_b r) = PStr "medium"
    /\ _standardize_salary_format r = Ok r.
Proof.
  exists (error_fallback_result error_message).
  do 4 eexists.
  split; [reflexivity |]. split.
  { repeat split; eexists; (split; [reflexivity | simpl; lia]). }
  split; [reflexivity |].
  split; [exists "Unable to analyze career: "; eexists; reflexivity |].
  split; [reflexivity |].
  split; [exists "Unable to analyze career: "; eexists; reflexivity |].
  split; [reflexivity |].
  split; [exists "Analysis failed: ", ""; now rewrite append_nil_r |].
  repeat split.
Qed.

(** ** The prompt *)

Lemma occurs_in_refl (s : string) : occurs_in s s.
Proof. exists "", "". now rewrite append_nil_r. Qed.

Lemma occurs_in_trans (a b c : string) :
  occurs_in a b -> occurs_in b c -> occurs_in a c.
Proof.
  intros (p1 & q1 & ->) (p2 & q2 & ->).
  exists (p2 ++ p1), (q1 ++ q2). now rewrite !append_assoc.
Qed.

Lemma occurs_in_join_any (sep x : string) (xs : list string) :
  In x xs -> occurs_in x (PyStr.join sep xs).
Proof.
  induction xs as [| y xs IH]; [contradiction |].
  intros [-> | H].
  - destruct xs as [| z xs]; cbn [PyStr.join].
    + apply occurs_in_refl.
    + apply occurs_in_append_l, occurs_in_refl.
  - destruct xs as [| z xs]; [contradiction |].
    change (PyStr.join sep (y :: z :: xs))
      with (y ++ sep ++ PyStr.join sep (z :: xs)).
    apply occurs_in_append_r, occurs_in_append_r, IH, H.
Qed.

Lemma choose_line_occurs (career tail : string) :
  occurs_in (choose_line career)
            ("    " ++ String dq ("Choose " ++ career ++ " if..."
                                  ++ String dq tail)).
Proof.
  exists "    ", tail. unfold choose_line. cbn [append].
  now rewrite !append_assoc.
Qed.

(** X18. The prompt begins with the two career names in the order
    given, and holds for each of them the line of the decision guide
    that names it, between quotes; the names are put in verbatim. *)
Theorem _build_optimized_prompt_names (a b : string) :
  (exists rest,
      _build_optimized_prompt a b
      = "Compare careers: " ++ a ++ " vs " ++ b ++ rest)
  /\ occurs_in (choose_line a) (_build_optimized_prompt a b)
  /\ occurs_in (choose_line b) (_build_optimized_prompt a b).
Proof.
  unfold _build_optimized_prompt. cbn [app career_template].
  split; [| split].
  - eexists. cbn [PyStr.join]. rewrite !append_assoc. reflexivity.
  - eapply occurs_in_trans; [apply (choose_line_occurs a ",") |].
    apply occurs_in_join_any. simpl. tauto.
  - eapply occurs_in_trans; [apply (choose_line_occurs b "") |].
    apply occurs_in_join_any. simpl. tauto.
Qed.

(** ** The two remote providers *)

(** What the local server gives for a model: the text of a reply with
    status 200 that parses, if there is one. *)
Lemma ollama_try_Some (w : World) (model prompt : string)
      (r : ComparisonResult) :
  ollama_try w model prompt = Ok (Some r) <->
  exists body ai_response,
    ollama_generate w model prompt = Ok (200, Ok body)
    /\ get_or body "response" (PStr "") = Ok ai_response
    /\ _parse_ai_response_val (json_loads w) ai_response = Ok r.
Proof.
  unfold ollama_try. split.
  - intros H. apply bind_Ok in H. destruct H as ([status js] & Hg & H).
    cbn [fst snd] in H. destruct (Nat.eqb_spec status 200) as [-> | _];
      [| discriminate].
    apply bind_Ok in H. destruct H as (body & Hb & H).
    apply bind_Ok in H. destruct H as (ai & Hai & H).
    apply bind_Ok in H. destruct H as (r' & Hr & H).
    injection H as ->. subst js. eauto.
  - intros (body & ai & Hg & Hai & Hr).
    rewrite Hg. cbn [bind fst snd Nat.eqb]. rewrite Hai. cbn [bind].
    rewrite Hr. reflexivity.
Qed.

Lemma ollama_loop_Ok (w : World) (prompt : string) (models : list string)
      (r : ComparisonResult) :
  ollama_loop w prompt models = Ok r ->
  exists before model after,
    models = (before ++ model :: after)%list
    /\ ollama_try w model prompt = Ok (Some r)
    /\ forall m r', In m before -> ollama_try w m prompt <> Ok (Some r').
Proof.
  induction models as [| m models IH]; cbn [ollama_loop]; [discriminate |].
  destruct (ollama_try w m prompt) as [[r0 |] | e] eqn:E.
  - intros H. injection H as ->. exists [], m, models.
    split; [reflexivity |]. split; [assumption |]. intros ? ? [].
  - intros H. destruct (IH H) as (before & model & after & -> & Ht & Hb).
    exists (m :: before), model, after. split; [reflexivity |].
    split; [assumption |]. intros m' r' [<- | Hin]; [congruence | eauto].
  - intros H. destruct (IH H) as (before & model & after & -> & Ht & Hb).
    exists (m :: before), model, after. split; [reflexivity |].
    split; [assumption |]. intros m' r' [<- | Hin]; [congruence | eauto].
Qed.

Lemma ollama_loop_Err (w : World) (prompt : string) (models : list string)
      (e : exn) :
  ollama_loop w prompt models = Err e ->
  e = Exception "All Ollama models failed"
  /\ forall m r', In m models -> ollama_try w m prompt <> Ok (Some r').
Proof.
  induction models as [| m models IH]; cbn [ollama_loop].
  - intros H. injection H as <-. split; [reflexivity |]. intros ? ? [].
  - destruct (ollama_try w m prompt) as [[r0 |] | e0] eqn:E;
      [discriminate | |];
      intros H; destruct (IH H) as (-> & Hb); (split; [reflexivity |]);
      intros m' r' [<- | Hin]; try congruence; eauto.
Qed.

(** X19. [_call_ollama_api] raises only its own two exceptions, the one
    for the missing library and the one after the four models, whatever
    the server or the parser raised; and a result it returns is the
    parse of the reply of the first model, in the order of the list,
    that answered with status 200 and a reply that parses. *)
Theorem _call_ollama_api_outcome (w : World) (a b : string) :
  (forall e, _call_ollama_api w a b = Err e ->
     e = Exception "requests library not available"
     \/ e = Exception "All Ollama models failed")
  /\ (forall r, _call_ollama_api w a b = Ok r ->
      REQUESTS_AVAILABLE w = true
      /\ exists before model after body ai_response,
          ollama_models = (before ++ model :: after)%list
          /\ ollama_generate w model (_build_optimized_prompt a b)
             = Ok (200, Ok body)
          /\ get_or body "response" (PStr "") = Ok ai_response
          /\ _parse_ai_response_val (json_loads w) ai_response = Ok r
          /\ forall m r', In m before ->
               ollama_try w m (_build_optimized_prompt a b)
               <> Ok (Some r')).
Proof.
  unfold _call_ollama_api. destruct (REQUESTS_AVAILABLE w); cbn [negb].
  - split.
    + intros e H. apply ollama_loop_Err in H. destruct H. auto.
    + intros r H. split; [reflexivity |]. apply ollama_loop_Ok in H.
      destruct H as (before & model & after & E & Ht & Hb).
      apply ollama_try_Some in Ht.
      destruct Ht as (body & ai & Hg & Hai & Hr).
      exists before, model, after, body, ai. auto 6.
  - split; [| discriminate]. intros e H. injection H as <-. auto.
Qed.

Lemma _call_ollama_api_outcome_witness :
  REQUESTS_AVAILABLE local_server = true
  /\ exists before model after body ai_response,
      ollama_models = (before ++ model :: after)%list
      /\ ollama_generate local_server model
           (_build_optimized_prompt "Nurse" "Teacher")
         = Ok (200, Ok body)
      /\ get_or body "response" (PStr "") = Ok ai_response
      /\ _parse_ai_response_val (json_loads local_server) ai_response
         = Ok (sample_result "High" "low")
      /\ forall m r', In m before ->
           ollama_try local_server m
             (_build_optimized_prompt "Nurse" "Teacher")
           <> Ok (Some r').
Proof.
  apply (proj2 (_call_ollama_api_outcome local_server "Nurse" "Teacher")
           (sample_result "High" "low")).
  vm_compute. reflexivity.
Defined.

Lemma _call_openai_api_unfold (w : World) (a b : string) :
  _call_openai_api w a b =
  match openai_attempt w a b 0 with
  | Ok r => Ok r
  | Err _ =>
      match openai_attempt w a b 1 with
      | Ok r => Ok r
      | Err _ => openai_attempt w a b 2
      end
  end.
Proof.
  unfold _call_openai_api, max_retries. cbn [List.seq openai_loop].
  fold (openai_attempt w a b 0). fold (openai_attempt w a b 1).
  fold (openai_attempt w a b 2).
  destruct (openai_attempt w a b 0); [reflexivity |].
  destruct (openai_attempt w a b 1); [reflexivity |].
  destruct (openai_attempt w a b 2); reflexivity.
Qed.

(** X20. [_call_openai_api] makes at most three attempts and stops at
    the first that gives a reply that parses; when all three fail it
    raises what the third raised, and the exception written after its
    loop is never the one that comes out on its own. *)
Theorem _call_openai_api_outcome (w : World) (a b : string) :
  (forall r, _call_openai_api w a b = Ok r <->
     exists i, i < 3 /\ openai_attempt w a b i = Ok r
               /\ forall j, j < i ->
                    exists e, openai_attempt w a b j = Err e)
  /\ (forall e, _call_openai_api w a b = Err e <->
        openai_attempt w a b 2 = Err e
        /\ (exists e0, openai_attempt w a b 0 = Err e0)
        /\ (exists e1, openai_attempt w a b 1 = Err e1)).
Proof.
  rewrite _call_openai_api_unfold. split.
  - intros r. split.
    + destruct (openai_attempt w a b 0) as [r0 | e0] eqn:E0.
      { intros H. exists 0. repeat split; [lia | congruence | lia]. }
      destruct (openai_attempt w a b 1) as [r1 | e1] eqn:E1.
      { intros H. exists 1. split; [lia |]. split; [congruence |].
        intros j Hj. assert (j = 0) by lia. subst. eauto. }
      intros H. exists 2. split; [lia |]. split; [assumption |].
      intros j Hj. assert (j = 0 \/ j = 1) as [-> | ->] by lia; eauto.
    + intros (i & Hi & Hr & Hb).
      assert (i = 0 \/ i = 1 \/ i = 2) as [-> | [-> | ->]] by lia.
      * now rewrite Hr.
      * destruct (Hb 0) as (e0 & ->); [lia |]. now rewrite Hr.
      * destruct (Hb 0) as (e0 & ->); [lia |].
        destruct (Hb 1) as (e1 & ->); [lia |]. assumption.
  - intros e. split.
    + destruct (openai_attempt w a b 0) as [r0 | e0]; [discriminate |].
      destruct (openai_attempt w a b 1) as [r1 | e1]; [discriminate |].
      eauto.
    + intros (H2 & (e0 & ->) & (e1 & ->)). assumption.
Qed.

Lemma _call_openai_api_outcome_witness :
  exists i, i < 3
            /\ openai_attempt hosted "Nurse" "Teacher" i
               = Ok (sample_result "LOW" "Medium")
            /\ forall j, j < i ->
                 exists e, openai_attempt hosted "Nurse" "Teacher" j = Err e.
Proof.
  apply (proj1 (proj1 (_call_openai_api_outcome hosted "Nurse" "Teacher")
                  (sample_result "LOW" "Medium"))).
  vm_compute. reflexivity.
Defined.

(** ** Providers and the normalising pass *)

Lemma _parse_ai_response_val_Ok (json_loads : string -> result pyval)
      (v : pyval) (r : ComparisonResult) :
  _parse_ai_response_val json_loads v = Ok r ->
  exists s, v = PStr s /\ _parse_ai_response json_loads s = Ok r.
Proof.
  unfold _parse_ai_response_val.
  destruct (negb (truthy v)); [discriminate |].
  destruct v; try discriminate. eauto.
Qed.

Lemma parsed_normalises (json_loads : string -> result pyval)
      (v : pyval) (res : ComparisonResult) :
  _parse_ai_response_val json_loads v = Ok res ->
  exists r, _standardize_salary_format res = Ok r.
Proof.
  intros H. apply _parse_ai_response_val_Ok in H.
  destruct H as (s & _ & H). apply _parse_ai_response_iff in H.
  destruct H as (_ & d & _ & H). apply validate_and_build_iff in H.
  destruct H as (H & ->). apply payload_accepted_shape in H.
  destruct H as (Hv & sa & sb & Hsa & _ & Hsb & _).
  assert (Ha : exists ya,
             standardize_salary_val
               (salary (career_a (result_of_payload d))) = Ok ya)
    by (apply standardize_salary_val_Ok; right; eauto).
  assert (Hb : exists yb,
             standardize_salary_val
               (salary (career_b (result_of_payload d))) = Ok yb)
    by (apply standardize_salary_val_Ok; right; eauto).
  destruct Ha as (ya & Hya). destruct Hb as (yb & Hyb).
  eexists. apply _standardize_salary_format_iff.
  split; [assumption |]. exists ya, yb. auto.
Qed.

Lemma _call_ollama_api_normalises (w : World) (a b : string)
      (res : ComparisonResult) :
  _call_ollama_api w a b = Ok res ->
  exists r, _standardize_salary_format res = Ok r.
Proof.
  unfold _call_ollama_api.
  destruct (negb (REQUESTS_AVAILABLE w)); [discriminate |].
  intros H. apply ollama_loop_Ok in H.
  destruct H as (_ & model & _ & _ & H & _).
  apply ollama_try_Some in H. destruct H as (_ & ai & _ & _ & H).
  now apply parsed_normalises in H.
Qed.

Lemma _call_openai_api_normalises (w : World) (a b : string)
      (res : ComparisonResult) :
  _call_openai_api w a b = Ok res ->
  exists r, _standardize_salary_format res = Ok r.
Proof.
  rewrite _call_openai_api_unfold.
  assert (Hi : forall i, openai_attempt w a b i = Ok res ->
                         exists r, _standardize_salary_format res = Ok r).
  { intros i H. unfold openai_attempt in H.
    apply bind_Ok in H. destruct H as (ai & _ & H).
    now apply parsed_normalises in H. }
  destruct (openai_attempt w a b 0) as [r0 | e0] eqn:E0.
  { intros H. injection H as ->. eauto. }
  destruct (openai_attempt w a b 1) as [r1 | e1] eqn:E1.
  { intros H. injection H as ->. eauto. }
  eauto.
Qed.

Lemma attempt_Some (f : provider) (a b : string)
      (res r : ComparisonResult) :
  f a b = Ok res -> _standardize_salary_format res = Ok r ->
  attempt f a b = Some r.
Proof. intros Hf Hr. unfold attempt. rewrite Hf. cbn [bind]. now rewrite Hr. Qed.

Lemma attempt_None (f : provider) (a b : string) (e : exn) :
  f a b = Err e -> attempt f a b = None.
Proof. intros Hf. unfold attempt. now rewrite Hf. Qed.

(** X21. The order of the providers.  When the local server is
    reachable and [_call_ollama_api] returns, [run_referee] returns that
    result, normalised, whatever the hosted API would do.  When the
    local server is not reachable or its call raised, and the hosted API
    is installed and has a key and [_call_openai_api] returns,
    [run_referee] returns that result, normalised.  When each of the two
    is unavailable or raised, [run_referee] returns the mock result. *)
Theorem run_referee_order (w : World) (a b : string) :
  (forall res,
      _is_ollama_available w = true ->
      _call_ollama_api w a b = Ok res ->
      exists r, _standardize_salary_format res = Ok r
                /\ run_referee w a b = Ok r)
  /\ (forall res,
         (_is_ollama_available w = false
          \/ exists e, _call_ollama_api w a b = Err e) ->
         OPENAI_AVAILABLE w = true -> has_api_key w = true ->
         _call_openai_api w a b = Ok res ->
         exists r, _standardize_salary_format res = Ok r
                   /\ run_referee w a b = Ok r)
  /\ ((_is_ollama_available w = false
       \/ exists e, _call_ollama_api w a b = Err e) ->
      (OPENAI_AVAILABLE w && has_api_key w = false
       \/ exists e, _call_openai_api w a b = Err e) ->
      run_referee w a b = Ok (mock_result a b)).
Proof.
  rewrite run_referee_unfold. split; [| split].
  - intros res Hav Hcall. rewrite Hav.
    destruct (_call_ollama_api_normalises w a b res Hcall) as (r & Hr).
    exists r. split; [assumption |].
    now rewrite (attempt_Some _ a b res r Hcall Hr).
  - intros res Hlocal Ho Hk Hcall.
    destruct (_call_openai_api_normalises w a b res Hcall) as (r & Hr).
    exists r. split; [assumption |].
    rewrite Ho, Hk. cbn [andb].
    rewrite (attempt_Some _ a b res r Hcall Hr).
    destruct Hlocal as [-> | (e & He)]; [reflexivity |].
    rewrite (attempt_None _ a b e He).
    now destruct (_is_ollama_available w).
  - intros Hlocal Hhosted.
    assert (E1 : (if _is_ollama_available w
                  then attempt (_call_ollama_api w) a b else None) = None).
    { destruct Hlocal as [-> | (e & He)]; [reflexivity |].
      rewrite (attempt_None _ a b e He).
      now destruct (_is_ollama_available w). }
    assert (E2 : (if OPENAI_AVAILABLE w && has_api_key w
                  then attempt (_call_openai_api w) a b else None) = None).
    { destruct Hhosted as [-> | (e & He)]; [reflexivity |].
      rewrite (attempt_None _ a b e He).
      now destruct (OPENAI_AVAILABLE w && has_api_key w). }
    now rewrite E1, E2.
Qed.

Lemma run_referee_order_witness :
  (exists r, _standardize_salary_format (sample_result "High" "low") = Ok r
             /\ run_referee local_server "Nurse" "Teacher" = Ok r)
  /\ (exists r,
         _standardize_salary_format (sample_result "LOW" "Medium") = Ok r
         /\ run_referee hosted "Nurse" "Teacher" = Ok r)
  /\ run_referee hosted_figures "Nurse" "Teacher"
     = Ok (mock_result "Nurse" "Teacher").
Proof.
  split; [| split].
  - apply (proj1 (run_referee_order local_server "Nurse" "Teacher")
             (sample_result "High" "low")); vm_compute; reflexivity.
  - apply (proj1 (proj2 (run_referee_order hosted "Nurse" "Teacher"))
             (sample_result "LOW" "Medium")); try (vm_compute; reflexivity).
    left. vm_compute. reflexivity.
  - apply (proj2 (proj2 (run_referee_order hosted_figures
                           "Nurse" "Teacher"))).
    + left. vm_compute. reflexivity.
    + right. eexists. vm_compute. reflexivity.
Defined.

(** ** The input form *)

Lemma input_errors_nil (n a b : string) :
  input_errors n a b = [] <->
  validate_user_name (PStr n) = true
  /\ validate_career_input (PStr a) = true
  /\ validate_career_input (PStr b) = true
  /\ PyStr.lower (PyStr.strip a) <> PyStr.lower (PyStr.strip b).
Proof.
  unfold input_errors. rewrite <- String.eqb_neq.
  destruct (validate_user_name (PStr n)),
    (validate_career_input (PStr a)), (validate_career_input (PStr b)),
    (String.eqb _ _); cbn; split; intros H;
    try discriminate; try (repeat split; reflexivity);
    destruct H as (H1 & H2 & H3 & H4); discriminate.
Qed.

Lemma render_input_page_Some (n a b : string) (submitted : bool)
      (n' a' b' : string) :
  render_input_page n a b submitted = Some (n', a', b') ->
  validate_user_name (PStr n') = true
  /\ validate_career_input (PStr a') = true
  /\ validate_career_input (PStr b') = true.
Proof.
  unfold render_input_page.
  destruct submitted; [| discriminate].
  destruct (input_errors n a b) eqn:E; [| discriminate].
  cbn [is_nil negb]. intros H. injection H as <- <- <-.
  apply input_errors_nil in E. destruct E as (Hn & Ha & Hb & Hd).
  rewrite validate_user_name_trimmed in *.
  rewrite !validate_career_input_trimmed in *.
  rewrite !trimmed_within_strip. auto.
Qed.





(** ** The session *)

Lemma normalised_drawable (res r : ComparisonResult) :
  _standardize_salary_format res = Ok r -> drawable r.
Proof.
  intros H. split.
  - apply _standardize_salary_format_iff in H.
    destruct H as ((Ha & Hb & Hg) & ya & yb & _ & _ & ->).
    repeat split; cbn; try apply Ha; try apply Hb; apply Hg.
  - now apply _standardize_salary_format_tiers in H.
Qed.

Lemma run_referee_drawable (w : World) (a b : string) :
  exists r, run_referee w a b = Ok r /\ drawable r.
Proof.
  rewrite run_referee_unfold.
  assert (Hmock : drawable (mock_result a b))
    by (apply (normalised_drawable (mock_result a b)),
          _standardize_salary_format_mock).
  assert (Hatt : forall f r, attempt f a b = Some r -> drawable r).
  { intros f r H. apply attempt_normalised in H.
    destruct H as (res & _ & H). now apply normalised_drawable in H. }
  destruct (_is_ollama_available w).
  - destruct (attempt (_call_ollama_api w) a b) as [r |] eqn:E; [eauto |].
    destruct (OPENAI_AVAILABLE w && has_api_key w); [| eauto].
    destruct (attempt (_call_openai_api w) a b) as [r |] eqn:E2; eauto.
  - destruct (OPENAI_AVAILABLE w && has_api_key w); [| eauto].
    destruct (attempt (_call_openai_api w) a b) as [r |] eqn:E2; eauto.
Qed.

Lemma is_tier_str (v : pyval) : is_tier v -> exists s, v = PStr s.
Proof. intros [-> | [-> | ->]]; eauto. Qed.

Lemma list_of_3_iterate (v : pyval) : list_of_3 v -> App.iterate v = Ok tt.
Proof. intros (l & -> & _). reflexivity. Qed.

Lemma drawable_renders (r : ComparisonResult) :
  drawable r ->
  (App.render_career_card (career_a r) ;;;
   App.render_career_card (career_b r) ;;;
   App.render_decision_guide (decision_guide r)) = Ok tt.
Proof.
  intros (((Hpa & Hca) & (Hpb & Hcb) & (g & Hg & _)) & Ha & Hb).
  apply is_tier_str in Ha. destruct Ha as (sa & Ea).
  apply is_tier_str in Hb. destruct Hb as (sb & Eb).
  unfold App.render_career_card, App.render_decision_guide.
  rewrite Ea, Eb, !list_of_3_iterate by assumption.
  rewrite Hg. reflexivity.
Qed.

Ltac session_parts :=
  unfold session_ok;
  cbn [App.ss_page App.ss_user_name App.ss_career_a App.ss_career_b
       App.ss_comparison_data];
  split; [| split; [| split; [| split; [| split]]]].

Lemma session_ok_cleared :
  session_ok (App.mkSession (Some "input") None None None None).
Proof. session_parts; auto; intros; discriminate. Qed.

Lemma session_ok_input (w : World) (ev : App.widgets) (s : App.session) :
  App.ss_page s = Some "input" ->
  (forall r, App.ss_comparison_data s = Some r -> drawable r) ->
  (forall n, App.ss_user_name s = Some n ->
             validate_user_name (PStr n) = true) ->
  (forall a, App.ss_career_a s = Some a ->
             validate_career_input (PStr a) = true) ->
  (forall b, App.ss_career_b s = Some b ->
             validate_career_input (PStr b) = true) ->
  session_ok (fst (App.render_input_page_handler w ev s))
  /\ forall e,
      snd (App.render_input_page_handler w ev s) <> App.Raised e.
Proof.
  intros Hp Hd Hn Ha Hb. unfold App.render_input_page_handler.
  destruct (render_input_page _ _ _ _) as [[[n a] b] |] eqn:E.
  - apply render_input_page_Some in E. destruct E as (Hvn & Hva & Hvb).
    destruct (run_referee_drawable w a b) as (r & -> & Hr).
    cbn [fst snd]. split; [| discriminate].
    session_parts.
    + auto.
    + intros _. exists n, a, b, r. auto.
    + now intros r' [= <-].
    + now intros n' [= <-].
    + now intros a' [= <-].
    + now intros b' [= <-].
  - cbn [fst snd]. split; [| discriminate].
    session_parts; auto. intros H. congruence.
Qed.

Lemma session_ok_step (w : World) (ev : App.widgets) (s : App.session) :
  session_ok s ->
  session_ok (fst (App.main w ev s))
  /\ forall e, snd (App.main w ev s) <> App.Raised e.
Proof.
  intros (Hpage & Hcmp & Hdata & Hn & Ha & Hb).
  unfold App.main. destruct (App.ss_page s) as [p |] eqn:Ep.
  - rewrite Ep. destruct Hpage as [H | [H | H]]; [discriminate | |];
      injection H as ->.
    + change (String.eqb "input" "input") with true. cbv iota.
      now apply session_ok_input.
    + change (String.eqb "comparison" "input") with false.
      change (String.eqb "comparison" "comparison") with true. cbv iota.
      destruct (Hcmp eq_refl) as (n & a & b & r & En & Ea & Eb & Er).
      unfold App.render_comparison_page_handler.
      rewrite En, Ea, Eb, Er. unfold App.render_comparison_page.
      rewrite (drawable_renders r (Hdata r Er)).
      destruct (App.back_pressed ev); cbn [fst snd].
      * split; [apply session_ok_cleared | discriminate].
      * split; [| discriminate].
        session_parts; auto.
  - cbn [App.ss_page].
    change (String.eqb "input" "input") with true. cbv iota.
    now apply session_ok_input.
Qed.

(** X24. Between the runs of the script the session stays in order:
    starting from the empty session, after any sequence of runs the page
    is unset, "input" or "comparison"; on the comparison page the name,
    the two careers and the comparison are all stored; a stored
    comparison passes the construction checks and has tier salaries;
    the stored name and careers pass their validators; and no run ends
    with an exception, neither from [run_referee] nor from the drawing
    of the cards. *)
Theorem session_stays_in_order (steps : list (World * App.widgets)) :
  session_ok (App.runs steps App.empty_session)
  /\ forall w ev e,
       snd (App.main w ev (App.runs steps App.empty_session))
       <> App.Raised e.
Proof.
  assert (H0 : session_ok App.empty_session).
  { session_parts; auto; intros; discriminate. }
  assert (Hruns : forall steps s,
             session_ok s -> session_ok (App.runs steps s)).
  { clear steps. induction steps as [| [w ev] steps IH]; intros s Hs;
      [assumption |].
    cbn [App.runs]. apply IH. now apply session_ok_step. }
  split.
  - now apply Hruns.
  - intros w ev. apply session_ok_step. now apply Hruns.
Qed.

(** X25. Submitting a good form and then pressing the button that goes
    back.  From a session on the input page (or with no page yet), a run
    in which [render_input_page] returns a triple stores the triple and
    the result of [run_referee] on the two careers, turns to the
    comparison page and asks for a rerun; a next run in which the back
    button is pressed leaves only the page, set to "input": the name,
    the careers and the comparison are gone, whatever the world of that
    run. *)
Theorem submit_then_back (w w' : World) (ev ev' : App.widgets)
        (s : App.session) (n a b : string) :
  App.ss_page s = None \/ App.ss_page s = Some "input" ->
  render_input_page (App.name_field ev) (App.career_a_field ev)
                    (App.career_b_field ev) (App.submitted ev)
  = Some (n, a, b) ->
  App.back_pressed ev' = true ->
  (exists r,
      run_referee w a b = Ok r
      /\ App.main w ev s
         = (App.mkSession (Some "comparison") (Some n) (Some a) (Some b)
                          (Some r), App.Rerun))
  /\ App.main w' ev' (fst (App.main w ev s))
     = (App.mkSession (Some "input") None None None None, App.Rerun).
Proof.
  intros Hp Hin Hback.
  destruct (run_referee_drawable w a b) as (r & Hr & Hd).
  assert (E : App.main w ev s
              = (App.mkSession (Some "comparison") (Some n) (Some a)
                               (Some b) (Some r), App.Rerun)).
  { unfold App.main.
    destruct Hp as [Hp | Hp]; rewrite Hp; cbn [App.ss_page];
      rewrite ?Hp;
      change (String.eqb "input" "input") with true; cbv iota;
      unfold App.render_input_page_handler;
      rewrite Hin, Hr; reflexivity. }
  split; [now exists r |].
  rewrite E. cbn [fst]. unfold App.main. cbn [App.ss_page].
  change (String.eqb "comparison" "input") with false.
  change (String.eqb "comparison" "comparison") with true. cbv iota.
  unfold App.render_comparison_page_handler.
  cbn [App.ss_user_name App.ss_career_a App.ss_career_b
       App.ss_comparison_data].
  unfold App.render_comparison_page.
  now rewrite (drawable_renders r Hd), Hback.
Qed.

Lemma submit_then_back_witness :
  (exists r,
      run_referee offline "Nurse" "Teacher" = Ok r
      /\ App.main offline
           (App.mkWidgets " Asha" "Nurse " " Teacher" true false)
           App.empty_session
         = (App.mkSession (Some "comparison") (Some "Asha") (Some "Nurse")
                          (Some "Teacher") (Some r), App.Rerun))
  /\ App.main hosted (App.mkWidgets "" "" "" false true)
       (fst (App.main offline
               (App.mkWidgets " Asha" "Nurse " " Teacher" true false)
               App.empty_session))
     = (App.mkSession (Some "input") None None None None, App.Rerun).
Proof.
  apply (submit_then_back offline hosted
           (App.mkWidgets " Asha" "Nurse " " Teacher" true false)
           (App.mkWidgets "" "" "" false true)
           App.empty_session "Asha" "Nurse" "Teacher").
  - left. reflexivity.
  - vm_compute. reflexivity.
  - reflexivity.
Defined.
